(** * resnet-training: patch extraction, preprocessing and resumable training

    A shallow embedding of [app.py].  Python integers are [Z], strings are
    [string], byte strings are [list byte].  The local disk and the remote
    blob account are finite maps; every function that touches them is
    written in a state-and-exception monad whose state survives a raised
    exception, as files written before a failure stay on disk. *)

From Stdlib Require Import ZArith List String Ascii Bool Lia.
From Stdlib.Strings Require Import Byte.
From Stdlib Require Import DecimalString DecimalZ DecimalPos.
From Stdlib Require Import QArith Reals Lra.
From stdpp Require Import gmap strings list fin_maps.

Local Open Scope Z_scope.

(** ** Python values shared by all functions *)

Inductive Exception : Type :=
  | ValueError (msg : string)
  | KeyError (key : string)
  | TypeError (msg : string)
  | ZeroDivisionError (msg : string)
  | OSError (msg : string)
  | AzureError (msg : string)
  | UnidentifiedImageError (msg : string)
  | RuntimeError (msg : string)
  | UnpicklingError (msg : string).

(** [str(e)] as used by the f-strings of the handlers. *)
Definition str_exc (e : Exception) : string :=
  match e with
  | ValueError m | TypeError m | ZeroDivisionError m | OSError m
  | AzureError m | UnidentifiedImageError m | RuntimeError m
  | UnpicklingError m => m
  | KeyError k => "'" +:+ k +:+ "'"
  end.

Inductive result (A : Type) : Type :=
  | Ok (a : A)
  | Raise (e : Exception).
Arguments Ok {A} a.
Arguments Raise {A} e.

(** [str(n)] for an integer. *)
Definition str_int (n : Z) : string := NilZero.string_of_int (Z.to_int n).

(** CPython's length of [range(start, stop, step)] for a non-zero step. *)
Definition range_len (start stop step : Z) : Z :=
  if 0 <? step then
    if start <? stop then (stop - 1 - start) / step + 1 else 0
  else
    if stop <? start then (start - 1 - stop) / (- step) + 1 else 0.

(** [range(start, stop, step)]; a zero step raises [ValueError]. *)
Definition range (start stop step : Z) : result (list Z) :=
  if step =? 0 then Raise (ValueError "range() arg 3 must not be zero")
  else Ok (map (fun k : nat => start + Z.of_nat k * step)
               (seq 0 (Z.to_nat (range_len start stop step)))).

(** [range(start, stop)], the unit-step form of the epoch loop. *)
Definition range2 (start stop : Z) : list Z :=
  map (fun k : nat => start + Z.of_nat k) (seq 0 (Z.to_nat (stop - start))).

(** ** Strings: [lower], [endswith], [replace], [os.path.splitext] *)

Definition lower_ascii (c : ascii) : ascii :=
  let n := nat_of_ascii c in
  if (Nat.leb 65 n && Nat.leb n 90)%bool then ascii_of_nat (n + 32) else c.

Fixpoint lower (s : string) : string :=
  match s with
  | EmptyString => EmptyString
  | String c s' => String (lower_ascii c) (lower s')
  end.

Definition endswith (s suffix : string) : bool :=
  let n := String.length s in
  let k := String.length suffix in
  (Nat.leb k n && String.eqb (substring (n - k) k s) suffix)%bool.

(** [s.endswith((a, b, ...))]: true when one of the suffixes matches. *)
Definition endswith_any (s : string) (suffixes : list string) : bool :=
  existsb (endswith s) suffixes.

(** [s.replace(old, new)] for a one-character [old] and [new]. *)
Fixpoint replace_char (old new : ascii) (s : string) : string :=
  match s with
  | EmptyString => EmptyString
  | String c s' =>
      String (if Ascii.eqb c old then new else c) (replace_char old new s')
  end.

(** [s.rfind(c)]: index of the last occurrence, [-1] when absent. *)
Fixpoint rfind_from (c : ascii) (s : string) (i : Z) (last : Z) : Z :=
  match s with
  | EmptyString => last
  | String d s' => rfind_from c s' (i + 1) (if Ascii.eqb d c then i else last)
  end.
Definition rfind (c : ascii) (s : string) : Z := rfind_from c s 0 (-1).

(** The scan of [posixpath.splitext] over the leading dots of the last
    component: is there a character other than the dot in
    [p[filenameIndex:dotIndex]]? *)
Fixpoint has_non_dot (s : string) : bool :=
  match s with
  | EmptyString => false
  | String c s' => if Ascii.eqb c "."%char then has_non_dot s' else true
  end.

Definition splitext (p : string) : string * string :=
  let sepIndex := rfind "/"%char p in
  let dotIndex := rfind "."%char p in
  if (sepIndex <? dotIndex) &&
     has_non_dot (substring (Z.to_nat (sepIndex + 1))
                            (Z.to_nat (dotIndex - (sepIndex + 1))) p)
  then (substring 0 (Z.to_nat dotIndex) p,
        substring (Z.to_nat dotIndex) (String.length p - Z.to_nat dotIndex) p)
  else (p, EmptyString).

(** A path [os.path.join(dir, name)], kept as its directory and its entry. *)
Definition path : Type := string * string.
Definition path_join (d f : string) : path := (d, f).
Definition path_str (p : path) : string :=
  if (String.eqb (fst p) EmptyString || endswith (fst p) "/")%bool
  then fst p +:+ snd p
  else fst p +:+ "/" +:+ snd p.

(** ** Floating-point scalars, as an interface

    The program only adds, subtracts, multiplies and divides its floats;
    the algebraic results below instantiate the interface with the reals. *)
Class Scalar (F : Type) : Type := {
  f_zero : F;
  f_one : F;
  f_add : F -> F -> F;
  f_sub : F -> F -> F;
  f_mul : F -> F -> F;
  f_div : F -> F -> F;
  f_of_Z : Z -> F
}.

#[export] Instance R_scalar : Scalar R := {|
  f_zero := 0%R; f_one := 1%R;
  f_add := Rplus; f_sub := Rminus; f_mul := Rmult; f_div := Rdiv;
  f_of_Z := IZR
|}.

#[export] Instance Q_scalar : Scalar Q := {|
  f_zero := 0%Q; f_one := 1%Q;
  f_add := Qplus; f_sub := Qminus; f_mul := Qmult; f_div := Qdiv;
  f_of_Z := inject_Z
|}.

(** ** Images, files and observable calls *)

(** A decoded [PIL.Image]; [img.size] is a pair of non-negative integers. *)
Record Image : Type := { width : N; height : N; pixels : list byte }.

(** [img.crop(box).convert('RGB')]: the region [box] of the image. *)
Record Patch : Type := { source : Image; box : Z * Z * Z * Z }.
Definition crop (img : Image) (b : Z * Z * Z * Z) : Patch :=
  {| source := img; box := b |}.

Inductive content : Type :=
  | PatchPng (p : Patch)
  | RawBytes (b : list byte).

Inductive node : Type :=
  | File (c : content)
  | Dir (entries : gmap string content).

Inductive Event : Type :=
  | EvListBlobs (container : string)
  | EvDownload (container blob : string)
  | EvCreateContainer (container : string)
  | EvUpload (container blob : string)
  | EvSave (dir name : string) (c : content)
  | EvTrainStep (epoch : Z) (batch : nat).

(** How [main] returns when it does not raise. *)
Inductive Exit : Type := ExitEmptyDataset | ExitResumeFailed | ExitFinished.

Section Program.

Context {F : Type} {FS : Scalar F} {OptState : Type}.

(** ** Networks, checkpoints and the program state *)

(** A tensor value: its entries and whether autograd tracks it. *)
Record Tensor : Type := { values : list F; tracked : bool }.

(** An [nn.Parameter] object: the [.data] entries and the [requires_grad] flag. *)
Record Param : Type := { data : list F; requires_grad : bool }.

(** An [nn.Module] as its named parameters, in registration order. *)
Definition Net : Type := list (string * Param).

(** The values a checkpoint dictionary holds. *)
Inductive pyval : Type :=
  | PInt (z : Z)
  | PFloat (x : F)
  | PStateDict (sd : list (string * list F))
  | POptState (o : OptState)
  | PNone.

(** What [torch.load] can return: a dictionary or some other object. *)
Inductive pyobj : Type :=
  | ODict (d : gmap string pyval)
  | OValue (v : pyval).

(** The objects [main] mutates in place. *)
Record Heap : Type := {
  online_network : Net;
  target_network : Net;
  prediction_head : Net;
  optimizer : OptState
}.

Record World : Type := {
  fs : gmap string node;
  azure : gmap string (gmap string (list byte));
  calls : list Event;
  stdout : list string;
  heap : Heap;
  grad_enabled : bool;
  tape : list string
}.

(** What the program cannot decide by itself: whether a connection string
    parses, whether the next remote call or the next local write fails
    (given the calls made so far), how bytes decode, how [torch] pickles,
    how the networks are initialised and what one optimisation step
    (loading and augmenting the batch, forward passes, loss, backward pass,
    [optimizer.step()]) computes from the state, the epoch and the number
    of the batch: the new online network, prediction head and optimizer
    state, and the loss.  The target network is no argument of the
    optimizer, and a step is taken not to raise. *)
Record Env : Type := {
  conn_ok : string -> bool;
  remote_fault : list Event -> option Exception;
  disk_fault : list Event -> option Exception;
  Image_open : list byte -> result Image;
  png_encode : Patch -> list byte;
  torch_save : pyobj -> list byte;
  torch_load : list byte -> result pyobj;
  new_online_network : Net;
  new_prediction_head : Net;
  new_optimizer : OptState;
  optimizer_accepts : OptState -> OptState -> bool;
  train_step : Heap -> Z -> nat -> Net * Net * OptState * F
}.

(** State and exceptions; the state is kept when an exception is raised. *)
Definition M (A : Type) : Type := World -> result A * World.

Definition ret {A} (a : A) : M A := fun w => (Ok a, w).
Definition raise {A} (e : Exception) : M A := fun w => (Raise e, w).
Definition bind {A B} (m : M A) (k : A -> M B) : M B :=
  fun w => match m w with
           | (Ok a, w') => k a w'
           | (Raise e, w') => (Raise e, w')
           end.
(** [try: body except Exception as e: handler e]. *)
Definition try_except {A} (body : M A) (handler : Exception -> M A) : M A :=
  fun w => match body w with
           | (Ok a, w') => (Ok a, w')
           | (Raise e, w') => handler e w'
           end.
Definition lift {A} (r : result A) : M A := fun w => (r, w).

Notation "x <~ c ;; k" := (bind c (fun x => k))
  (at level 100, c at next level, right associativity).
Notation "c ;;; k" := (bind c (fun _ => k))
  (at level 100, right associativity).

(** [for x in xs: body], threading the loop-carried local [s]. *)
Fixpoint for_ {A S} (xs : list A) (body : A -> S -> M S) (s : S) : M S :=
  match xs with
  | [] => ret s
  | x :: xs' => s' <~ body x s ;; for_ xs' body s'
  end.

Definition get_world : M World := fun w => (Ok w, w).
Definition emit (ev : Event) : M unit :=
  fun w => (Ok tt, {| fs := fs w; azure := azure w; calls := calls w ++ [ev];
                      stdout := stdout w; heap := heap w;
                      grad_enabled := grad_enabled w; tape := tape w |}).
Definition print (line : string) : M unit :=
  fun w => (Ok tt, {| fs := fs w; azure := azure w; calls := calls w;
                      stdout := stdout w ++ [line]; heap := heap w;
                      grad_enabled := grad_enabled w; tape := tape w |}).
Definition set_fs (f : gmap string node) : M unit :=
  fun w => (Ok tt, {| fs := f; azure := azure w; calls := calls w;
                      stdout := stdout w; heap := heap w;
                      grad_enabled := grad_enabled w; tape := tape w |}).
Definition set_azure (a : gmap string (gmap string (list byte))) : M unit :=
  fun w => (Ok tt, {| fs := fs w; azure := a; calls := calls w;
                      stdout := stdout w; heap := heap w;
                      grad_enabled := grad_enabled w; tape := tape w |}).
Definition set_heap (h : Heap) : M unit :=
  fun w => (Ok tt, {| fs := fs w; azure := azure w; calls := calls w;
                      stdout := stdout w; heap := h;
                      grad_enabled := grad_enabled w; tape := tape w |}).
Definition set_grad_enabled (b : bool) (w : World) : World :=
  {| fs := fs w; azure := azure w; calls := calls w; stdout := stdout w;
     heap := heap w; grad_enabled := b; tape := tape w |}.
Definition push_tape (op : string) : M unit :=
  fun w => (Ok tt, {| fs := fs w; azure := azure w; calls := calls w;
                      stdout := stdout w; heap := heap w;
                      grad_enabled := grad_enabled w; tape := tape w ++ [op] |}).

Variable env : Env.

(** *** The blob client and the file system calls *)

Definition remote_check : M unit :=
  w <~ get_world ;;
  match remote_fault env (calls w) with
  | Some e => raise e
  | None => ret tt
  end.

Definition disk_check : M unit :=
  w <~ get_world ;;
  match disk_fault env (calls w) with
  | Some e => raise e
  | None => ret tt
  end.

(** [BlobServiceClient.from_connection_string]: parses, no network. *)
Definition from_connection_string (connection_string : string) : M unit :=
  if conn_ok env connection_string then ret tt
  else raise (ValueError "Connection string is either blank or malformed.").

(** [get_blob_client(name).download_blob().readall()]. *)
Definition download_blob (container blob_name : string) : M (list byte) :=
  emit (EvDownload container blob_name) ;;;
  remote_check ;;;
  w <~ get_world ;;
  match azure w !! container with
  | None => raise (AzureError "ContainerNotFound")
  | Some blobs =>
      match blobs !! blob_name with
      | None => raise (AzureError "BlobNotFound")
      | Some b => ret b
      end
  end.

(** [[blob.name for blob in container_client.list_blobs()]]. *)
Definition list_blobs (container : string) : M (list string) :=
  emit (EvListBlobs container) ;;;
  remote_check ;;;
  w <~ get_world ;;
  match azure w !! container with
  | None => raise (AzureError "ContainerNotFound")
  | Some blobs => ret (map fst (map_to_list blobs))
  end.

(** [blob_service_client.create_container(name)]. *)
Definition create_container (container : string) : M unit :=
  emit (EvCreateContainer container) ;;;
  remote_check ;;;
  w <~ get_world ;;
  match azure w !! container with
  | Some _ => raise (AzureError "ContainerAlreadyExists")
  | None => set_azure (<[container := ∅]> (azure w))
  end.

(** [blob_client.upload_blob(data, overwrite=True)]. *)
Definition upload_blob (container blob_name : string) (b : list byte)
  : M unit :=
  emit (EvUpload container blob_name) ;;;
  remote_check ;;;
  w <~ get_world ;;
  match azure w !! container with
  | None => raise (AzureError "ContainerNotFound")
  | Some blobs =>
      set_azure (<[container := <[blob_name := b]> blobs]> (azure w))
  end.

(** Writing the entry [name] of the directory [dir]
    ([patch.save], [torch.save]). *)
Definition write_file (p : path) (c : content) : M unit :=
  let '(dir, name) := p in
  emit (EvSave dir name c) ;;;
  disk_check ;;;
  w <~ get_world ;;
  match fs w !! dir with
  | Some (Dir entries) =>
      set_fs (<[dir := Dir (<[name := c]> entries)]> (fs w))
  | Some (File _) => raise (OSError "Not a directory")
  | None => raise (OSError "No such file or directory")
  end.

(** [open(p, "rb").read()]. *)
Definition read_file (p : path) : M (list byte) :=
  let '(dir, name) := p in
  w <~ get_world ;;
  match fs w !! dir with
  | Some (Dir entries) =>
      match entries !! name with
      | Some (RawBytes b) => ret b
      | Some (PatchPng q) => ret (png_encode env q)
      | None => raise (OSError "No such file or directory")
      end
  | Some (File _) => raise (OSError "Not a directory")
  | None => raise (OSError "No such file or directory")
  end.

(** [os.path.exists], [os.listdir], [os.makedirs(exist_ok=True)]. *)
Definition path_exists (p : string) : M bool :=
  w <~ get_world ;;
  ret (match fs w !! p with Some _ => true | None => false end).

Definition listdir (p : string) : M (list string) :=
  w <~ get_world ;;
  match fs w !! p with
  | Some (Dir entries) => ret (map fst (map_to_list entries))
  | Some (File _) => raise (OSError "Not a directory")
  | None => raise (OSError "No such file or directory")
  end.

Definition makedirs (p : string) : M unit :=
  w <~ get_world ;;
  match fs w !! p with
  | Some (Dir _) => ret tt
  | Some (File _) => raise (OSError "File exists")
  | None => disk_check ;;; set_fs (<[p := Dir ∅]> (fs w))
  end.

(** *** [process_blob] *)

Definition patch_filename (blob_name : string) (patch_num : Z) : string :=
  let original_filename :=
    replace_char "/"%char "_"%char (fst (splitext blob_name)) in
  original_filename +:+ "_patch_" +:+ str_int patch_num +:+ ".png".

Definition process_blob (args : string * string * string * string * Z)
  : M string :=
  let '(blob_name, connection_string, source_container,
        local_target_dir, patch_size) := args in
  from_connection_string connection_string ;;;
  try_except
    (image_bytes <~ download_blob source_container blob_name ;;
     img <~ lift (Image_open env image_bytes) ;;
     let width := Z.of_N (width img) in
     let height := Z.of_N (height img) in
     ys <~ lift (range 0 (height - patch_size + 1) patch_size) ;;
     for_ ys (fun y patch_num =>
       xs <~ lift (range 0 (width - patch_size + 1) patch_size) ;;
       for_ xs (fun x patch_num =>
         let box := (x, y, x + patch_size, y + patch_size) in
         let patch := crop img box in
         let save_path :=
           path_join local_target_dir (patch_filename blob_name patch_num) in
         write_file save_path (PatchPng patch) ;;;
         ret (patch_num + 1)) patch_num) 0 ;;;
     ret ("Processed " +:+ blob_name))
    (fun e => ret ("Failed to process " +:+ blob_name +:+ ": " +:+ str_exc e)).

(** *** [upload_checkpoint_to_azure] *)

Definition upload_checkpoint_to_azure
  (connection_string container_name : string) (local_file_path : path)
  (blob_name : string) : M unit :=
  try_except
    (from_connection_string connection_string ;;;
     try_except
       (create_container container_name ;;;
        print ("Container '" +:+ container_name +:+ "' created."))
       (fun _ =>
        print ("Container '" +:+ container_name +:+ "' already exists.")) ;;;
     print ("Uploading checkpoint to Azure as blob: " +:+ blob_name +:+ "...") ;;;
     data <~ read_file local_file_path ;;
     upload_blob container_name blob_name data ;;;
     print "Checkpoint successfully uploaded to Azure.")
    (fun e =>
     print ("WARNING: Failed to upload checkpoint to Azure. Error: "
            +:+ str_exc e)).

(** *** [preprocess_and_save_locally] *)

Definition image_suffixes : list string := ["jpg"; "jpeg"; "png"].

(** [pool.imap_unordered(f, tasks)], one task after the other: the
    results, in the order of the tasks. *)
Fixpoint pool_imap_unordered {A B} (f : A -> M B) (tasks : list A)
  : M (list B) :=
  match tasks with
  | [] => ret []
  | task :: tasks' =>
      r <~ f task ;;
      rs <~ pool_imap_unordered f tasks' ;;
      ret (r :: rs)
  end.

Definition preprocess_and_save_locally
  (connection_string source_container local_target_dir : string)
  (patch_size : Z) : M unit :=
  ex <~ path_exists local_target_dir ;;
  populated <~ (if ex : bool then
                  names <~ listdir local_target_dir ;;
                  ret (0 <? Z.of_nat (length names))
                else ret false) ;;
  if populated : bool then
    print ("Patches already exist in local cache ('" +:+ local_target_dir
           +:+ "'). Skipping preprocessing.")
  else
    print ("Starting parallel preprocessing: downloading from '"
           +:+ source_container +:+ "'...") ;;;
    makedirs local_target_dir ;;;
    try_except
      (from_connection_string connection_string ;;;
       names <~ list_blobs source_container ;;
       let image_blobs :=
         List.filter (fun name => endswith_any (lower name) image_suffixes)
                     names in
       match image_blobs with
       | [] => print ("Warning: No images found in source container '"
                      +:+ source_container +:+ "'.")
       | _ =>
           let tasks :=
             map (fun blob_name =>
                    (blob_name, connection_string, source_container,
                     local_target_dir, patch_size)) image_blobs in
           pool_imap_unordered process_blob tasks ;;;
           print ("Parallel preprocessing complete. All patches saved to '"
                  +:+ local_target_dir +:+ "'.")
       end)
      (fun e =>
       print ("FATAL: An error occurred during preprocessing orchestration: "
              +:+ str_exc e) ;;;
       raise e).

(** *** [PatchedImageDataset] and the data loader *)

Record Dataset : Type := { root_dir : string; image_paths : list path }.

Definition PatchedImageDataset (root : string) : M Dataset :=
  names <~ listdir root ;;
  ret {| root_dir := root; image_paths := map (path_join root) names |}.

Definition dataset_len (d : Dataset) : Z := Z.of_nat (length (image_paths d)).

Record DataLoader : Type := {
  dataset_of : Dataset; batch_size : Z; drop_last : bool
}.

Definition new_DataLoader (d : Dataset) (bs : Z) (dl : bool)
  : result DataLoader :=
  if bs <=? 0 then
    Raise (ValueError "batch_size should be a positive integer value")
  else Ok {| dataset_of := d; batch_size := bs; drop_last := dl |}.

(** [len(dataloader)]: full batches only when [drop_last] is set. *)
Definition dataloader_len (dl : DataLoader) : Z :=
  if drop_last dl then dataset_len (dataset_of dl) / batch_size dl
  else (dataset_len (dataset_of dl) + batch_size dl - 1) / batch_size dl.

(** *** State dictionaries *)

Fixpoint assoc {A} (k : string) (l : list (string * A)) : option A :=
  match l with
  | [] => None
  | (k', v) :: l' => if String.eqb k k' then Some v else assoc k l'
  end.

Definition state_dict (m : Net) : list (string * list F) :=
  map (fun np => (fst np, data (snd np))) m.

(** One parameter of [load_state_dict]: copied in place when the key is
    present with the same shape, reported otherwise. *)
Definition load_param (sd : list (string * list F)) (np : string * Param)
  : (string * Param) * bool :=
  match assoc (fst np) sd with
  | Some v =>
      if Nat.eqb (length v) (length (data (snd np)))
      then ((fst np, {| data := v; requires_grad := requires_grad (snd np) |}),
            true)
      else (np, false)
  | None => (np, false)
  end.

(** [module.load_state_dict(sd)] with [strict=True]: the matching entries
    are copied in place, then missing keys, unexpected keys or shape
    mismatches raise [RuntimeError]. *)
Definition load_state_dict (sd : list (string * list F)) (m : Net)
  : Net * result unit :=
  let loaded := map (load_param sd) m in
  let m' := map fst loaded in
  if (forallb snd loaded &&
      forallb (fun kv => match assoc (fst kv) m with
                         | Some _ => true
                         | None => false
                         end) sd)%bool
  then (m', Ok tt)
  else (m', Raise (RuntimeError "Error(s) in loading state_dict")).

Definition as_state_dict (v : pyval) : result (list (string * list F)) :=
  match v with
  | PStateDict sd => Ok sd
  | _ => Raise (TypeError "Expected state_dict to be dict-like")
  end.

Definition as_opt_state (v : pyval) : result OptState :=
  match v with
  | POptState o => Ok o
  | _ => Raise (TypeError "Expected an optimizer state_dict")
  end.

(** [checkpoint[key]]. *)
Definition getitem (o : pyobj) (key : string) : result pyval :=
  match o with
  | ODict d =>
      match d !! key with
      | Some v => Ok v
      | None => Raise (KeyError key)
      end
  | OValue _ => Raise (TypeError "object is not subscriptable")
  end.

(** [v + 1] for the epoch field. *)
Definition add_one (v : pyval) : result pyval :=
  match v with
  | PInt z => Ok (PInt (z + 1))
  | PFloat x => Ok (PFloat (f_add x f_one))
  | _ => Raise (TypeError "unsupported operand type(s) for +")
  end.

(** An integer argument of [range]. *)
Definition as_index (v : pyval) : result Z :=
  match v with
  | PInt z => Ok z
  | _ => Raise (TypeError "object cannot be interpreted as an integer")
  end.

(** [online_network[0].state_dict()]: the entries of the first child of
    the [nn.Sequential], their keys without the prefix. *)
Definition backbone_state_dict (m : Net) : list (string * list F) :=
  omap (fun np =>
          if String.prefix "0." (fst np)
          then Some (substring 2 (String.length (fst np) - 2) (fst np),
                     data (snd np))
          else None) m.

(** *** [update_moving_average] *)

(** A tensor operation is recorded on the autograd tape when gradient
    mode is on and an operand is tracked. *)
Definition record_op (op : string) (needs_grad : bool) : M bool :=
  w <~ get_world ;;
  if (grad_enabled w && needs_grad)%bool then push_tape op ;;; ret true
  else ret false.

(** [c * t] for a Python float [c]. *)
Definition scalar_mul (c : F) (t : Tensor) : M Tensor :=
  tr <~ record_op "mul" (tracked t) ;;
  ret {| values := map (f_mul c) (values t); tracked := tr |}.

(** [a + b] for two tensors of one shape. *)
Definition tensor_add (a b : Tensor) : M Tensor :=
  if Nat.eqb (length (values a)) (length (values b)) then
    tr <~ record_op "add" (tracked a || tracked b)%bool ;;
    ret {| values := zip_with f_add (values a) (values b); tracked := tr |}
  else
    raise (RuntimeError "The size of tensor a must match the size of tensor b").

(** [p.data] read and [p.data = t]. *)
Definition get_data (p : Param) : Tensor :=
  {| values := data p; tracked := false |}.
Definition set_data (p : Param) (t : Tensor) : Param :=
  {| data := values t; requires_grad := requires_grad p |}.

(** [with torch.no_grad(): body]; the previous mode is restored on exit,
    also when [body] raises. *)
Definition no_grad {A} (body : M A) : M A :=
  fun w =>
    let prev := grad_enabled w in
    let '(r, w') := body (set_grad_enabled false w) in
    (r, set_grad_enabled prev w').

(** The loop over [zip(ema_model.parameters(), model.parameters())]. *)
Fixpoint ema_zip (ema_model model : Net) (decay : F) : M Net :=
  match ema_model, model with
  | (name, target_param) :: ema_rest, (_, online_param) :: rest =>
      a <~ scalar_mul decay (get_data target_param) ;;
      b <~ scalar_mul (f_sub f_one decay) (get_data online_param) ;;
      s <~ tensor_add a b ;;
      ema_rest' <~ ema_zip ema_rest rest decay ;;
      ret ((name, set_data target_param s) :: ema_rest')
  | _, _ => ret ema_model
  end.

Definition update_moving_average (ema_model model : Net) (decay : F) : M Net :=
  no_grad (ema_zip ema_model model decay).
(** *** [main] *)

Record Config : Type := {
  SOURCE_DATA_CONTAINER : string;
  LOCAL_PATCH_CACHE_DIR : string;
  LOCAL_MODEL_OUTPUT_DIR : string;
  PATCH_SIZE : Z;
  BATCH_SIZE : Z;
  NUM_EPOCHS : Z;
  LR : F;
  EMA_DECAY : F;
  connection_string : string;
  CHECKPOINT_CONTAINER : string;
  CHECKPOINT_BLOB_NAME : string
}.

(** The constants of [main]; the account key of the connection string is
    left out. *)
Definition app_config : Config := {|
  SOURCE_DATA_CONTAINER := "data";
  LOCAL_PATCH_CACHE_DIR := "/mnt/data";
  LOCAL_MODEL_OUTPUT_DIR := "/mnt/satellite-resnet2";
  PATCH_SIZE := 224;
  BATCH_SIZE := 256;
  NUM_EPOCHS := 50;
  LR := f_div f_one (f_of_Z 1000);
  EMA_DECAY := f_div (f_of_Z 999) (f_of_Z 1000);
  connection_string :=
    "DefaultEndpointsProtocol=https;AccountName=resnettrainingdata;EndpointSuffix=core.windows.net";
  CHECKPOINT_CONTAINER := "resnet18";
  CHECKPOINT_BLOB_NAME := "checkpoint_epoch_29.pth"
|}.

Definition set_online_network (m : Net) (h : Heap) : Heap :=
  {| online_network := m; target_network := target_network h;
     prediction_head := prediction_head h; optimizer := optimizer h |}.
Definition set_target_network (m : Net) (h : Heap) : Heap :=
  {| online_network := online_network h; target_network := m;
     prediction_head := prediction_head h; optimizer := optimizer h |}.
Definition set_prediction_head (m : Net) (h : Heap) : Heap :=
  {| online_network := online_network h; target_network := target_network h;
     prediction_head := m; optimizer := optimizer h |}.
Definition set_optimizer (o : OptState) (h : Heap) : Heap :=
  {| online_network := online_network h; target_network := target_network h;
     prediction_head := prediction_head h; optimizer := o |}.

(** [net.load_state_dict(v)] on one of the networks of the heap. *)
Definition module_load_state_dict
  (get : Heap -> Net) (set : Net -> Heap -> Heap) (v : pyval) : M unit :=
  sd <~ lift (as_state_dict v) ;;
  w <~ get_world ;;
  let '(m', outcome) := load_state_dict sd (get (heap w)) in
  set_heap (set m' (heap w)) ;;;
  lift outcome.

(** [optimizer.load_state_dict(v)]: validated against the parameter
    groups of the optimizer, then stored. *)
Definition optimizer_load_state_dict (v : pyval) : M unit :=
  o <~ lift (as_opt_state v) ;;
  w <~ get_world ;;
  if optimizer_accepts env (optimizer (heap w)) o
  then set_heap (set_optimizer o (heap w))
  else raise (ValueError "loaded state dict has a different number of parameter groups").

Definition str_val (v : pyval) : string :=
  match v with
  | PInt z => str_int z
  | _ => "<object>"
  end.

(** The body of the [try] block that loads the checkpoint; its value is
    the new [start_epoch]. *)
Definition load_checkpoint (cfg : Config) : M pyval :=
  from_connection_string (connection_string cfg) ;;;
  checkpoint_bytes <~
    download_blob (CHECKPOINT_CONTAINER cfg) (CHECKPOINT_BLOB_NAME cfg) ;;
  checkpoint <~ lift (torch_load env checkpoint_bytes) ;;
  print "Checkpoint successfully downloaded and loaded from Azure." ;;;
  v <~ lift (getitem checkpoint "online_network_state_dict") ;;
  module_load_state_dict online_network set_online_network v ;;;
  v <~ lift (getitem checkpoint "target_network_state_dict") ;;
  module_load_state_dict target_network set_target_network v ;;;
  v <~ lift (getitem checkpoint "prediction_head_state_dict") ;;
  module_load_state_dict prediction_head set_prediction_head v ;;;
  v <~ lift (getitem checkpoint "optimizer_state_dict") ;;
  optimizer_load_state_dict v ;;;
  e <~ lift (getitem checkpoint "epoch") ;;
  start_epoch <~ lift (add_one e) ;;
  print ("State loaded. Training will resume from epoch "
         +:+ str_val start_epoch +:+ ".") ;;;
  ret start_epoch.

Definition checkpoint_name (n : Z) : string :=
  "checkpoint_epoch_" +:+ str_int n +:+ ".pth".

(** The dictionary handed to [torch.save]. *)
Definition checkpoint_dict (epoch : Z) (h : Heap) (avg_loss : F)
  : gmap string pyval :=
  <["epoch" := PInt epoch]>
  (<["online_network_state_dict" := PStateDict (state_dict (online_network h))]>
  (<["target_network_state_dict" := PStateDict (state_dict (target_network h))]>
  (<["prediction_head_state_dict" := PStateDict (state_dict (prediction_head h))]>
  (<["optimizer_state_dict" := POptState (optimizer h)]>
  (<["loss" := PFloat avg_loss]> ∅))))).

(** The body of the loop over the batches of the data loader. *)
Definition train_batch (cfg : Config) (epoch : Z) (i : nat) (total_loss : F)
  : M F :=
  emit (EvTrainStep epoch i) ;;;
  w <~ get_world ;;
  let '(online', head', opt', loss) := train_step env (heap w) epoch i in
  set_heap {| online_network := online';
              target_network := target_network (heap w);
              prediction_head := head'; optimizer := opt' |} ;;;
  let total_loss := f_add total_loss loss in
  target' <~ update_moving_average (target_network (heap w)) online'
                                   (EMA_DECAY cfg) ;;
  w <~ get_world ;;
  set_heap (set_target_network target' (heap w)) ;;;
  ret total_loss.

(** The checkpoint block at the end of an epoch: [torch.save] to the local
    directory, then the upload. *)
Definition save_checkpoint (cfg : Config) (epoch : Z) (avg_loss : F) : M unit :=
  let checkpoint_save_path :=
    path_join (LOCAL_MODEL_OUTPUT_DIR cfg) (checkpoint_name (epoch + 1)) in
  print ("Saving checkpoint to " +:+ path_str checkpoint_save_path
         +:+ "...") ;;;
  w <~ get_world ;;
  write_file checkpoint_save_path
    (RawBytes (torch_save env
                 (ODict (checkpoint_dict epoch (heap w) avg_loss)))) ;;;
  print "Checkpoint saved." ;;;
  upload_checkpoint_to_azure (connection_string cfg) "resnet18"
    checkpoint_save_path (checkpoint_name (epoch + 1)).

(** [total_loss / len(dataloader)]: a float divided by an integer. *)
Definition mean_loss (total_loss : F) (n : Z) : M F :=
  if n =? 0 then raise (ZeroDivisionError "float division by zero")
  else ret (f_div total_loss (f_of_Z n)).

(** The body of the loop over the epochs. *)
Definition run_epoch (cfg : Config) (dataloader : DataLoader) (epoch : Z)
  : M unit :=
  total_loss <~
    for_ (seq 0 (Z.to_nat (dataloader_len dataloader)))
         (train_batch cfg epoch) f_zero ;;
  avg_loss <~ mean_loss total_loss (dataloader_len dataloader) ;;
  print ("Epoch " +:+ str_int (epoch + 1) +:+ " - Average Loss") ;;;
  if (epoch + 1) mod 1 =? 0 then save_checkpoint cfg epoch avg_loss
  else ret tt.

(** The training loop and the export of the backbone. *)
Definition training_loop (cfg : Config) (dataset : Dataset)
  (dataloader : DataLoader) (start_epoch : pyval) : M Exit :=
  print ("Starting training on " +:+ str_int (dataset_len dataset)
         +:+ " image patches from epoch " +:+ str_val start_epoch
         +:+ " to " +:+ str_int (NUM_EPOCHS cfg) +:+ "...") ;;;
  first <~ lift (as_index start_epoch) ;;
  for_ (range2 first (NUM_EPOCHS cfg))
       (fun epoch _ => run_epoch cfg dataloader epoch) tt ;;;
  print ("Saving final model backbone to local directory: "
         +:+ LOCAL_MODEL_OUTPUT_DIR cfg) ;;;
  let save_path :=
    path_join (LOCAL_MODEL_OUTPUT_DIR cfg) "resnet18_backbone_final.pth" in
  w <~ get_world ;;
  write_file save_path
    (RawBytes (torch_save env
       (OValue (PStateDict
          (backbone_state_dict (online_network (heap w))))))) ;;;
  print ("Training complete. Backbone saved to persistent storage at: "
         +:+ path_str save_path) ;;;
  ret ExitFinished.

(** The [try]/[except] around the checkpoint load, and what follows it:
    the handler returns from [main]. *)
Definition resume_and_train (cfg : Config) (dataset : Dataset)
  (dataloader : DataLoader) : M Exit :=
  loaded <~
    try_except
      (start_epoch <~ load_checkpoint cfg ;; ret (Some start_epoch))
      (fun e =>
       print ("FATAL: Failed to load checkpoint from Azure. Error: "
              +:+ str_exc e) ;;;
       print "Please ensure the checkpoint exists in the specified container and the connection string is correct." ;;;
       ret None) ;;
  match loaded with
  | None => ret ExitResumeFailed
  | Some start_epoch => training_loop cfg dataset dataloader start_epoch
  end.

(** The networks and the optimizer as [main] creates them; the target
    network is a deep copy of the online network. *)
Definition fresh_heap : Heap :=
  {| online_network := new_online_network env;
     target_network := new_online_network env;
     prediction_head := new_prediction_head env;
     optimizer := new_optimizer env |}.

(** [main] from the empty-dataset guard on. *)
Definition start_training (cfg : Config) (dataset : Dataset) : M Exit :=
  if dataset_len dataset =? 0 then
    print ("Error: No patches found in local cache '"
           +:+ LOCAL_PATCH_CACHE_DIR cfg +:+ "'. Aborting.") ;;;
    ret ExitEmptyDataset
  else
    dataloader <~ lift (new_DataLoader dataset (BATCH_SIZE cfg) true) ;;
    print "Initializing ResNet-18 model structure..." ;;;
    print "ResNet-18 structure initialized." ;;;
    set_heap fresh_heap ;;;
    makedirs (LOCAL_MODEL_OUTPUT_DIR cfg) ;;;
    print ("Attempting to load checkpoint '" +:+ CHECKPOINT_BLOB_NAME cfg
           +:+ "' from Azure container '" +:+ CHECKPOINT_CONTAINER cfg
           +:+ "'...") ;;;
    resume_and_train cfg dataset dataloader.

Definition main_with (cfg : Config) : M Exit :=
  (if String.eqb (connection_string cfg) EmptyString
   then raise (ValueError "Azure Storage connection string is not set.")
   else ret tt) ;;;
  print "Using device" ;;;
  preprocess_and_save_locally (connection_string cfg)
    (SOURCE_DATA_CONTAINER cfg) (LOCAL_PATCH_CACHE_DIR cfg) (PATCH_SIZE cfg) ;;;
  dataset <~ PatchedImageDataset (LOCAL_PATCH_CACHE_DIR cfg) ;;
  start_training cfg dataset.

Definition main : M Exit := main_with app_config.

End Program.

Arguments World : clear implicits.
Arguments Env : clear implicits.
Arguments Heap : clear implicits.
Arguments Config : clear implicits.
Arguments M : clear implicits.
Arguments Net : clear implicits.
Arguments pyval : clear implicits.
Arguments pyobj : clear implicits.

(** ** A small concrete world

    Rational scalars, an integer as optimizer state, images whose first two
    bytes give the size in units of 112 pixels, and a pickle format of one
    byte that holds the epoch of a checkpoint of [toy_heap]. *)
Module Toy.

Definition toy_net (x : Q) : Net Q :=
  [("0.weight", {| data := [x; x]; requires_grad := true |});
   ("1.weight", {| data := [x]; requires_grad := true |})].

Definition toy_heap : Heap Q Z :=
  {| online_network := toy_net 2; target_network := toy_net 3;
     prediction_head := [("weight", {| data := [5%Q]; requires_grad := true |})];
     optimizer := 7 |}.

Definition toy_open (b : list byte) : result Image :=
  match b with
  | w :: h :: _ =>
      Ok {| width := Byte.to_N w * 112; height := Byte.to_N h * 112;
            pixels := b |}
  | _ => Raise (UnidentifiedImageError "cannot identify image file")
  end.

Definition toy_save (o : pyobj Q Z) : list byte :=
  match o with
  | ODict d =>
      match d !! "epoch" with
      | Some (PInt z) =>
          match Byte.of_N (Z.to_N z) with
          | Some b => [b]
          | None => []
          end
      | _ => []
      end
  | OValue _ => []
  end.

Definition toy_load (b : list byte) : result (pyobj Q Z) :=
  match b with
  | [x] => Ok (ODict (checkpoint_dict (Z.of_N (Byte.to_N x)) toy_heap 0%Q))
  | _ => Raise (UnpicklingError "invalid load key")
  end.

Definition toy_step (h : Heap Q Z) (epoch : Z) (i : nat)
  : Net Q * Net Q * Z * Q :=
  (online_network h, prediction_head h, optimizer h + 1, 1%Q).

Definition env : Env Q Z := {|
  conn_ok := fun s => negb (String.eqb s EmptyString);
  remote_fault := fun _ => None;
  disk_fault := fun _ => None;
  Image_open := toy_open;
  png_encode := fun _ => [];
  torch_save := toy_save;
  torch_load := toy_load;
  new_online_network := toy_net 1;
  new_prediction_head := [("weight", {| data := [0%Q]; requires_grad := true |})];
  new_optimizer := 0;
  optimizer_accepts := fun _ _ => true;
  train_step := toy_step
|}.

(** The same environment with every remote call failing. *)
Definition offline_env : Env Q Z := {|
  conn_ok := conn_ok env;
  remote_fault := fun _ => Some (AzureError "ServiceRequestError");
  disk_fault := disk_fault env;
  Image_open := Image_open env;
  png_encode := png_encode env;
  torch_save := torch_save env;
  torch_load := torch_load env;
  new_online_network := new_online_network env;
  new_prediction_head := new_prediction_head env;
  new_optimizer := new_optimizer env;
  optimizer_accepts := optimizer_accepts env;
  train_step := train_step env
|}.

Definition cfg : Config Q := {|
  SOURCE_DATA_CONTAINER := "data";
  LOCAL_PATCH_CACHE_DIR := "/mnt/data";
  LOCAL_MODEL_OUTPUT_DIR := "/mnt/out";
  PATCH_SIZE := 224;
  BATCH_SIZE := 2;
  NUM_EPOCHS := 31;
  LR := (1 # 1000)%Q;
  EMA_DECAY := (999 # 1000)%Q;
  connection_string := "AccountName=toy";
  CHECKPOINT_CONTAINER := "resnet18";
  CHECKPOINT_BLOB_NAME := "checkpoint_epoch_29.pth"
|}.

Definition blobs : gmap string (list byte) :=
  <["a/one.jpg" := [x04; x04]]>
  (<["two.PNG" := [x05; x03]]>
  (<["broken.jpeg" := [x01]]>
  (<["notes_png" := [x02; x02]]>
  (<["readme.txt" := [x02; x02]]> ∅)))).

Definition world (cache : gmap string content) : World Q Z := {|
  fs := <["/mnt/data" := Dir cache]> (<["/mnt/out" := Dir ∅]> ∅);
  azure := <["data" := blobs]>
           (<["resnet18" := <["checkpoint_epoch_29.pth" := [x1c]]> ∅]> ∅);
  calls := [];
  stdout := [];
  heap := toy_heap;
  grad_enabled := true;
  tape := []
|}.

Definition some_patch : content :=
  PatchPng {| source := {| width := 224; height := 224; pixels := [] |};
              box := (0, 0, 224, 224) |}.

Definition cache_of (n : nat) : gmap string content :=
  list_to_map (map (fun k => (str_int (Z.of_nat k), some_patch)) (seq 0 n)).



(** Two datasets: five patches in batches of two, and a single patch. *)
Definition five_patches : Dataset :=
  {| root_dir := "/mnt/data";
     image_paths := map (fun k => path_join "/mnt/data" (str_int (Z.of_nat k)))
                        (seq 0 5) |}.

Definition batches_of_two : DataLoader :=
  {| dataset_of := five_patches; batch_size := 2; drop_last := true |}.

Definition one_patch : Dataset :=
  {| root_dir := "/mnt/data"; image_paths := [path_join "/mnt/data" "0"] |}.

End Toy.

(** * Vocabulary of the statements

    World transformers that name the effect of a successful call, the
    relations between an initial and a final world, and the definitions
    that follow the words of the specification. *)

Section Vocabulary.

Context {F : Type} {FS : Scalar F} {OptState : Type}.
Local Abbreviation World := (World F OptState).

(** ** Worlds after a call *)

Definition emitted (ev : Event) (w : World) : World :=
  {| fs := fs w; azure := azure w; calls := calls w ++ [ev];
     stdout := stdout w; heap := heap w;
     grad_enabled := grad_enabled w; tape := tape w |}.

Definition printed (line : string) (w : World) : World :=
  {| fs := fs w; azure := azure w; calls := calls w;
     stdout := stdout w ++ [line]; heap := heap w;
     grad_enabled := grad_enabled w; tape := tape w |}.

Definition with_heap (h : Heap F OptState) (w : World) : World :=
  {| fs := fs w; azure := azure w; calls := calls w; stdout := stdout w;
     heap := h; grad_enabled := grad_enabled w; tape := tape w |}.

(** The world after a write that succeeds. *)
Definition wrote (dir name : string) (c : content) (w : World) : World :=
  {| fs := match fs w !! dir with
           | Some (Dir entries) => <[dir := Dir (<[name := c]> entries)]> (fs w)
           | _ => fs w
           end;
     azure := azure w; calls := calls w ++ [EvSave dir name c];
     stdout := stdout w; heap := heap w;
     grad_enabled := grad_enabled w; tape := tape w |}.

Definition wrote_all (dir : string) (l : list (string * content)) (w : World)
  : World :=
  fold_left (fun w nc => wrote dir (fst nc) (snd nc) w) l w.

(** The world once [os.makedirs(dir, exist_ok=True)] has succeeded. *)
Definition with_dir (dir : string) (w : World) : World :=
  match fs w !! dir with
  | Some _ => w
  | None =>
      {| fs := <[dir := Dir ∅]> (fs w); azure := azure w; calls := calls w;
         stdout := stdout w; heap := heap w;
         grad_enabled := grad_enabled w; tape := tape w |}
  end.

(** The world after an upload that goes through. *)
Definition uploaded (c name : string) (b : list byte) (w : World) : World :=
  {| fs := fs w;
     azure := <[c := <[name := b]> (default ∅ (azure w !! c))]> (azure w);
     calls := calls w ++ [EvCreateContainer c; EvUpload c name];
     stdout :=
       stdout w
       ++ [("Container '" +:+ c +:+ "' "
            +:+ (match azure w !! c with
                 | Some _ => "already exists."
                 | None => "created."
                 end))%string;
           "Uploading checkpoint to Azure as blob: " +:+ name +:+ "...";
           "Checkpoint successfully uploaded to Azure."];
     heap := heap w; grad_enabled := grad_enabled w; tape := tape w |}.

(** ** The grid of patches, in the words of the specification *)

(** Cell [k] of the row-major scan of a grid of [cols] columns. *)
Definition grid_box (cols p k : Z) : Z * Z * Z * Z :=
  ((k mod cols) * p, (k / cols) * p, (k mod cols) * p + p, (k / cols) * p + p).

Definition grid_patch (blob : string) (img : Image) (p : Z) (k : nat)
  : string * content :=
  (patch_filename blob (Z.of_nat k),
   PatchPng (crop img (grid_box (Z.of_N (width img) / p) p (Z.of_nat k)))).

Definition grid_patches (blob : string) (img : Image) (p : Z)
  : list (string * content) :=
  map (grid_patch blob img p)
      (seq 0 (Z.to_nat ((Z.of_N (width img) / p) * (Z.of_N (height img) / p)))).

Definition in_bounds (img : Image) (b : Z * Z * Z * Z) : Prop :=
  let '(x0, y0, x1, y1) := b in
  0 <= x0 /\ x1 <= Z.of_N (width img) /\ 0 <= y0 /\ y1 <= Z.of_N (height img).

(** The entry written at column [c] of the row at [y], when the row starts
    at patch number [base]. *)
Definition cell (blob : string) (img : Image) (p : Z) (y base : Z) (c : nat)
  : string * content :=
  (patch_filename blob (base + Z.of_nat c),
   PatchPng (crop img (0 + Z.of_nat c * p, y,
                       0 + Z.of_nat c * p + p, y + p))).

(** The body of the inner loop of [process_blob]. *)
Definition inner_body (env : Env F OptState) (blob dir : string) (img : Image)
  (p : Z) (y x patch_num : Z) : M F OptState Z :=
  bind (write_file env (path_join dir (patch_filename blob patch_num))
          (PatchPng (crop img (x, y, x + p, y + p))))
       (fun _ => ret (patch_num + 1)).

(** The two return values of the worker. *)
Definition processed (blob : string) : string := "Processed " +:+ blob.
Definition failed (blob : string) (e : Exception) : string :=
  "Failed to process " +:+ blob +:+ ": " +:+ str_exc e.

Definition tasks_of (cs cont dir : string) (p : Z) (names : list string)
  : list (string * string * string * string * Z) :=
  map (fun blob_name => (blob_name, cs, cont, dir, p)) names.

(** The spec's words: the name has an image extension, case-insensitively
    one of jpg, jpeg or png. *)
Definition has_image_extension (name : string) : bool :=
  existsb (String.eqb (lower (snd (splitext name))))
          [".jpg"; ".jpeg"; ".png"]%string.

(** ** Relations between the initial and the final world *)

(** The entry [name] exists in the directory [dir]. *)
Definition present (dir name : string) (w : World) : Prop :=
  exists entries, fs w !! dir = Some (Dir entries) /\ is_Some (entries !! name).

(** Entries are added or overwritten, never removed. *)
Definition fs_grows (w w' : World) : Prop :=
  forall dir name, present dir name w -> present dir name w'.

(** The field [f] of the world is left as it was. *)
Definition same_on {X} (f : World -> X) (w w' : World) : Prop := f w' = f w.

(** The calls made are those of [w], followed by calls that satisfy [P]. *)
Definition calls_add (P : Event -> Prop) (w w' : World) : Prop :=
  exists t, calls w' = calls w ++ t /\ Forall P t.

(** Whatever the outcome, the final world is related to the initial one. *)
Definition preserves {A} (R : World -> World -> Prop) (m : M F OptState A)
  : Prop :=
  forall w, R w (snd (m w)).

Definition is_download (ev : Event) : Prop :=
  exists c b, ev = EvDownload c b.

Definition not_train_step (ev : Event) : Prop :=
  forall e i, ev <> EvTrainStep e i.

(** A training step of an epoch from [lo] up to, not including, [hi]; any
    other call. *)
Definition epoch_in (lo hi : Z) (ev : Event) : Prop :=
  forall e i, ev = EvTrainStep e i -> lo <= e < hi.

(** The training steps among the calls: epoch and batch number. *)
Definition train_steps (l : list Event) : list (Z * nat) :=
  omap (fun ev => match ev with
                  | EvTrainStep e i => Some (e, i)
                  | _ => None
                  end) l.


(** ** The moving average, in the words of the specification *)

(** [target <- decay * target + (1 - decay) * online]. *)
Definition ema_entry (decay x y : F) : F :=
  f_add (f_mul decay x) (f_mul (f_sub f_one decay) y).

Fixpoint ema_spec (ema_model model : Net F) (decay : F) : Net F :=
  match ema_model, model with
  | (name, t) :: ema_rest, (_, o) :: rest =>
      (name, {| data := zip_with (ema_entry decay) (data t) (data o);
                requires_grad := requires_grad t |})
      :: ema_spec ema_rest rest decay
  | _, _ => ema_model
  end.

(** Corresponding parameters have one shape. *)
Fixpoint shapes_agree (ema_model model : Net F) : Prop :=
  match ema_model, model with
  | (_, t) :: ema_rest, (_, o) :: rest =>
      length (data t) = length (data o) /\ shapes_agree ema_rest rest
  | _, _ => True
  end.



(** ** Checkpoints and the training loop *)

(** Two networks of one architecture: the same parameter names, in the
    same order, with the same shapes. *)
Definition same_arch (m0 m : Net F) : Prop :=
  Forall2 (fun a b => fst a = fst b /\
                      length (data (snd a)) = length (data (snd b))) m0 m.

(** The designated checkpoint cannot be fetched or cannot be
    deserialized, in the world [w]. *)
Definition fetch_or_deserialize_fails (env : Env F OptState) (cfg : Config F)
  (w : World) : Prop :=
  conn_ok env (connection_string cfg) = false \/
  (exists e w1,
      download_blob env (CHECKPOINT_CONTAINER cfg) (CHECKPOINT_BLOB_NAME cfg) w
      = (Raise e, w1)) \/
  (exists bytes w1 e,
      download_blob env (CHECKPOINT_CONTAINER cfg) (CHECKPOINT_BLOB_NAME cfg) w
      = (Ok bytes, w1) /\
      torch_load env bytes = Raise e).



End Vocabulary.

(** * Vocabulary of the further properties

    Names for what the statements about edge cases and invariants talk
    about: lists of writes, pixels and boxes, uploads. *)

(** The character [c] does not occur in [s]. *)
Fixpoint no_char (c : ascii) (s : string) : bool :=
  match s with
  | EmptyString => true
  | String d s' => negb (Ascii.eqb d c) && no_char c s'
  end.

(** [os.path.basename]: what follows the last slash. *)
Definition basename (p : string) : string :=
  substring (Z.to_nat (rfind "/"%char p + 1))
            (String.length p - Z.to_nat (rfind "/"%char p + 1)) p.

Section FurtherVocabulary.

Context {F : Type} {FS : Scalar F} {OptState : Type}.
Local Abbreviation World := (World F OptState).

(** The write calls of a list of entries of the directory [dir]. *)
Definition saves (dir : string) (l : list (string * content)) : list Event :=
  map (fun nc => EvSave dir (fst nc) (snd nc)) l.

(** Writing a list of entries one after the other, as the two loops of
    [process_blob] do with the cells of the grid. *)
Definition write_entries (env : Env F OptState) (dir : string)
  (l : list (string * content)) : M F OptState unit :=
  for_ l (fun nc _ => write_file env (path_join dir (fst nc)) (snd nc)) tt.

(** The pixel [(px, py)] lies in the box: left and upper edge included,
    right and lower edge excluded, as [Image.crop] reads a box. *)
Definition in_box (b : Z * Z * Z * Z) (px py : Z) : Prop :=
  let '(x0, y0, x1, y1) := b in x0 <= px < x1 /\ y0 <= py < y1.

(** The boxes of the patches written by a list of calls, in order. *)
Definition cropped_boxes (l : list Event) : list (Z * Z * Z * Z) :=
  omap (fun ev => match ev with
                  | EvSave _ _ (PatchPng q) => Some (box q)
                  | _ => None
                  end) l.

(** The blob [n] of the container [c] of the account, when both exist. *)
Definition blob_at (c n : string) (w : World) : option (list byte) :=
  match azure w !! c with
  | Some blobs => blobs !! n
  | None => None
  end.

(** Between [w] and [w'] no blob other than [name] of the container [c]
    has changed, and no container has gone. *)
Definition only_blob_changes (c name : string) (w w' : World) : Prop :=
  (forall c' n', c' <> c \/ n' <> name -> blob_at c' n' w' = blob_at c' n' w) /\
  (forall c', is_Some (azure w !! c') -> is_Some (azure w' !! c')).

(** The two remote calls of an upload to the blob [name] of [c]. *)
Definition create_or_upload (c name : string) (ev : Event) : Prop :=
  ev = EvCreateContainer c \/ ev = EvUpload c name.

(** Every directory other than [dir] is as it was. *)
Definition same_outside (dir : string) (w w' : World) : Prop :=
  forall d, d <> dir -> fs w' !! d = fs w !! d.


(** The listing of the container [cont] fails with [e] in the world [w]:
    the connection string does not parse, the call fails, or the
    container does not exist. *)
Definition listing_fails (env : Env F OptState) (cs cont : string) (w : World)
  (e : Exception) : Prop :=
  (conn_ok env cs = false /\
   e = ValueError "Connection string is either blank or malformed.") \/
  (conn_ok env cs = true /\
   remote_fault env (calls w ++ [EvListBlobs cont]) = Some e) \/
  (conn_ok env cs = true /\
   remote_fault env (calls w ++ [EvListBlobs cont]) = None /\
   azure w !! cont = None /\ e = AzureError "ContainerNotFound").

(** The cache directory is missing or empty, and can be created. *)
Definition cache_misses (env : Env F OptState) (dir : string) (w : World)
  : Prop :=
  fs w !! dir = Some (Dir ∅) \/
  fs w !! dir = None /\ disk_fault env (calls w) = None.

(** The calls of the training loop that starts at epoch [s]: steps of
    the epochs from [s] on, writes of a checkpoint or of the final
    backbone into the output directory, and the creation of the container
    ["resnet18"] and uploads of checkpoints to it. *)
Definition training_call (cfg : Config F) (s : Z) (ev : Event) : Prop :=
  match ev with
  | EvTrainStep e _ => s <= e < NUM_EPOCHS cfg
  | EvSave d n _ =>
      d = LOCAL_MODEL_OUTPUT_DIR cfg /\
      (n = "resnet18_backbone_final.pth" \/
       exists e, s <= e < NUM_EPOCHS cfg /\ n = checkpoint_name (e + 1))
  | EvCreateContainer c => c = "resnet18"
  | EvUpload c b =>
      c = "resnet18" /\
      exists e, s <= e < NUM_EPOCHS cfg /\ b = checkpoint_name (e + 1)
  | EvListBlobs _ | EvDownload _ _ => False
  end.

(** No blob of a container other than [c] has changed. *)
Definition other_containers_same (c : string) (w w' : World) : Prop :=
  forall c' n, c' <> c -> blob_at c' n w' = blob_at c' n w.

(** What the export at the end of [main] writes. *)
Definition final_backbone (env : Env F OptState) (h : Heap F OptState)
  : content :=
  RawBytes (torch_save env
              (OValue (PStateDict (backbone_state_dict (online_network h))))).

End FurtherVocabulary.

(** ** More small worlds *)
Module Cases.

(** A disk that is full once two patches are written. *)
Definition full_disk (l : list Event) : option Exception :=
  if Nat.ltb 2 (length (cropped_boxes l))
  then Some (OSError "No space left on device")
  else None.

Definition full_disk_env : Env Q Z := {|
  conn_ok := conn_ok Toy.env;
  remote_fault := remote_fault Toy.env;
  disk_fault := full_disk;
  Image_open := Image_open Toy.env;
  png_encode := png_encode Toy.env;
  torch_save := torch_save Toy.env;
  torch_load := torch_load Toy.env;
  new_online_network := new_online_network Toy.env;
  new_prediction_head := new_prediction_head Toy.env;
  new_optimizer := new_optimizer Toy.env;
  optimizer_accepts := optimizer_accepts Toy.env;
  train_step := train_step Toy.env
|}.

(** The toy configuration with the container of the checkpoints as the
    source of the images: it holds no image. *)
Definition no_images_cfg : Config Q := {|
  SOURCE_DATA_CONTAINER := "resnet18";
  LOCAL_PATCH_CACHE_DIR := "/mnt/data";
  LOCAL_MODEL_OUTPUT_DIR := "/mnt/out";
  PATCH_SIZE := 224;
  BATCH_SIZE := 2;
  NUM_EPOCHS := 31;
  LR := (1 # 1000)%Q;
  EMA_DECAY := (999 # 1000)%Q;
  connection_string := "AccountName=toy";
  CHECKPOINT_CONTAINER := "resnet18";
  CHECKPOINT_BLOB_NAME := "checkpoint_epoch_29.pth"
|}.

(** The image of the object ["a/one.jpg"] of the toy account. *)
Definition one_jpg : Image :=
  {| width := 448; height := 448; pixels := [x04; x04] |}.

End Cases.

(** * Lemmas and theorems *)

(** ** Strings and ranges *)

Lemma length_append (s t : string) :
  String.length (s +:+ t) = (String.length s + String.length t)%nat.
Proof. induction s as [|c s IH]; simpl; [reflexivity | now rewrite IH]. Qed.

Lemma append_inv_r (t s1 s2 : string) : s1 +:+ t = s2 +:+ t -> s1 = s2.
Proof.
  revert s2. induction s1 as [|c s1 IH]; intros [|d s2] H; simpl in H.
  - reflexivity.
  - apply (f_equal String.length) in H.
    rewrite !length_append in H. simpl in H. lia.
  - apply (f_equal String.length) in H.
    rewrite !length_append in H. simpl in H. lia.
  - change (String c (s1 +:+ t) = String d (s2 +:+ t)) in H.
    injection H as -> H. f_equal. now apply IH.
Qed.

Lemma str_int_inj (n m : Z) : str_int n = str_int m -> n = m.
Proof.
  unfold str_int. intros H.
  apply DecimalZ.to_int_inj.
  assert (G : forall z, Z.to_int z <> Decimal.Pos Decimal.Nil /\
                        Z.to_int z <> Decimal.Neg Decimal.Nil).
  { intros [|p|p]; simpl; split; try discriminate;
      intros [= E]; now apply DecimalPos.Unsigned.to_uint_nonnil in E. }
  assert (E : Some (Z.to_int n) = Some (Z.to_int m)).
  { rewrite <- (NilZero.isi (Z.to_int n)), <- (NilZero.isi (Z.to_int m));
      try apply G. now rewrite H. }
  now injection E.
Qed.

Lemma patch_filename_inj (blob : string) (n m : Z) :
  patch_filename blob n = patch_filename blob m -> n = m.
Proof.
  unfold patch_filename. intros H.
  apply String.app_inj in H. apply String.app_inj in H.
  apply append_inv_r in H. now apply str_int_inj.
Qed.

Lemma range_len_tiles (extent p : Z) :
  0 <= extent -> 0 < p -> range_len 0 (extent - p + 1) p = extent / p.
Proof.
  intros He Hp. unfold range_len.
  destruct (Z.ltb_spec 0 p) as [_|]; [|lia].
  destruct (Z.ltb_spec 0 (extent - p + 1)) as [Hlt|Hge].
  - replace (extent - p + 1 - 1 - 0) with (extent + (-1) * p) by lia.
    rewrite Z.div_add by lia. lia.
  - symmetry. apply Z.div_small. lia.
Qed.

Lemma range_tiles (extent p : Z) :
  0 <= extent -> 0 < p ->
  range 0 (extent - p + 1) p =
  Ok (map (fun k : nat => 0 + Z.of_nat k * p) (seq 0 (Z.to_nat (extent / p)))).
Proof.
  intros He Hp. unfold range.
  destruct (Z.eqb_spec p 0) as [->|_]; [lia|].
  now rewrite range_len_tiles.
Qed.

(** ** Writes and the tiling loops of [process_blob] *)

Section Writes.
Context {F : Type} {FS : Scalar F} {OptState : Type}.
Variable env : Env F OptState.
Local Abbreviation World := (World F OptState).

Lemma calls_wrote_all dir l (w : World) :
  calls (wrote_all dir l w) =
  calls w ++ map (fun nc => EvSave dir (fst nc) (snd nc)) l.
Proof.
  revert w. induction l as [|nc l IH]; intros w; simpl.
  - now rewrite app_nil_r.
  - rewrite IH. simpl. now rewrite <- app_assoc.
Qed.

Lemma wrote_all_app dir l1 l2 (w : World) :
  wrote_all dir (l1 ++ l2) w = wrote_all dir l2 (wrote_all dir l1 w).
Proof. unfold wrote_all. apply fold_left_app. Qed.

Lemma fs_wrote_all dir l (w : World) entries :
  fs w !! dir = Some (Dir entries) ->
  fs (wrote_all dir l w) =
  <[dir := Dir (fold_left (fun es nc => <[fst nc := snd nc]> es) l entries)]>
    (fs w).
Proof.
  revert w entries. induction l as [|nc l IH]; intros w entries Hdir; simpl.
  - symmetry. now apply insert_id.
  - erewrite IH.
    + simpl. rewrite Hdir. now rewrite insert_insert_eq.
    + simpl. rewrite Hdir. apply lookup_insert_eq.
Qed.

Lemma fold_insert_notin (l : list (string * content)) (es : gmap string content) n :
  ~ In n (map fst l) ->
  fold_left (fun es nc => <[fst nc := snd nc]> es) l es !! n = es !! n.
Proof.
  revert es. induction l as [|[n0 c0] l IH]; intros es Hn; simpl in *.
  - reflexivity.
  - rewrite IH by tauto. apply lookup_insert_ne. tauto.
Qed.

Lemma fold_insert_in (l : list (string * content)) (es : gmap string content) n c :
  NoDup (map fst l) -> In (n, c) l ->
  fold_left (fun es nc => <[fst nc := snd nc]> es) l es !! n = Some c.
Proof.
  revert es. induction l as [|[n0 c0] l IH]; intros es Hnd Hin; simpl in *.
  - contradiction.
  - apply NoDup_cons in Hnd as [Hn0 Hnd]. destruct Hin as [[= -> ->]|Hin].
    + rewrite fold_insert_notin.
      * apply lookup_insert_eq.
      * now rewrite <- list_elem_of_In.
    + now apply IH.
Qed.

Lemma write_file_ok dir name c (w : World) entries :
  fs w !! dir = Some (Dir entries) ->
  disk_fault env (calls w ++ [EvSave dir name c]) = None ->
  write_file env (dir, name) c w = (Ok tt, wrote dir name c w).
Proof.
  intros Hdir Hfault.
  unfold write_file, bind, emit, disk_check, get_world, ret, set_fs, wrote.
  cbn. rewrite Hfault. cbn. now rewrite Hdir.
Qed.

Lemma wrote_dir dir name c (w : World) entries :
  fs w !! dir = Some (Dir entries) ->
  fs (wrote dir name c w) !! dir = Some (Dir (<[name := c]> entries)).
Proof. intros H. simpl. rewrite H. apply lookup_insert_eq. Qed.

Section Tiling.
Variables (blob dir : string) (img : Image) (p : Z).
Hypothesis p_pos : 0 < p.

Local Abbreviation Wd := (Z.of_N (width img)).
Local Abbreviation Hg := (Z.of_N (height img)).
Local Abbreviation cols := (Wd / p).
Local Abbreviation rows := (Hg / p).

Lemma inner_loop (y base : Z) (len c0 : nat) (w : World) entries :
  fs w !! dir = Some (Dir entries) ->
  (forall t, disk_fault env (calls w ++ t) = None) ->
  for_ (map (fun k : nat => 0 + Z.of_nat k * p) (seq c0 len))
       (fun x patch_num =>
          bind (write_file env (path_join dir (patch_filename blob patch_num))
                  (PatchPng (crop img (x, y, x + p, y + p))))
               (fun _ => ret (patch_num + 1)))
       (base + Z.of_nat c0) w
  = (Ok (base + Z.of_nat c0 + Z.of_nat len),
     wrote_all dir (map (cell blob img p y base) (seq c0 len)) w).
Proof.
  revert c0 w entries.
  induction len as [|len IH]; intros c0 w entries Hdir Hok.
  - simpl. unfold ret. do 2 f_equal. lia.
  - cbn [seq map for_]. unfold bind at 1 2. unfold path_join.
    erewrite write_file_ok by eauto. cbn [ret].
    replace (base + Z.of_nat c0 + 1) with (base + Z.of_nat (S c0)) by lia.
    erewrite IH.
    + cbn [wrote_all fold_left fst snd cell]. do 2 f_equal. lia.
    + eapply wrote_dir, Hdir.
    + intros t. cbn [wrote calls]. rewrite <- app_assoc. apply Hok.
Qed.

Lemma wrote_all_dir l (w : World) entries :
  fs w !! dir = Some (Dir entries) ->
  exists entries', fs (wrote_all dir l w) !! dir = Some (Dir entries').
Proof.
  intros Hdir. erewrite fs_wrote_all by eassumption.
  eexists. apply lookup_insert_eq.
Qed.

Lemma outer_loop (len r0 : nat) (w : World) entries :
  fs w !! dir = Some (Dir entries) ->
  (forall t, disk_fault env (calls w ++ t) = None) ->
  for_ (map (fun k : nat => 0 + Z.of_nat k * p) (seq r0 len))
       (fun y patch_num =>
          bind (lift (range 0 (Wd - p + 1) p))
            (fun xs =>
               for_ xs
                 (fun x patch_num =>
                    bind (write_file env
                            (path_join dir (patch_filename blob patch_num))
                            (PatchPng (crop img (x, y, x + p, y + p))))
                         (fun _ => ret (patch_num + 1)))
                 patch_num))
       (Z.of_nat r0 * cols) w
  = (Ok (Z.of_nat (r0 + len) * cols),
     wrote_all dir
       (flat_map (fun r : nat =>
                    map (cell blob img p (0 + Z.of_nat r * p) (Z.of_nat r * cols))
                        (seq 0 (Z.to_nat cols)))
                 (seq r0 len)) w).
Proof.
  assert (Hcols : 0 <= cols) by (apply Z.div_pos; lia).
  rewrite range_tiles by lia.
  set (nc := Wd / p) in *.
  revert r0 w entries.
  induction len as [|len IH]; intros r0 w entries Hdir Hok.
  - simpl. unfold ret. do 2 f_equal. f_equal. lia.
  - cbn [seq map for_ flat_map]. unfold bind at 1 2. cbn [lift].
    pose proof (inner_loop (0 + Z.of_nat r0 * p) (Z.of_nat r0 * nc)
                  (Z.to_nat nc) 0 w entries Hdir Hok) as Hin.
    rewrite Z.add_0_r in Hin. rewrite Hin.
    replace (Z.of_nat r0 * nc + Z.of_nat (Z.to_nat nc))
      with (Z.of_nat (S r0) * nc) by lia.
    rewrite wrote_all_app.
    destruct (wrote_all_dir (map (cell blob img p (0 + Z.of_nat r0 * p)
                                    (Z.of_nat r0 * nc))
                               (seq 0 (Z.to_nat nc))) w entries Hdir)
      as [entries' Hdir'].
    erewrite IH.
    + do 2 f_equal. f_equal. lia.
    + exact Hdir'.
    + intros t. rewrite calls_wrote_all, <- app_assoc. apply Hok.
Qed.

Lemma map_seq_from {A} (g : nat -> A) (a n : nat) :
  map g (seq a n) = map (fun c => g (a + c)%nat) (seq 0 n).
Proof.
  revert a. induction n as [|n IH]; intros a; simpl.
  - reflexivity.
  - rewrite Nat.add_0_r. f_equal.
    rewrite IH, <- (seq_shift n 0), map_map.
    apply map_ext. intros c. f_equal. lia.
Qed.

Lemma flat_map_grid {A} (g : nat -> A) (n m : nat) :
  flat_map (fun r => map (fun c => g (r * n + c)%nat) (seq 0 n)) (seq 0 m)
  = map g (seq 0 (m * n)).
Proof.
  induction m as [|m IH].
  - reflexivity.
  - rewrite seq_S, flat_map_app, IH. simpl. rewrite app_nil_r.
    replace (n + m * n)%nat with (m * n + n)%nat by lia.
    rewrite seq_app, map_app. f_equal.
    simpl. now rewrite (map_seq_from g (m * n)).
Qed.

Lemma cells_are_grid :
  flat_map (fun r : nat =>
              map (cell blob img p (0 + Z.of_nat r * p) (Z.of_nat r * cols))
                  (seq 0 (Z.to_nat cols)))
           (seq 0 (Z.to_nat rows))
  = grid_patches blob img p.
Proof.
  assert (Hcols : 0 <= cols) by (apply Z.div_pos; lia).
  assert (Hrows : 0 <= rows) by (apply Z.div_pos; lia).
  unfold grid_patches.
  set (nc := Wd / p) in *. set (nr := Hg / p) in *.
  replace (Z.to_nat (nc * nr)) with (Z.to_nat nr * Z.to_nat nc)%nat
    by lia.
  rewrite <- (flat_map_grid (grid_patch blob img p)).
  apply flat_map_ext. intros r. apply map_ext_in. intros c Hc.
  apply in_seq in Hc.
  unfold cell, grid_patch, grid_box. fold nc.
  assert (Hc' : 0 <= Z.of_nat c < nc) by lia.
  assert (Hk : Z.of_nat (r * Z.to_nat nc + c) = Z.of_nat c + Z.of_nat r * nc)
    by lia.
  rewrite Hk, Z.mod_add, Z.div_add, Z.mod_small, Z.div_small by lia.
  rewrite !Z.add_0_l. do 2 f_equal. lia.
Qed.

End Tiling.

Lemma download_blob_ok container blob (w : World) blobs bytes :
  remote_fault env (calls w ++ [EvDownload container blob]) = None ->
  azure w !! container = Some blobs -> blobs !! blob = Some bytes ->
  download_blob env container blob w
  = (Ok bytes, emitted (EvDownload container blob) w).
Proof.
  intros Hf Hc Hb.
  unfold download_blob, bind, emit, remote_check, get_world, ret.
  cbn. rewrite Hf. cbn. rewrite Hc, Hb. reflexivity.
Qed.

Lemma grid_box_in_bounds (img : Image) (p k : Z) :
  0 < p ->
  0 <= k < (Z.of_N (width img) / p) * (Z.of_N (height img) / p) ->
  in_bounds img (grid_box (Z.of_N (width img) / p) p k).
Proof.
  intros Hp Hk. unfold in_bounds, grid_box.
  set (W := Z.of_N (width img)) in *. set (H := Z.of_N (height img)) in *.
  set (cols := W / p) in *. set (rows := H / p) in *.
  assert (HW : 0 <= W) by (subst W; lia).
  assert (HH : 0 <= H) by (subst H; lia).
  assert (Hcols0 : 0 <= cols) by (apply Z.div_pos; lia).
  assert (Hrows0 : 0 <= rows) by (apply Z.div_pos; lia).
  assert (Hcols : 0 < cols) by nia.
  assert (Hc : 0 <= k mod cols < cols) by (apply Z.mod_pos_bound; lia).
  assert (Hr0 : 0 <= k / cols) by (apply Z.div_pos; lia).
  assert (Hr : k / cols < rows) by (apply Z.div_lt_upper_bound; lia).
  assert (HcW : p * cols <= W) by (apply Z.mul_div_le; lia).
  assert (HrH : p * rows <= H) by (apply Z.mul_div_le; lia).
  repeat split; nia.
Qed.

(** C1: for an image of [W] by [H] pixels and a positive patch size, a
    worker whose download, decode and writes succeed reports success and
    writes exactly [(W / patch_size) * (H / patch_size)] patches; the
    [k]-th write, counting from 0, carries index [k] in its file name and
    crops the cell of row [k / cols] and column [k mod cols], which lies
    inside the image. *)
Theorem process_blob_tiles_row_major
  (blob cs container dir : string) (patch_size : Z) (w : World)
  (blobs : gmap string (list byte)) (bytes : list byte) (img : Image)
  (entries : gmap string content) :
  0 < patch_size ->
  conn_ok env cs = true ->
  remote_fault env (calls w ++ [EvDownload container blob]) = None ->
  azure w !! container = Some blobs ->
  blobs !! blob = Some bytes ->
  Image_open env bytes = Ok img ->
  fs w !! dir = Some (Dir entries) ->
  (forall t, disk_fault env (calls w ++ t) = None) ->
  let cols := Z.of_N (width img) / patch_size in
  let rows := Z.of_N (height img) / patch_size in
  let written := grid_patches blob img patch_size in
  exists w',
    process_blob env (blob, cs, container, dir, patch_size) w
    = (Ok ("Processed " +:+ blob), w') /\
    calls w' = calls w ++ EvDownload container blob
                 :: map (fun nc => EvSave dir (fst nc) (snd nc)) written /\
    Z.of_nat (length written) = cols * rows /\
    forall k : nat, (k < length written)%nat ->
      let x := (Z.of_nat k mod cols) * patch_size in
      let y := (Z.of_nat k / cols) * patch_size in
      let b := (x, y, x + patch_size, y + patch_size) in
      written !! k = Some (patch_filename blob (Z.of_nat k),
                           PatchPng (crop img b)) /\
      in_bounds img b /\
      exists entries',
        fs w' !! dir = Some (Dir entries') /\
        entries' !! patch_filename blob (Z.of_nat k) = Some (PatchPng (crop img b)).
Proof.
  intros Hp Hconn Hremote Hcont Hblob Hopen Hdir Hdisk cols rows written.
  assert (Hcols : 0 <= cols) by (apply Z.div_pos; lia).
  assert (Hrows : 0 <= rows) by (apply Z.div_pos; lia).
  assert (Hlen : length written = Z.to_nat (cols * rows)).
  { unfold written, grid_patches. now rewrite length_map, length_seq. }
  assert (Hnth : forall k : nat, (k < length written)%nat ->
            written !! k = Some (grid_patch blob img patch_size k)).
  { intros k Hk. unfold written, grid_patches.
    rewrite list_lookup_fmap, lookup_seq_lt by (rewrite Hlen in Hk; exact Hk).
    reflexivity. }
  exists (wrote_all dir written (emitted (EvDownload container blob) w)).
  split; [|split; [|split]].
  - unfold process_blob, from_connection_string. rewrite Hconn.
    unfold bind at 1. cbn [ret]. unfold try_except.
    unfold bind at 1. erewrite download_blob_ok by eassumption.
    unfold bind at 1. rewrite Hopen. cbn [lift].
    unfold bind at 1.
    rewrite range_tiles by lia. cbn [lift].
    unfold bind at 1.
    pose proof (outer_loop blob dir img patch_size Hp (Z.to_nat rows) 0
                  (emitted (EvDownload container blob) w) entries) as Hloop.
    cbn [Z.of_nat] in Hloop. rewrite Z.mul_0_l in Hloop.
    fold rows. rewrite Hloop.
    + cbn [ret]. rewrite cells_are_grid by assumption. reflexivity.
    + exact Hdir.
    + intros t. cbn [emitted calls]. rewrite <- app_assoc. apply Hdisk.
  - rewrite calls_wrote_all. cbn [emitted calls].
    now rewrite <- app_assoc.
  - rewrite Hlen. lia.
  - intros k Hk x y b.
    assert (Hb : grid_box cols patch_size (Z.of_nat k) = b) by reflexivity.
    split; [|split].
    + rewrite (Hnth k Hk). unfold grid_patch. fold cols. now rewrite Hb.
    + rewrite <- Hb. apply grid_box_in_bounds; [exact Hp|]. fold cols rows. lia.
    + erewrite fs_wrote_all by exact Hdir.
      eexists. split; [apply lookup_insert_eq|].
      apply fold_insert_in.
      * unfold written, grid_patches. rewrite map_map. cbn [grid_patch fst].
        apply NoDup_fmap_2; [|apply NoDup_seq].
        intros i j Hij. apply patch_filename_inj in Hij. lia.
      * apply list_elem_of_In, list_elem_of_lookup. exists k.
        rewrite (Hnth k Hk). unfold grid_patch. fold cols. now rewrite Hb.
Qed.

End Writes.

(** ** Frame rules: what a program leaves as it was *)

Section Frames.
Context {F : Type} {FS : Scalar F} {OptState : Type}.
Local Abbreviation World := (World F OptState).
Local Abbreviation M := (M F OptState).

#[export] Instance same_on_preorder {X} (f : World -> X) : PreOrder (same_on f).
Proof. split; [intros w; reflexivity | intros a b c Hab Hbc; unfold same_on in *; congruence]. Qed.

#[export] Instance fs_grows_preorder : PreOrder (fs_grows (F:=F) (OptState:=OptState)).
Proof. split; [intros w d n H; exact H | intros a b c Hab Hbc d n H; auto]. Qed.

Section Combinators.
Variable R : World -> World -> Prop.
Context {R_pre : PreOrder R}.

Lemma preserves_ret {A} (a : A) : preserves R (ret a).
Proof. intros w. reflexivity. Qed.

Lemma preserves_raise {A} e : preserves R (raise (A:=A) e).
Proof. intros w. reflexivity. Qed.

Lemma preserves_lift {A} (r : result A) : preserves R (lift r).
Proof. intros w. reflexivity. Qed.

Lemma preserves_get_world : preserves R get_world.
Proof. intros w. reflexivity. Qed.

Lemma preserves_bind {A B} (m : M A) (k : A -> M B) :
  preserves R m -> (forall a, preserves R (k a)) -> preserves R (bind m k).
Proof.
  intros Hm Hk w. unfold bind. specialize (Hm w).
  destruct (m w) as [[a|e] w1]; simpl in *; [|exact Hm].
  etransitivity; [exact Hm | apply Hk].
Qed.

Lemma preserves_try {A} (m : M A) (h : Exception -> M A) :
  preserves R m -> (forall e, preserves R (h e)) -> preserves R (try_except m h).
Proof.
  intros Hm Hh w. unfold try_except. specialize (Hm w).
  destruct (m w) as [[a|e] w1]; simpl in *; [exact Hm|].
  etransitivity; [exact Hm | apply Hh].
Qed.

Lemma preserves_for {A S} (xs : list A) (body : A -> S -> M S) (s : S) :
  (forall x s, preserves R (body x s)) -> preserves R (for_ xs body s).
Proof.
  intros Hb. revert s. induction xs as [|x xs IH]; intros s; simpl.
  - apply preserves_ret.
  - apply preserves_bind; auto.
Qed.

Lemma preserves_pool {A B} (f : A -> M B) (tasks : list A) :
  (forall t, preserves R (f t)) -> preserves R (pool_imap_unordered f tasks).
Proof.
  intros Hf. induction tasks as [|t tasks IH]; simpl.
  - apply preserves_ret.
  - apply preserves_bind; [apply Hf|]. intros r.
    apply preserves_bind; [apply IH|]. intros rs. apply preserves_ret.
Qed.

End Combinators.
End Frames.

(** Decomposes a program into its primitive calls. *)
Create HintDb frame discriminated.

Ltac frame_step :=
  first
    [ solve [auto 1 with frame nocore]
    | apply preserves_ret; apply _
    | apply preserves_raise; apply _
    | apply preserves_lift; apply _
    | apply preserves_get_world; apply _
    | apply preserves_bind; [apply _ | | intros ?]
    | apply preserves_try; [apply _ | | intros ?]
    | apply preserves_for; [apply _ | intros ? ?]
    | apply preserves_pool; [apply _ | intros ?]
    | match goal with
      | |- preserves _ (match ?x with _ => _ end) => destruct x
      end ].
Ltac frame := repeat frame_step.

Section FrameFacts.
Context {F : Type} {FS : Scalar F} {OptState : Type}.
Variable env : Env F OptState.
Local Abbreviation World := (World F OptState).

Lemma fs_grows_wrote dir name c (w : World) : fs_grows w (wrote dir name c w).
Proof.
  intros d n [es [Hd Hn]]. unfold present. simpl.
  destruct (fs w !! dir) as [[?|entries]|] eqn:Hdir; try (exists es; now split).
  destruct (decide (dir = d)) as [->|Hne].
  - rewrite lookup_insert_eq. rewrite Hd in Hdir. injection Hdir as ->.
    eexists. split; [reflexivity|].
    destruct (decide (name = n)) as [->|Hn'].
    + rewrite lookup_insert_eq. eauto.
    + now rewrite lookup_insert_ne.
  - rewrite lookup_insert_ne by exact Hne. exists es. now split.
Qed.

Lemma write_file_cases dir name c (w : World) :
  (exists entries, fs w !! dir = Some (Dir entries) /\
     write_file env (dir, name) c w = (Ok tt, wrote dir name c w)) \/
  (exists e, write_file env (dir, name) c w
             = (Raise e, emitted (EvSave dir name c) w)).
Proof.
  unfold write_file, bind, emit, disk_check, get_world, ret, raise, set_fs.
  cbn. destruct (disk_fault env _); cbn; [right; eauto|].
  destruct (fs w !! dir) as [[?|entries]|] eqn:Hdir; [right; eauto| |right; eauto].
  left. exists entries. split; [reflexivity|]. unfold wrote. now rewrite Hdir.
Qed.

Lemma fs_grows_emitted ev (w : World) : fs_grows w (emitted ev w).
Proof. intros d n H. exact H. Qed.

Lemma write_file_grows p c : preserves fs_grows (write_file env p c).
Proof.
  destruct p as [dir name]. intros w.
  destruct (write_file_cases dir name c w) as [[es [_ ->]]|[e ->]]; simpl.
  - apply fs_grows_wrote.
  - apply fs_grows_emitted.
Qed.

Lemma emit_grows ev : preserves fs_grows (emit (F:=F) (OptState:=OptState) ev).
Proof. intros w d n H. exact H. Qed.

Lemma print_grows line :
  preserves fs_grows (print (F:=F) (OptState:=OptState) line).
Proof. intros w d n H. exact H. Qed.

Lemma present_wrote dir name c (w : World) entries :
  fs w !! dir = Some (Dir entries) -> present dir name (wrote dir name c w).
Proof.
  intros Hdir. eexists. split; [eapply wrote_dir, Hdir|].
  rewrite lookup_insert_eq. eauto.
Qed.

End FrameFacts.

#[export] Hint Resolve write_file_grows emit_grows print_grows : frame.

(** ** The worker and the pool, whatever fails *)

Section Worker.
Context {F : Type} {FS : Scalar F} {OptState : Type}.
Variable env : Env F OptState.
Local Abbreviation World := (World F OptState).

Lemma emit_same {X} (f : World -> X) ev :
  (forall w, f (emitted ev w) = f w) -> preserves (same_on f) (emit ev).
Proof. intros H w. apply H. Qed.

Lemma print_same {X} (f : World -> X) line :
  (forall w, f (printed line w) = f w) -> preserves (same_on f) (print line).
Proof. intros H w. apply H. Qed.

Lemma azure_download c b : preserves (same_on azure) (download_blob env c b).
Proof.
  unfold download_blob, remote_check. frame; intros w; reflexivity.
Qed.

Lemma azure_write_file p c : preserves (same_on azure) (write_file env p c).
Proof.
  destruct p. unfold write_file, disk_check. frame; intros w; reflexivity.
Qed.


Lemma grows_download c b : preserves fs_grows (download_blob env c b).
Proof. unfold download_blob, remote_check. frame. Qed.


Lemma download_blob_inv c b (w : World) r w' :
  download_blob env c b w = (r, w') ->
  w' = emitted (EvDownload c b) w /\
  forall x, r = Ok x -> exists blobs, azure w !! c = Some blobs /\ blobs !! b = Some x.
Proof.
  unfold download_blob, bind, emit, remote_check, get_world, ret, raise. cbn.
  destruct (remote_fault env _); cbn.
  { intros [= <- <-]. split; [reflexivity|discriminate]. }
  destruct (azure w !! c) as [blobs|] eqn:Hc.
  2:{ intros [= <- <-]. split; [reflexivity|discriminate]. }
  destruct (blobs !! b) as [x|] eqn:Hb; intros [= <- <-];
    (split; [reflexivity|]); [|discriminate].
  intros x' [= <-]. eauto.
Qed.

Section Loops.
Variables (blob dir : string) (img : Image) (p : Z).

Local Abbreviation inner := (inner_body env blob dir img p).




End Loops.




Lemma makedirs_ok dir (w : World) :
  (fs w !! dir = Some (Dir ∅) \/
   fs w !! dir = None /\ disk_fault env (calls w) = None) ->
  makedirs env dir w = (Ok tt, with_dir dir w).
Proof.
  unfold makedirs, with_dir, bind, get_world, disk_check, ret, set_fs.
  intros [H|[H Hd]]; cbn; rewrite H; [reflexivity|].
  cbn. now rewrite Hd.
Qed.

Lemma cache_miss {A} dir (k : bool -> M F OptState A) (w : World) :
  (fs w !! dir = Some (Dir ∅) \/
   fs w !! dir = None /\ disk_fault env (calls w) = None) ->
  bind (path_exists dir)
    (fun ex => bind (if ex : bool
                     then bind (listdir dir)
                            (fun names => ret (0 <? Z.of_nat (length names)))
                     else ret false) k) w
  = k false w.
Proof.
  unfold path_exists, listdir, bind, get_world, ret.
  intros [H|[H _]]; cbn; rewrite H; cbn; [|reflexivity].
  rewrite H. now rewrite map_to_list_empty.
Qed.

Lemma list_blobs_ok cont (w : World) blobs :
  remote_fault env (calls w ++ [EvListBlobs cont]) = None ->
  azure w !! cont = Some blobs ->
  list_blobs env cont w
  = (Ok (map fst (map_to_list blobs)), emitted (EvListBlobs cont) w).
Proof.
  intros Hf Hc.
  unfold list_blobs, bind, emit, remote_check, get_world, ret.
  cbn. rewrite Hf. cbn. now rewrite Hc.
Qed.

Lemma calls_with_dir dir (w : World) : calls (with_dir dir w) = calls w.
Proof. unfold with_dir. now destruct (fs w !! dir). Qed.

Lemma azure_with_dir dir (w : World) : azure (with_dir dir w) = azure w.
Proof. unfold with_dir. now destruct (fs w !! dir). Qed.


End Worker.

(** ** The filter and the cache check of the orchestrator *)

Lemma substring_all (s : string) : substring 0 (String.length s) s = s.
Proof. induction s as [|c s IH]; cbn; [reflexivity|]. now rewrite IH. Qed.

Lemma substring_split (s : string) (n : nat) :
  substring 0 n s +:+ substring n (String.length s - n) s = s.
Proof.
  revert n. induction s as [|c s IH]; intros n.
  - destruct n; reflexivity.
  - destruct n as [|n].
    + cbn [substring]. rewrite Nat.sub_0_r.
      change (String.length (String c s)) with (S (String.length s)).
      cbn [substring]. now rewrite substring_all.
    + change (String.length (String c s) - S n)%nat
        with (String.length s - n)%nat.
      cbn [substring].
      change (String c (substring 0 n s)
              +:+ substring n (String.length s - n) s)
        with (String c (substring 0 n s
                        +:+ substring n (String.length s - n) s)).
      now rewrite IH.
Qed.

Lemma lower_append (a b : string) : lower (a +:+ b) = lower a +:+ lower b.
Proof.
  induction a as [|c a IH]; [reflexivity|].
  change (String c a +:+ b) with (String c (a +:+ b)).
  cbn [lower]. now rewrite IH.
Qed.

Lemma append_assoc (a b c : string) : (a +:+ b) +:+ c = a +:+ (b +:+ c).
Proof.
  induction a as [|x a IH]; [reflexivity|].
  change (String x a +:+ b) with (String x (a +:+ b)).
  change (String x (a +:+ b) +:+ c) with (String x ((a +:+ b) +:+ c)).
  now rewrite IH.
Qed.

Lemma endswith_append (a b : string) : endswith (a +:+ b) b = true.
Proof.
  unfold endswith. rewrite length_append.
  replace (String.length a + String.length b - String.length b)%nat
    with (String.length a) by lia.
  apply andb_true_intro. split; [apply Nat.leb_le; lia|].
  apply String.eqb_eq.
  induction a as [|c a IH]; [apply substring_all|].
  change (String c a +:+ b) with (String c (a +:+ b)). exact IH.
Qed.

(** Every name with an image extension passes the suffix test of the
    orchestrator: the test lets through more names, never fewer. *)
Lemma image_extension_passes_filter (name : string) :
  has_image_extension name = true ->
  endswith_any (lower name) image_suffixes = true.
Proof.
  unfold has_image_extension, splitext.
  destruct (_ && _)%bool; cbn [snd]; [|discriminate].
  set (n := Z.to_nat (rfind "." name)).
  intros Hext.
  pose proof (substring_split name n) as Hsplit.
  apply (f_equal lower) in Hsplit. rewrite lower_append in Hsplit.
  rewrite <- Hsplit.
  set (ext := lower (substring n (String.length name - n) name)) in *.
  set (pre := lower (substring 0 n name)) in *.
  cbn [existsb] in Hext. clearbody ext pre. clear Hsplit.
  destruct (String.eqb_spec ext ".jpg") as [He|_].
  { rewrite He. change ".jpg"%string with ("." +:+ "jpg"). rewrite <- append_assoc.
    unfold endswith_any, image_suffixes. cbn [existsb].
    now rewrite endswith_append. }
  destruct (String.eqb_spec ext ".jpeg") as [He|_].
  { rewrite He. change ".jpeg"%string with ("." +:+ "jpeg"). rewrite <- append_assoc.
    unfold endswith_any, image_suffixes. cbn [existsb].
    rewrite (endswith_append _ "jpeg"). now rewrite orb_true_r. }
  destruct (String.eqb_spec ext ".png") as [He|_]; [|discriminate].
  rewrite He. change ".png"%string with ("." +:+ "png"). rewrite <- append_assoc.
  unfold endswith_any, image_suffixes. cbn [existsb].
  rewrite (endswith_append _ "png"). now rewrite !orb_true_r.
Qed.

Section Cache.
Context {F : Type} {FS : Scalar F} {OptState : Type}.
Variable env : Env F OptState.
Local Abbreviation World := (World F OptState).

(** C6: when the cache directory exists and holds at least one entry, the
    orchestrator prints its message and returns: no call is made (no
    listing, no download, no write), and disk and blob account are left
    as they were. *)
Theorem preprocess_skips_populated_cache
  (cs cont dir : string) (p : Z) (w : World) (entries : gmap string content) :
  fs w !! dir = Some (Dir entries) ->
  entries <> ∅ ->
  exists w',
    preprocess_and_save_locally env cs cont dir p w = (Ok tt, w') /\
    calls w' = calls w /\ fs w' = fs w /\ azure w' = azure w /\
    heap w' = heap w /\
    stdout w' = stdout w ++ ["Patches already exist in local cache ('" +:+ dir
                             +:+ "'). Skipping preprocessing."].
Proof.
  intros Hdir Hne.
  exists (printed ("Patches already exist in local cache ('" +:+ dir
                   +:+ "'). Skipping preprocessing.") w).
  split; [|repeat split].
  unfold preprocess_and_save_locally, path_exists, listdir, bind,
    get_world, ret. cbn. rewrite Hdir. cbn. rewrite Hdir.
  destruct (map_to_list entries) as [|kv l] eqn:Hl.
  - apply map_to_list_empty_iff in Hl. contradiction.
  - reflexivity.
Qed.

End Cache.

(** C7, on the toy account: the object ["notes_png"] has no extension, and
    ["readme.txt"] none of an image; the orchestrator downloads the first
    and not the second, because it tests the end of the lowered name
    against ["png"] without the dot. *)
Theorem preprocess_takes_suffix_for_extension :
  has_image_extension "notes_png" = false /\
  In (EvDownload "data" "notes_png")
     (calls (snd (preprocess_and_save_locally Toy.env "AccountName=toy" "data"
                    "/mnt/data" 224 (Toy.world ∅)))) /\
  ~ In (EvDownload "data" "readme.txt")
     (calls (snd (preprocess_and_save_locally Toy.env "AccountName=toy" "data"
                    "/mnt/data" 224 (Toy.world ∅)))).
Proof.
  split; [reflexivity|]. split.
  - vm_compute. tauto.
  - vm_compute. intros H. repeat (destruct H as [H|H]; [discriminate H|]).
    exact H.
Qed.

(** ** The moving average *)

Section EmaSpec.
Context {F : Type} {FS : Scalar F} {OptState : Type}.

Lemma record_untracked op (w : World F OptState) :
  record_op op false w = (Ok false, w).
Proof.
  unfold record_op, bind, get_world. cbn. now rewrite andb_false_r.
Qed.

Lemma ema_zip_spec (ema_model model : Net F) decay (w : World F OptState) :
  shapes_agree ema_model model ->
  ema_zip ema_model model decay w = (Ok (ema_spec ema_model model decay), w).
Proof.
  revert model. induction ema_model as [|[name t] ema_rest IH];
    intros [|[name' o] rest] Hs; try reflexivity.
  destruct Hs as [Hlen Hs]. cbn [ema_zip ema_spec].
  unfold bind at 1, scalar_mul at 1, bind at 1. cbn [get_data tracked values].
  rewrite record_untracked. cbn [ret].
  unfold bind at 1, scalar_mul at 1, bind at 1. cbn [get_data tracked values].
  rewrite record_untracked. cbn [ret].
  unfold bind at 1, tensor_add. cbn [values tracked].
  rewrite !length_map, Hlen, Nat.eqb_refl.
  unfold bind at 1. cbn [orb]. rewrite record_untracked. cbn [ret].
  unfold bind at 1. rewrite (IH rest Hs). cbn [ret set_data values].
  rewrite zip_with_fmap_l, zip_with_fmap_r. reflexivity.
Qed.

Lemma no_grad_restores {A} (body : M F OptState A) r (w : World F OptState) :
  (forall w0, body w0 = (r, w0)) -> no_grad body w = (r, w).
Proof.
  intros H. unfold no_grad. rewrite H. destruct w. reflexivity.
Qed.

Lemma update_moving_average_spec (ema_model model : Net F) decay
  (w : World F OptState) :
  shapes_agree ema_model model ->
  update_moving_average ema_model model decay w
  = (Ok (ema_spec ema_model model decay), w).
Proof.
  intros Hs. unfold update_moving_average. apply no_grad_restores.
  intros w0. now apply ema_zip_spec.
Qed.




End EmaSpec.

Section EmaReal.
Context {OptState : Type}.
Local Open Scope R_scope.





End EmaReal.

(** ** State dictionaries and the checkpoint load *)

Section StateDict.
Context {F : Type} {FS : Scalar F} {OptState : Type}.

Lemma assoc_state_dict (m : Net F) n p :
  NoDup (map fst m) -> In (n, p) m -> assoc n (state_dict m) = Some (data p).
Proof.
  induction m as [|[n0 p0] m IH]; intros Hnd Hin; [contradiction|].
  cbn in *. apply NoDup_cons in Hnd as [Hn0 Hnd].
  destruct Hin as [[= -> ->]|Hin].
  - now rewrite String.eqb_refl.
  - destruct (String.eqb_spec n n0) as [->|_]; [|now apply IH].
    exfalso. apply Hn0. apply list_elem_of_In, in_map_iff.
    exists (n0, p). auto.
Qed.

Lemma assoc_in {A} (l : list (string * A)) n :
  In n (map fst l) -> exists v, assoc n l = Some v.
Proof.
  induction l as [|[n0 v0] l IH]; intros Hin; [contradiction|].
  cbn in *. destruct (String.eqb_spec n n0) as [->|Hne]; [eauto|].
  destruct Hin as [->|Hin]; [contradiction|]. now apply IH.
Qed.

Lemma same_arch_names (m0 m : Net F) :
  same_arch m0 m -> map fst m0 = map fst m.
Proof. induction 1 as [|a b m0 m [Hn _] _ IH]; cbn; congruence. Qed.

Lemma load_params_spec (sd : list (string * list F)) (m0 m : Net F) :
  same_arch m0 m ->
  (forall n p, In (n, p) m -> assoc n sd = Some (data p)) ->
  state_dict (map fst (map (load_param sd) m0)) = state_dict m /\
  forallb snd (map (load_param sd) m0) = true.
Proof.
  induction 1 as [|[n0 p0] [n p] m0 m [Hn Hlen] _ IH]; intros Hsd.
  - split; reflexivity.
  - cbn in Hn, Hlen. subst n0.
    destruct IH as [IH1 IH2]; [intros; apply Hsd; now right|].
    assert (Hp : load_param sd (n, p0)
                 = ((n, {| data := data p; requires_grad := requires_grad p0 |}),
                    true)).
    { unfold load_param. cbn [fst snd]. rewrite (Hsd n p) by now left.
      now rewrite <- Hlen, Nat.eqb_refl. }
    cbn [map forallb]. rewrite Hp. cbn [fst snd andb].
    unfold state_dict in *. cbn [map fst snd data]. rewrite IH1, IH2.
    split; reflexivity.
Qed.

Lemma load_state_dict_round_trip (m0 m : Net F) :
  NoDup (map fst m) -> same_arch m0 m ->
  exists m', load_state_dict (state_dict m) m0 = (m', Ok tt) /\
             state_dict m' = state_dict m.
Proof.
  intros Hnd Harch. unfold load_state_dict.
  destruct (load_params_spec (state_dict m) m0 m Harch) as [Hsd Hall].
  { intros n p Hin. now apply assoc_state_dict. }
  rewrite Hall. cbn [andb].
  assert (Hkeys : forallb (fun kv : string * list F =>
                             match assoc (fst kv) m0 with
                             | Some _ => true
                             | None => false
                             end) (state_dict m) = true).
  { apply forallb_forall. intros [k v] Hin. cbn [fst].
    destruct (assoc_in m0 k) as [p0 ->]; [|reflexivity].
    rewrite (same_arch_names m0 m Harch).
    unfold state_dict in Hin. apply in_map_iff in Hin as [[n p] [[= <- <-] Hin]].
    apply in_map_iff. exists (n, p). auto. }
  rewrite Hkeys. eauto.
Qed.

End StateDict.

Section Checkpoint.
Context {F : Type} {FS : Scalar F} {OptState : Type}.
Variable env : Env F OptState.
Local Abbreviation World := (World F OptState).

Lemma bind_ok {A B} (m : M F OptState A) (k : A -> M F OptState B) w a w1 :
  m w = (Ok a, w1) -> bind m k w = k a w1.
Proof. intros H. unfold bind. now rewrite H. Qed.

Lemma bind_raise {A B} (m : M F OptState A) (k : A -> M F OptState B) w e w1 :
  m w = (Raise e, w1) -> bind m k w = (Raise e, w1).
Proof. intros H. unfold bind. now rewrite H. Qed.

Lemma checkpoint_dict_lookups epoch (h : Heap F OptState) (avg_loss : F) :
  let d := checkpoint_dict epoch h avg_loss in
  d !! "epoch" = Some (PInt epoch) /\
  d !! "online_network_state_dict"
  = Some (PStateDict (state_dict (online_network h))) /\
  d !! "target_network_state_dict"
  = Some (PStateDict (state_dict (target_network h))) /\
  d !! "prediction_head_state_dict"
  = Some (PStateDict (state_dict (prediction_head h))) /\
  d !! "optimizer_state_dict" = Some (POptState (optimizer h)) /\
  d !! "loss" = Some (PFloat avg_loss).
Proof.
  unfold checkpoint_dict. cbv zeta.
  repeat split;
    repeat (first [ rewrite lookup_insert_eq; reflexivity
                  | rewrite lookup_insert_ne by discriminate ]).
Qed.

Lemma module_load_ok get set (sd : list (string * list F)) (w : World) m' :
  load_state_dict sd (get (heap w)) = (m', Ok tt) ->
  module_load_state_dict get set (PStateDict sd) w
  = (Ok tt, with_heap (set m' (heap w)) w).
Proof.
  intros H. unfold module_load_state_dict, bind, lift, get_world, set_heap.
  cbn. rewrite H. reflexivity.
Qed.

Lemma load_checkpoint_ok (cfg : Config F) (h : Heap F OptState) (epoch : Z)
  (avg_loss : F) (w : World) (blobs : gmap string (list byte)) :
  let ckpt := ODict (checkpoint_dict epoch h avg_loss) in
  torch_load env (torch_save env ckpt) = Ok ckpt ->
  conn_ok env (connection_string cfg) = true ->
  remote_fault env (calls w ++ [EvDownload (CHECKPOINT_CONTAINER cfg)
                                           (CHECKPOINT_BLOB_NAME cfg)]) = None ->
  azure w !! CHECKPOINT_CONTAINER cfg = Some blobs ->
  blobs !! CHECKPOINT_BLOB_NAME cfg = Some (torch_save env ckpt) ->
  same_arch (online_network (heap w)) (online_network h) ->
  same_arch (target_network (heap w)) (target_network h) ->
  same_arch (prediction_head (heap w)) (prediction_head h) ->
  NoDup (map fst (online_network h)) ->
  NoDup (map fst (target_network h)) ->
  NoDup (map fst (prediction_head h)) ->
  optimizer_accepts env (optimizer (heap w)) (optimizer h) = true ->
  exists w',
    load_checkpoint env cfg w = (Ok (PInt (epoch + 1)), w') /\
    state_dict (online_network (heap w')) = state_dict (online_network h) /\
    state_dict (target_network (heap w')) = state_dict (target_network h) /\
    state_dict (prediction_head (heap w')) = state_dict (prediction_head h) /\
    optimizer (heap w') = optimizer h /\
    fs w' = fs w /\ azure w' = azure w /\
    calls w' = calls w ++ [EvDownload (CHECKPOINT_CONTAINER cfg)
                                      (CHECKPOINT_BLOB_NAME cfg)].
Proof.
  intros ckpt Hpickle Hconn Hremote Hcont Hblob Ho Ht Hp Hno Hnt Hnp Hopt.
  destruct (checkpoint_dict_lookups epoch h avg_loss)
    as (Le & Lo & Lt & Lp & Lopt & _).
  destruct (load_state_dict_round_trip _ _ Hno Ho) as (o' & Hlo & Hso).
  destruct (load_state_dict_round_trip _ _ Hnt Ht) as (t' & Hlt & Hst).
  destruct (load_state_dict_round_trip _ _ Hnp Hp) as (p' & Hlp & Hsp).
  unfold load_checkpoint, from_connection_string. rewrite Hconn.
  erewrite bind_ok by reflexivity.
  erewrite bind_ok by (eapply download_blob_ok; eassumption).
  erewrite bind_ok by (unfold lift; rewrite Hpickle; reflexivity).
  erewrite bind_ok by reflexivity.
  erewrite bind_ok by (unfold lift, getitem; subst ckpt; cbv beta iota;
                       rewrite Lo; reflexivity).
  erewrite bind_ok by (apply module_load_ok; exact Hlo).
  erewrite bind_ok by (unfold lift, getitem; subst ckpt; cbv beta iota;
                       rewrite Lt; reflexivity).
  erewrite bind_ok by (apply module_load_ok; exact Hlt).
  erewrite bind_ok by (unfold lift, getitem; subst ckpt; cbv beta iota;
                       rewrite Lp; reflexivity).
  erewrite bind_ok by (apply module_load_ok; exact Hlp).
  erewrite bind_ok by (unfold lift, getitem; subst ckpt; cbv beta iota;
                       rewrite Lopt; reflexivity).
  erewrite bind_ok
    by (unfold optimizer_load_state_dict, bind, lift, get_world, set_heap;
        cbn; rewrite Hopt; reflexivity).
  erewrite bind_ok by (unfold lift, getitem; subst ckpt; cbv beta iota;
                       rewrite Le; reflexivity).
  erewrite bind_ok by reflexivity.
  erewrite bind_ok by reflexivity.
  eexists. split; [reflexivity|]. cbn. repeat split; assumption.
Qed.

End Checkpoint.

(** ** A checkpoint load that fails *)

Section MoreFrames.
Context {F : Type} {FS : Scalar F} {OptState : Type}.
Local Abbreviation World := (World F OptState).

#[export] Instance calls_add_preorder P :
  PreOrder (calls_add (F:=F) (OptState:=OptState) P).
Proof.
  split.
  - intros w. exists []. split; [now rewrite app_nil_r|constructor].
  - intros a b c [t1 [H1 P1]] [t2 [H2 P2]]. exists (t1 ++ t2). split.
    + now rewrite H2, H1, app_assoc.
    + apply Forall_app; auto.
Qed.

Lemma emit_adds (P : Event -> Prop) ev :
  P ev -> preserves (calls_add P) (emit (F:=F) (OptState:=OptState) ev).
Proof. intros H w. exists [ev]. split; [reflexivity|]. repeat constructor. exact H. Qed.

Lemma calls_add_same (P : Event -> Prop) (w w' : World) :
  calls w' = calls w -> calls_add P w w'.
Proof. intros H. exists []. split; [now rewrite app_nil_r|constructor]. Qed.

Lemma train_steps_app l1 l2 :
  train_steps (l1 ++ l2) = train_steps l1 ++ train_steps l2.
Proof. unfold train_steps. apply omap_app. Qed.

Lemma train_steps_quiet t : Forall not_train_step t -> train_steps t = [].
Proof.
  induction 1 as [|ev t Hev _ IH]; [reflexivity|].
  cbn. destruct ev; try exact IH. exfalso. eapply Hev. reflexivity.
Qed.

Lemma is_download_quiet ev : is_download ev -> not_train_step ev.
Proof. intros [c [b ->]] e i. discriminate. Qed.

End MoreFrames.

(** Leaves of the frame tactic for relations on the calls and on fields. *)
Ltac frame_leaf :=
  first
    [ solve [intros ?w; reflexivity]
    | solve [intros ?w; apply calls_add_same; reflexivity]
    | solve [apply emit_adds; first [ eexists; eexists; reflexivity
                                    | intros ? ?; discriminate ]] ].

Section Resume.
Context {F : Type} {FS : Scalar F} {OptState : Type}.
Variable env : Env F OptState.
Local Abbreviation World := (World F OptState).

Lemma load_checkpoint_fs cfg : preserves (same_on fs) (load_checkpoint env cfg).
Proof.
  unfold load_checkpoint, from_connection_string, module_load_state_dict,
    optimizer_load_state_dict.
  frame; frame_leaf.
Qed.

Lemma load_checkpoint_azure cfg :
  preserves (same_on azure) (load_checkpoint env cfg).
Proof.
  unfold load_checkpoint, from_connection_string, module_load_state_dict,
    optimizer_load_state_dict.
  frame; frame_leaf.
Qed.

Lemma load_checkpoint_calls cfg :
  preserves (calls_add is_download) (load_checkpoint env cfg).
Proof.
  unfold load_checkpoint, from_connection_string, module_load_state_dict,
    optimizer_load_state_dict.
  frame; frame_leaf.
Qed.

Lemma load_checkpoint_fails_early cfg (w : World) :
  fetch_or_deserialize_fails env cfg w ->
  exists e w1, load_checkpoint env cfg w = (Raise e, w1) /\ heap w1 = heap w.
Proof.
  unfold load_checkpoint, from_connection_string.
  intros [Hconn|[(e & w1 & Hdl)|(bytes & w1 & e & Hdl & Hload)]].
  - rewrite Hconn. erewrite bind_raise by reflexivity. eauto.
  - destruct (conn_ok env (connection_string cfg)).
    + erewrite bind_ok by reflexivity. erewrite bind_raise by exact Hdl.
      apply download_blob_inv in Hdl as [-> _]. eauto.
    + erewrite bind_raise by reflexivity. eauto.
  - destruct (conn_ok env (connection_string cfg)).
    + erewrite bind_ok by reflexivity. erewrite bind_ok by exact Hdl.
      erewrite bind_raise by (unfold lift; rewrite Hload; reflexivity).
      apply download_blob_inv in Hdl as [-> _]. eauto.
    + erewrite bind_raise by reflexivity. eauto.
Qed.

(** C4: when the [try] block of the checkpoint load raises, [main]
    returns from the handler: it reports the failure, makes no call other
    than the attempted download (no training step, no checkpoint write, no
    upload), and leaves disk and blob account as they were.  When the
    failure is that of the fetch or of the deserialization, the networks
    and the optimizer are as they were before the attempt. *)
Theorem resume_failure_aborts
  (cfg : Config F) (dataset : Dataset) (dataloader : DataLoader) (w : World) :
  (forall e w1,
      load_checkpoint env cfg w = (Raise e, w1) ->
      exists w',
        resume_and_train env cfg dataset dataloader w
        = (Ok ExitResumeFailed, w') /\
        calls_add is_download w w' /\
        train_steps (calls w') = train_steps (calls w) /\
        fs w' = fs w /\ azure w' = azure w /\ heap w' = heap w1) /\
  (fetch_or_deserialize_fails env cfg w ->
   exists w',
     resume_and_train env cfg dataset dataloader w
     = (Ok ExitResumeFailed, w') /\
     train_steps (calls w') = train_steps (calls w) /\
     heap w' = heap w).
Proof.
  assert (Hgen : forall e w1,
      load_checkpoint env cfg w = (Raise e, w1) ->
      exists w',
        resume_and_train env cfg dataset dataloader w
        = (Ok ExitResumeFailed, w') /\
        calls_add is_download w w' /\
        train_steps (calls w') = train_steps (calls w) /\
        fs w' = fs w /\ azure w' = azure w /\ heap w' = heap w1).
  { intros e w1 Hload.
    pose proof (load_checkpoint_fs cfg w) as Hfs.
    pose proof (load_checkpoint_azure cfg w) as Haz.
    pose proof (load_checkpoint_calls cfg w) as Hcalls.
    rewrite Hload in Hfs, Haz, Hcalls. cbn [snd] in *.
    unfold resume_and_train, try_except.
    unfold bind at 1. unfold bind at 1. rewrite Hload.
    eexists. split; [reflexivity|]. cbn.
    destruct Hcalls as [t [Ht HP]].
    split; [exists t; split; [exact Ht|exact HP]|].
    split.
    { rewrite Ht, train_steps_app, (train_steps_quiet t), app_nil_r;
        [reflexivity|].
      eapply Forall_impl; [exact HP|]. apply is_download_quiet. }
    repeat split; assumption. }
  split; [exact Hgen|].
  intros Hfail.
  destruct (load_checkpoint_fails_early cfg w Hfail) as (e & w1 & Hload & Hheap).
  destruct (Hgen e w1 Hload) as (w' & Hrun & _ & Hsteps & _ & _ & Hh).
  exists w'. repeat split; try assumption. congruence.
Qed.

End Resume.

(** ** Fewer patches than one batch *)

Section SmallDataset.
Context {F : Type} {FS : Scalar F} {OptState : Type}.
Variable env : Env F OptState.
Local Abbreviation World := (World F OptState).

Lemma range2_cons (a b : Z) : a < b -> range2 a b = a :: range2 (a + 1) b.
Proof.
  intros H. unfold range2.
  replace (Z.to_nat (b - a)) with (S (Z.to_nat (b - (a + 1)))) by lia.
  cbn [seq map]. f_equal; [lia|].
  rewrite <- seq_shift, map_map. apply map_ext. intros k. lia.
Qed.

Lemma range2_nil (a b : Z) : b <= a -> range2 a b = [].
Proof.
  intros H. unfold range2. now replace (Z.to_nat (b - a)) with 0%nat by lia.
Qed.

Lemma in_range2 (a b x : Z) : In x (range2 a b) <-> a <= x < b.
Proof.
  unfold range2. rewrite in_map_iff. split.
  - intros [k [<- Hk]]. apply in_seq in Hk. lia.
  - intros H. exists (Z.to_nat (x - a)). split; [lia|]. apply in_seq. lia.
Qed.

(** C9: a dataset of at least one and fewer than [BATCH_SIZE] patches
    passes the empty-dataset guard, so that [main] goes on to create the
    networks and to load the checkpoint; its data loader has length 0;
    every epoch then runs no step and raises [ZeroDivisionError] in the
    mean of the loss, before any checkpoint is written; and so does the
    training loop from any start epoch below [NUM_EPOCHS]. *)
Theorem small_dataset_divides_by_zero (cfg : Config F) (dataset : Dataset) :
  1 <= dataset_len dataset < BATCH_SIZE cfg ->
  let dataloader :=
    {| dataset_of := dataset; batch_size := BATCH_SIZE cfg;
       drop_last := true |} in
  (forall w : World,
      start_training env cfg dataset w
      = bind (print "Initializing ResNet-18 model structure...")
          (fun _ =>
           bind (print "ResNet-18 structure initialized.")
             (fun _ =>
              bind (set_heap (fresh_heap env))
                (fun _ =>
                 bind (makedirs env (LOCAL_MODEL_OUTPUT_DIR cfg))
                   (fun _ =>
                    bind (print ("Attempting to load checkpoint '"
                                 +:+ CHECKPOINT_BLOB_NAME cfg
                                 +:+ "' from Azure container '"
                                 +:+ CHECKPOINT_CONTAINER cfg +:+ "'..."))
                      (fun _ =>
                       resume_and_train env cfg dataset dataloader))))) w) /\
  dataloader_len dataloader = 0 /\
  (forall (epoch : Z) (w : World),
      run_epoch env cfg dataloader epoch w
      = (Raise (ZeroDivisionError "float division by zero"), w)) /\
  (forall (start_epoch : Z) (w : World),
      start_epoch < NUM_EPOCHS cfg ->
      exists w',
        training_loop env cfg dataset dataloader (PInt start_epoch) w
        = (Raise (ZeroDivisionError "float division by zero"), w') /\
        calls w' = calls w /\ fs w' = fs w /\ azure w' = azure w /\
        heap w' = heap w).
Proof.
  intros Hlen dataloader.
  assert (Hdl : dataloader_len dataloader = 0).
  { unfold dataloader_len. cbn. apply Z.div_small. lia. }
  assert (Hepoch : forall (epoch : Z) (w : World),
             run_epoch env cfg dataloader epoch w
             = (Raise (ZeroDivisionError "float division by zero"), w)).
  { intros epoch w. unfold run_epoch. rewrite Hdl. reflexivity. }
  split; [|split; [exact Hdl|split; [exact Hepoch|]]].
  - intros w. unfold start_training.
    destruct (Z.eqb_spec (dataset_len dataset) 0) as [H0|_]; [lia|].
    unfold new_DataLoader.
    destruct (Z.leb_spec (BATCH_SIZE cfg) 0) as [Hb|_]; [lia|].
    reflexivity.
  - intros start_epoch w Hstart. unfold training_loop.
    erewrite bind_ok by reflexivity.
    erewrite bind_ok by reflexivity.
    rewrite range2_cons by exact Hstart. cbn [for_].
    erewrite bind_raise
      by (erewrite bind_raise by apply Hepoch; reflexivity).
    eexists. split; [reflexivity|]. repeat split.
Qed.

End SmallDataset.

(** ** The checkpoint block *)

Lemma checkpoint_name_inj (n m : Z) :
  checkpoint_name n = checkpoint_name m -> n = m.
Proof.
  unfold checkpoint_name. intros H.
  apply String.app_inj in H. apply append_inv_r in H. now apply str_int_inj.
Qed.

Section Save.
Context {F : Type} {FS : Scalar F} {OptState : Type}.
Variable env : Env F OptState.
Local Abbreviation World := (World F OptState).

Lemma upload_returns cs c p name (w : World) :
  exists w', upload_checkpoint_to_azure env cs c p name w = (Ok tt, w').
Proof.
  unfold upload_checkpoint_to_azure, try_except.
  match goal with |- context [bind ?m ?k w] =>
    destruct (bind m k w) as [[[]|e] w1] end; eauto.
Qed.

Lemma upload_fs cs c p name :
  preserves (same_on fs) (upload_checkpoint_to_azure env cs c p name).
Proof.
  destruct p. unfold upload_checkpoint_to_azure, from_connection_string,
    create_container, read_file, upload_blob, remote_check.
  frame; frame_leaf.
Qed.

Lemma upload_heap cs c p name :
  preserves (same_on heap) (upload_checkpoint_to_azure env cs c p name).
Proof.
  destruct p. unfold upload_checkpoint_to_azure, from_connection_string,
    create_container, read_file, upload_blob, remote_check.
  frame; frame_leaf.
Qed.

Lemma upload_calls (P : Event -> Prop) cs c p name :
  (forall ev, not_train_step ev -> P ev) ->
  preserves (calls_add P) (upload_checkpoint_to_azure env cs c p name).
Proof.
  intros HP.
  destruct p. unfold upload_checkpoint_to_azure, from_connection_string,
    create_container, read_file, upload_blob, remote_check.
  frame; try frame_leaf; apply emit_adds, HP; intros ? ?; discriminate.
Qed.

Lemma read_file_ok dir name (w : World) entries b :
  fs w !! dir = Some (Dir entries) -> entries !! name = Some (RawBytes b) ->
  read_file env (dir, name) w = (Ok b, w).
Proof.
  intros Hd Hn. unfold read_file, bind, get_world, ret. cbn.
  now rewrite Hd, Hn.
Qed.

Lemma upload_ok cs c dir name (w : World) entries b :
  conn_ok env cs = true ->
  (forall t, remote_fault env (calls w ++ t) = None) ->
  fs w !! dir = Some (Dir entries) -> entries !! name = Some (RawBytes b) ->
  upload_checkpoint_to_azure env cs c (dir, name) name w
  = (Ok tt, uploaded c name b w).
Proof.
  intros Hconn Hremote Hd Hn.
  unfold upload_checkpoint_to_azure, try_except, from_connection_string.
  rewrite Hconn. erewrite bind_ok by reflexivity.
  pose proof (Hremote [EvCreateContainer c]) as H1.
  pose proof (Hremote [EvCreateContainer c; EvUpload c name]) as H2.
  destruct (azure w !! c) as [blobs|] eqn:Hc.
  - cbv [bind create_container emit remote_check get_world ret raise
           print read_file upload_blob set_azure].
    cbn. rewrite H1. cbn. rewrite Hc. cbn. rewrite Hd, Hn. cbn.
    rewrite <- app_assoc. cbn. rewrite H2. cbn. rewrite Hc.
    unfold uploaded. rewrite Hc. cbn. rewrite <- !app_assoc. reflexivity.
  - cbv [bind create_container emit remote_check get_world ret raise
           print read_file upload_blob set_azure].
    cbn. rewrite H1. cbn. rewrite Hc. cbn. rewrite Hd, Hn. cbn.
    rewrite <- app_assoc. cbn. rewrite H2. cbn. rewrite lookup_insert_eq.
    unfold uploaded. rewrite Hc. cbn. rewrite insert_insert_eq.
    rewrite <- !app_assoc. reflexivity.
Qed.

Lemma save_checkpoint_ok (cfg : Config F) epoch avg_loss (w : World) entries :
  let name := checkpoint_name (epoch + 1) in
  let bytes := torch_save env (ODict (checkpoint_dict epoch (heap w) avg_loss)) in
  let out := LOCAL_MODEL_OUTPUT_DIR cfg in
  fs w !! out = Some (Dir entries) ->
  disk_fault env (calls w ++ [EvSave out name (RawBytes bytes)]) = None ->
  save_checkpoint env cfg epoch avg_loss w
  = upload_checkpoint_to_azure env (connection_string cfg) "resnet18"
      (out, name) name
      (printed "Checkpoint saved."
         (wrote out name (RawBytes bytes)
            (printed ("Saving checkpoint to " +:+ path_str (out, name) +:+ "...")
               w))).
Proof.
  intros name bytes out Hd Hf. unfold save_checkpoint.
  erewrite bind_ok by reflexivity.
  erewrite bind_ok by reflexivity.
  erewrite bind_ok by (unfold path_join; eapply write_file_ok; eassumption).
  erewrite bind_ok by reflexivity.
  reflexivity.
Qed.

(** C10: the checkpoint block that ends the 0-based epoch [epoch] writes
    the file [checkpoint_epoch_{epoch+1}.pth], whose dictionary holds
    [epoch] in its epoch field, and uploads it under the same name; names
    determine their number; hence a run that resumes from the blob named
    [checkpoint_epoch_{N}.pth] that this block has uploaded starts at
    epoch [N], one more than the stored field. *)
Theorem checkpoint_name_is_resume_epoch
  (cfg : Config F) (epoch : Z) (avg_loss : F) (w : World)
  (entries : gmap string content) :
  let name := checkpoint_name (epoch + 1) in
  let ckpt := ODict (checkpoint_dict epoch (heap w) avg_loss) in
  let bytes := torch_save env ckpt in
  let out := LOCAL_MODEL_OUTPUT_DIR cfg in
  fs w !! out = Some (Dir entries) ->
  disk_fault env (calls w ++ [EvSave out name (RawBytes bytes)]) = None ->
  conn_ok env (connection_string cfg) = true ->
  (forall t, remote_fault env (calls w ++ t) = None) ->
  exists w1,
    save_checkpoint env cfg epoch avg_loss w = (Ok tt, w1) /\
    calls w1 = calls w ++ [EvSave out name (RawBytes bytes);
                           EvCreateContainer "resnet18";
                           EvUpload "resnet18" name] /\
    (exists entries', fs w1 !! out = Some (Dir entries') /\
                      entries' !! name = Some (RawBytes bytes)) /\
    (exists blobs, azure w1 !! "resnet18" = Some blobs /\
                   blobs !! name = Some bytes) /\
    getitem ckpt "epoch" = Ok (PInt epoch) /\
    (forall n m, checkpoint_name n = checkpoint_name m -> n = m) /\
    forall (cfg2 : Config F) (N : Z) (w2 : World),
      CHECKPOINT_CONTAINER cfg2 = "resnet18" ->
      CHECKPOINT_BLOB_NAME cfg2 = checkpoint_name N ->
      checkpoint_name N = name ->
      azure w2 = azure w1 ->
      torch_load env bytes = Ok ckpt ->
      conn_ok env (connection_string cfg2) = true ->
      remote_fault env (calls w2 ++ [EvDownload "resnet18" (checkpoint_name N)])
      = None ->
      same_arch (online_network (heap w2)) (online_network (heap w)) ->
      same_arch (target_network (heap w2)) (target_network (heap w)) ->
      same_arch (prediction_head (heap w2)) (prediction_head (heap w)) ->
      NoDup (map fst (online_network (heap w))) ->
      NoDup (map fst (target_network (heap w))) ->
      NoDup (map fst (prediction_head (heap w))) ->
      optimizer_accepts env (optimizer (heap w2)) (optimizer (heap w)) = true ->
      N = epoch + 1 /\
      exists w3, load_checkpoint env cfg2 w2 = (Ok (PInt N), w3).
Proof.
  intros name ckpt bytes out Hd Hdisk Hconn Hremote.
  set (w0 := printed "Checkpoint saved."
               (wrote out name (RawBytes bytes)
                  (printed ("Saving checkpoint to " +:+ path_str (out, name)
                            +:+ "...") w))).
  assert (Hfile : exists entries', fs w0 !! out = Some (Dir entries') /\
                                   entries' !! name = Some (RawBytes bytes)).
  { eexists. split.
    - subst w0. cbn [printed fs]. eapply wrote_dir. exact Hd.
    - apply lookup_insert_eq. }
  destruct Hfile as (entries' & Hd' & Hn').
  exists (uploaded "resnet18" name bytes w0).
  assert (Hsave : save_checkpoint env cfg epoch avg_loss w
                  = (Ok tt, uploaded "resnet18" name bytes w0)).
  { erewrite save_checkpoint_ok by eassumption.
    eapply upload_ok; try eassumption.
    intros t. subst w0. cbn [printed wrote calls]. rewrite <- app_assoc.
    apply Hremote. }
  split; [exact Hsave|].
  split; [subst w0; cbn [uploaded printed wrote calls];
          now rewrite <- app_assoc|].
  split; [exists entries'; split; assumption|].
  assert (Hblob : exists blobs,
             azure (uploaded "resnet18" name bytes w0) !! "resnet18"
             = Some blobs /\ blobs !! name = Some bytes).
  { eexists. split; [cbn [uploaded azure]; apply lookup_insert_eq|].
    apply lookup_insert_eq. }
  split; [exact Hblob|].
  destruct (checkpoint_dict_lookups epoch (heap w) avg_loss) as (Le & _).
  split; [unfold getitem; subst ckpt; cbv beta iota; now rewrite Le|].
  split; [exact checkpoint_name_inj|].
  intros cfg2 N w2 Hc2 Hb2 HN Haz Hpickle Hconn2 Hrem2 Ho Ht Hp Hno Hnt Hnp Hopt.
  assert (HNe : N = epoch + 1) by (apply checkpoint_name_inj; exact HN).
  split; [exact HNe|].
  destruct Hblob as (blobs & Hcont & Hblob).
  assert (Hrem' : remote_fault env
            (calls w2 ++ [EvDownload (CHECKPOINT_CONTAINER cfg2)
                                     (CHECKPOINT_BLOB_NAME cfg2)]) = None)
    by (rewrite Hc2, Hb2; exact Hrem2).
  assert (Hcont' : azure w2 !! CHECKPOINT_CONTAINER cfg2 = Some blobs)
    by (rewrite Hc2, Haz; exact Hcont).
  assert (Hblob' : blobs !! CHECKPOINT_BLOB_NAME cfg2 = Some bytes)
    by (rewrite Hb2, HN; exact Hblob).
  destruct (load_checkpoint_ok env cfg2 (heap w) epoch avg_loss w2 blobs
              Hpickle Hconn2 Hrem' Hcont' Hblob' Ho Ht Hp Hno Hnt Hnp Hopt)
    as (w3 & Hload & _).
  exists w3. rewrite HNe. exact Hload.
Qed.

End Save.

(** ** Save, then resume *)

Section RoundTrip.
Context {F : Type} {FS : Scalar F} {OptState : Type}.
Variable env : Env F OptState.
Local Abbreviation World := (World F OptState).



End RoundTrip.

(** ** The training loop after a resume *)

Section Loop.
Context {F : Type} {FS : Scalar F} {OptState : Type}.
Variable env : Env F OptState.
Local Abbreviation World := (World F OptState).



(** *** Safety: the steps of the loop belong to its epochs *)

Lemma preserves_for_in {A S} (R : World -> World -> Prop) `{!PreOrder R}
  (xs : list A) (body : A -> S -> M F OptState S) (s : S) :
  (forall x s, In x xs -> preserves R (body x s)) ->
  preserves R (for_ xs body s).
Proof.
  revert s. induction xs as [|x xs IH]; intros s Hb; cbn [for_].
  - apply preserves_ret. exact _.
  - apply preserves_bind; [exact _|apply Hb; now left|].
    intros s'. apply IH. intros y s0 Hy. apply Hb. now right.
Qed.

Lemma preserves_no_grad {A} (R : World -> World -> Prop) `{!PreOrder R}
  (body : M F OptState A) :
  (forall b w, R w (set_grad_enabled b w)) ->
  preserves R body -> preserves R (no_grad body).
Proof.
  intros Hb Hbody w. unfold no_grad.
  specialize (Hbody (set_grad_enabled false w)).
  destruct (body (set_grad_enabled false w)) as [r w1]. cbn [snd] in *.
  etransitivity; [apply Hb|]. etransitivity; [exact Hbody|]. apply Hb.
Qed.

Lemma ema_zip_calls P (ema_model model : Net F) decay :
  preserves (calls_add P) (ema_zip (OptState:=OptState) ema_model model decay).
Proof.
  revert model. induction ema_model as [|[name t] rest IH];
    intros [|[name' o] model]; cbn [ema_zip];
    try (apply preserves_ret; exact _).
  unfold scalar_mul, tensor_add, record_op.
  frame; frame_leaf.
Qed.

Lemma update_calls P (ema_model model : Net F) decay :
  preserves (calls_add P)
    (update_moving_average (OptState:=OptState) ema_model model decay).
Proof.
  unfold update_moving_average. apply preserves_no_grad; [exact _| |].
  - intros b w. now apply calls_add_same.
  - apply ema_zip_calls.
Qed.

Lemma write_file_epoch lo hi p c :
  preserves (calls_add (epoch_in lo hi)) (write_file env p c).
Proof.
  destruct p. unfold write_file, disk_check. frame; frame_leaf.
Qed.

Lemma upload_epoch lo hi cs c p name :
  preserves (calls_add (epoch_in lo hi))
            (upload_checkpoint_to_azure env cs c p name).
Proof.
  apply upload_calls. intros ev Hev e i ->. exfalso. now apply (Hev e i).
Qed.

Local Hint Resolve write_file_epoch upload_epoch update_calls : frame.


Lemma preserves_bind_lift {A B} (R : World -> World -> Prop) (a : A)
  (k : A -> M F OptState B) :
  preserves R (k a) -> preserves R (bind (lift (Ok a)) k).
Proof. intros H w. apply H. Qed.


(** *** Progress: without faults every epoch of the loop is run *)








End Loop.

(** * Further properties of the code *)

(** ** The worker at the edges of its input *)

Section WorkerEdges.
Context {F : Type} {FS : Scalar F} {OptState : Type}.
Variable env : Env F OptState.
Local Abbreviation World := (World F OptState).

(** The worker once the object is downloaded and decoded. *)
Lemma process_blob_decoded blob cs container dir p (w : World) blobs bytes img :
  conn_ok env cs = true ->
  remote_fault env (calls w ++ [EvDownload container blob]) = None ->
  azure w !! container = Some blobs ->
  blobs !! blob = Some bytes ->
  Image_open env bytes = Ok img ->
  process_blob env (blob, cs, container, dir, p) w
  = try_except
      (bind (lift (range 0 (Z.of_N (height img) - p + 1) p))
         (fun ys =>
            bind (for_ ys
                    (fun y patch_num =>
                       bind (lift (range 0 (Z.of_N (width img) - p + 1) p))
                         (fun xs =>
                            for_ xs (inner_body env blob dir img p y) patch_num))
                    0)
              (fun _ => ret (processed blob))))
      (fun e => ret (failed blob e))
      (emitted (EvDownload container blob) w).
Proof.
  intros Hconn Hremote Hcont Hblob Hopen.
  unfold process_blob, from_connection_string. rewrite Hconn.
  unfold bind at 1. cbn [ret]. unfold try_except.
  unfold bind at 1. erewrite download_blob_ok by eassumption.
  unfold bind at 1. rewrite Hopen. cbn [lift].
  reflexivity.
Qed.

(** Rows without columns write nothing. *)
Lemma rows_without_columns {A} (ys : list A) (body : A -> Z -> Z -> M F OptState Z)
  (n : Z) (w : World) :
  for_ ys (fun y patch_num =>
             bind (lift (Ok []))
               (fun xs => for_ xs (body y) patch_num)) n w
  = (Ok n, w).
Proof.
  induction ys as [|y ys IH]; [reflexivity|].
  cbn [for_]. unfold bind at 1. cbn [lift]. unfold bind at 1. cbn [for_ ret].
  exact IH.
Qed.

Lemma range_empty (stop step : Z) :
  0 < step -> stop <= 0 -> range 0 stop step = Ok [].
Proof.
  intros Hs Hstop. unfold range, range_len.
  destruct (Z.eqb_spec step 0) as [|_]; [lia|].
  destruct (Z.ltb_spec 0 step) as [_|]; [|lia].
  destruct (Z.ltb_spec 0 stop) as [|_]; [lia|]. reflexivity.
Qed.

Lemma range_backwards_empty (stop step : Z) :
  step < 0 -> 0 <= stop -> range 0 stop step = Ok [].
Proof.
  intros Hs Hstop. unfold range, range_len.
  destruct (Z.eqb_spec step 0) as [|_]; [lia|].
  destruct (Z.ltb_spec 0 step) as [|_]; [lia|].
  destruct (Z.ltb_spec stop 0) as [|_]; [lia|]. reflexivity.
Qed.

(** X1: a patch size of 0 makes [range] raise, which the worker reports
    as the failure of the object; a negative patch size makes both ranges
    empty, and the object is reported as processed.  In both cases
    nothing is written. *)
Theorem process_blob_nonpositive_patch_size
  (blob cs container dir : string) (patch_size : Z) (w : World)
  (blobs : gmap string (list byte)) (bytes : list byte) (img : Image) :
  patch_size <= 0 ->
  conn_ok env cs = true ->
  remote_fault env (calls w ++ [EvDownload container blob]) = None ->
  azure w !! container = Some blobs ->
  blobs !! blob = Some bytes ->
  Image_open env bytes = Ok img ->
  process_blob env (blob, cs, container, dir, patch_size) w
  = (Ok (if patch_size =? 0
         then "Failed to process " +:+ blob
              +:+ ": range() arg 3 must not be zero"
         else "Processed " +:+ blob),
     emitted (EvDownload container blob) w).
Proof.
  intros Hp Hconn Hremote Hcont Hblob Hopen.
  erewrite process_blob_decoded by eassumption.
  unfold try_except.
  destruct (Z.eqb_spec patch_size 0) as [->|Hne].
  - reflexivity.
  - unfold bind at 1.
    rewrite range_backwards_empty by lia. cbn [lift].
    reflexivity.
Qed.

(** X2: an image narrower or lower than one patch is reported as
    processed although no patch is written; the target directory is not
    even looked at. *)
Theorem process_blob_image_smaller_than_patch
  (blob cs container dir : string) (patch_size : Z) (w : World)
  (blobs : gmap string (list byte)) (bytes : list byte) (img : Image) :
  0 < patch_size ->
  Z.of_N (width img) < patch_size \/ Z.of_N (height img) < patch_size ->
  conn_ok env cs = true ->
  remote_fault env (calls w ++ [EvDownload container blob]) = None ->
  azure w !! container = Some blobs ->
  blobs !! blob = Some bytes ->
  Image_open env bytes = Ok img ->
  process_blob env (blob, cs, container, dir, patch_size) w
  = (Ok ("Processed " +:+ blob), emitted (EvDownload container blob) w).
Proof.
  intros Hp Hsmall Hconn Hremote Hcont Hblob Hopen.
  erewrite process_blob_decoded by eassumption.
  unfold try_except.
  destruct (Z.lt_ge_cases (Z.of_N (height img)) patch_size) as [Hh|Hh].
  - unfold bind at 1. rewrite range_empty by lia. reflexivity.
  - destruct Hsmall as [Hw|]; [|lia].
    unfold bind at 1.
    destruct (range 0 (Z.of_N (height img) - patch_size + 1) patch_size)
      as [ys|e] eqn:Hys.
    2:{ unfold range in Hys. destruct (Z.eqb_spec patch_size 0); [lia|discriminate]. }
    cbn [lift]. rewrite (range_empty (Z.of_N (width img) - patch_size + 1)) by lia.
    unfold bind at 1. rewrite rows_without_columns. reflexivity.
Qed.

(** *** The two loops as one list of writes *)

Lemma write_entries_grows dir l :
  preserves fs_grows (write_entries env dir l).
Proof. unfold write_entries, path_join. frame. Qed.

Lemma bind_assoc {A B C} (m : M F OptState A) (k : A -> M F OptState B)
  (h : B -> M F OptState C) (w : World) :
  bind (bind m k) h w = bind m (fun a => bind (k a) h) w.
Proof. unfold bind. destruct (m w) as [[a|e] w1]; reflexivity. Qed.

Lemma bind_ext {A B} (m : M F OptState A) (k k' : A -> M F OptState B)
  (w : World) :
  (forall a w1, k a w1 = k' a w1) -> bind m k w = bind m k' w.
Proof.
  intros H. unfold bind. destruct (m w) as [[a|e] w1]; [apply H|reflexivity].
Qed.

Lemma write_entries_app dir l1 l2 (w : World) :
  write_entries env dir (l1 ++ l2) w
  = bind (write_entries env dir l1) (fun _ => write_entries env dir l2) w.
Proof.
  unfold write_entries. revert w.
  induction l1 as [|nc l1 IH]; intros w; [reflexivity|].
  cbn [app for_]. rewrite bind_assoc. apply bind_ext.
  intros [] w1. apply IH.
Qed.

Lemma bind_write_entries_app {B} dir l1 l2 (k : unit -> M F OptState B)
  (w : World) :
  bind (write_entries env dir (l1 ++ l2)) k w
  = bind (write_entries env dir l1)
         (fun _ => bind (write_entries env dir l2) k) w.
Proof.
  rewrite <- bind_assoc. unfold bind at 1 3.
  now rewrite write_entries_app.
Qed.

Lemma for_cons_run {A S} (x : A) (xs : list A) (body : A -> S -> M F OptState S)
  (s : S) (w : World) :
  for_ (x :: xs) body s w
  = match body x s w with
    | (Ok s', w') => for_ xs body s' w'
    | (Raise e, w') => (Raise e, w')
    end.
Proof. reflexivity. Qed.

Lemma bind_lift_ok {A B} (a : A) (k : A -> M F OptState B) (w : World) :
  bind (lift (Ok a)) k w = k a w.
Proof. reflexivity. Qed.

Section Loops.
Variables (blob dir : string) (img : Image) (p : Z).
Hypothesis p_pos : 0 < p.

Lemma inner_as_entries (y base : Z) (len c0 : nat) (w : World) :
  for_ (map (fun k : nat => 0 + Z.of_nat k * p) (seq c0 len))
       (inner_body env blob dir img p y) (base + Z.of_nat c0) w
  = bind (write_entries env dir (map (cell blob img p y base) (seq c0 len)))
         (fun _ => ret (base + Z.of_nat c0 + Z.of_nat len)) w.
Proof.
  revert c0 w. induction len as [|len IH]; intros c0 w.
  - cbn. unfold ret. do 2 f_equal. lia.
  - cbn [seq map]. unfold write_entries. cbn [for_].
    unfold inner_body at 1. rewrite !bind_assoc.
    apply bind_ext. intros [] w1.
    change (for_ (map (fun k : nat => 0 + Z.of_nat k * p) (seq (S c0) len))
                 (inner_body env blob dir img p y)
                 (base + Z.of_nat c0 + 1) w1
            = bind (write_entries env dir
                      (map (cell blob img p y base) (seq (S c0) len)))
                   (fun _ => ret (base + Z.of_nat c0 + Z.of_nat (S len))) w1).
    replace (base + Z.of_nat c0 + 1) with (base + Z.of_nat (S c0)) by lia.
    rewrite IH. apply bind_ext. intros _ w2. unfold ret. do 2 f_equal. lia.
Qed.

Lemma outer_as_entries (len r0 : nat) (w : World) :
  for_ (map (fun k : nat => 0 + Z.of_nat k * p) (seq r0 len))
       (fun y patch_num =>
          bind (lift (range 0 (Z.of_N (width img) - p + 1) p))
            (fun xs => for_ xs (inner_body env blob dir img p y) patch_num))
       (Z.of_nat r0 * (Z.of_N (width img) / p)) w
  = bind (write_entries env dir
            (flat_map (fun r : nat =>
                         map (cell blob img p (0 + Z.of_nat r * p)
                                (Z.of_nat r * (Z.of_N (width img) / p)))
                             (seq 0 (Z.to_nat (Z.of_N (width img) / p))))
                      (seq r0 len)))
         (fun _ => ret (Z.of_nat (r0 + len) * (Z.of_N (width img) / p))) w.
Proof.
  assert (Hcols : 0 <= Z.of_N (width img) / p) by (apply Z.div_pos; lia).
  rewrite range_tiles by lia.
  set (nc := Z.of_N (width img) / p) in *.
  revert r0 w. induction len as [|len IH]; intros r0 w.
  - cbn. unfold ret. do 2 f_equal. f_equal. lia.
  - cbn [seq map flat_map].
    rewrite for_cons_run. cbv beta. rewrite bind_lift_ok. cbv beta.
    pose proof (inner_as_entries (0 + Z.of_nat r0 * p) (Z.of_nat r0 * nc)
                  (Z.to_nat nc) 0 w) as Hin.
    rewrite Z.add_0_r in Hin. rewrite Hin. clear Hin.
    rewrite bind_write_entries_app.
    unfold bind at 1 3.
    destruct (write_entries env dir _ w) as [[[]|e] w1]; [|reflexivity].
    cbn [ret].
    replace (Z.of_nat r0 * nc + Z.of_nat (Z.to_nat nc))
      with (Z.of_nat (S r0) * nc) by lia.
    rewrite IH. apply bind_ext. intros _ w2.
    unfold ret. do 2 f_equal. f_equal. lia.
Qed.

End Loops.

(** The worker after a successful decode: the writes of the grid, in
    order, up to the first that fails. *)
Lemma process_blob_as_entries blob cs container dir p (w : World) blobs bytes img :
  0 < p ->
  conn_ok env cs = true ->
  remote_fault env (calls w ++ [EvDownload container blob]) = None ->
  azure w !! container = Some blobs ->
  blobs !! blob = Some bytes ->
  Image_open env bytes = Ok img ->
  process_blob env (blob, cs, container, dir, p) w
  = try_except
      (bind (write_entries env dir (grid_patches blob img p))
            (fun _ => ret (processed blob)))
      (fun e => ret (failed blob e))
      (emitted (EvDownload container blob) w).
Proof.
  intros Hp Hconn Hremote Hcont Hblob Hopen.
  erewrite process_blob_decoded by eassumption.
  unfold try_except.
  unfold bind at 1. rewrite range_tiles by lia. cbn [lift].
  pose proof (outer_as_entries blob dir img p Hp
                (Z.to_nat (Z.of_N (height img) / p)) 0
                (emitted (EvDownload container blob) w)) as Hloop.
  cbn [Z.of_nat] in Hloop. rewrite Z.mul_0_l in Hloop.
  unfold bind at 1. rewrite Hloop. clear Hloop.
  rewrite cells_are_grid by assumption.
  unfold bind.
  destruct (write_entries env dir _ _) as [[[]|e] w1]; reflexivity.
Qed.

Lemma write_entries_cons_run dir nc l (w : World) :
  write_entries env dir (nc :: l) w
  = match write_file env (dir, fst nc) (snd nc) w with
    | (Ok _, w') => write_entries env dir l w'
    | (Raise e, w') => (Raise e, w')
    end.
Proof.
  unfold write_entries. rewrite for_cons_run. unfold path_join.
  destruct (write_file env (dir, fst nc) (snd nc) w) as [[[]|e] w1]; reflexivity.
Qed.

Lemma write_entries_any dir l (w : World) :
  exists k : nat,
    (k <= length l)%nat /\
    calls (snd (write_entries env dir l w)) = calls w ++ saves dir (take k l) /\
    (fst (write_entries env dir l w) = Ok tt -> k = length l) /\
    forall j nc, l !! j = Some nc ->
      (S j < k)%nat \/ ((j < k)%nat /\ fst (write_entries env dir l w) = Ok tt) ->
      present dir (fst nc) (snd (write_entries env dir l w)).
Proof.
  revert w. induction l as [|nc l IH]; intros w.
  - exists 0%nat. cbn. rewrite app_nil_r. repeat split; lia.
  - rewrite write_entries_cons_run.
    destruct (write_file_cases env dir (fst nc) (snd nc) w)
      as [[es [Hdir Hw]]|[e Hw]]; rewrite Hw.
    + destruct (IH (wrote dir (fst nc) (snd nc) w))
        as (k & Hk & Hcalls & Hok & Hpres).
      exists (S k). split; [cbn [length]; lia|]. split; [|split].
      * rewrite Hcalls. cbn [wrote calls take saves map].
        now rewrite <- app_assoc.
      * intros H. cbn [length]. f_equal. now apply Hok.
      * intros [|j] nc' Hj Hcase.
        -- injection Hj as <-.
           apply (write_entries_grows dir l (wrote dir (fst nc) (snd nc) w)).
           eapply present_wrote, Hdir.
        -- apply (Hpres j nc' Hj). destruct Hcase as [H|[H Hr]]; [left|right; split];
             try lia; assumption.
    + exists 1%nat. cbn [length fst snd]. split; [lia|]. split; [|split].
      * cbn [take saves map emitted calls]. now rewrite take_0.
      * discriminate.
      * intros j nc' Hj [H|[_ H]]; [lia|discriminate].
Qed.

Lemma grid_patches_lookup blob img p (k : nat) nc :
  grid_patches blob img p !! k = Some nc ->
  fst nc = patch_filename blob (Z.of_nat k).
Proof.
  unfold grid_patches. rewrite list_lookup_fmap.
  destruct (seq 0 _ !! k) as [i|] eqn:Hi; [|discriminate].
  apply lookup_seq in Hi as [-> _]. intros [= <-]. reflexivity.
Qed.

(** X3: whatever fails, and whenever, the writes that a worker attempts
    are an initial segment of the row-major list of the patches of its
    object, in this order, the last of them being the one that failed if
    one did; nothing is cleaned up after a failure: the patches written
    before it stay in the directory, while the object is reported as
    failed. *)
Theorem process_blob_writes_grid_prefix
  (blob cs container dir : string) (patch_size : Z) (w : World)
  (blobs : gmap string (list byte)) (bytes : list byte) (img : Image) :
  0 < patch_size ->
  conn_ok env cs = true ->
  azure w !! container = Some blobs ->
  blobs !! blob = Some bytes ->
  Image_open env bytes = Ok img ->
  let grid := grid_patches blob img patch_size in
  exists msg (n : nat) w',
    process_blob env (blob, cs, container, dir, patch_size) w = (Ok msg, w') /\
    (n <= length grid)%nat /\
    calls w' = calls w ++ EvDownload container blob :: saves dir (take n grid) /\
    ((msg = processed blob /\ n = length grid /\
      forall k : nat, (k < n)%nat ->
        present dir (patch_filename blob (Z.of_nat k)) w') \/
     ((exists e, msg = failed blob e) /\
      forall k : nat, (S k < n)%nat ->
        present dir (patch_filename blob (Z.of_nat k)) w')).
Proof.
  intros Hp Hconn Hcont Hblob Hopen grid.
  destruct (remote_fault env (calls w ++ [EvDownload container blob]))
    as [err|] eqn:Hremote.
  - exists (failed blob err), 0%nat, (emitted (EvDownload container blob) w).
    split; [|split; [lia|split; [reflexivity|]]].
    + unfold process_blob, from_connection_string. rewrite Hconn.
      unfold bind at 1. cbn [ret]. unfold try_except.
      unfold bind at 1.
      assert (Hdl : download_blob env container blob w
                    = (Raise err, emitted (EvDownload container blob) w)).
      { unfold download_blob, bind, emit, remote_check, get_world, raise.
        cbn. now rewrite Hremote. }
      rewrite Hdl. reflexivity.
    + right. split; [eauto|]. intros k Hk. lia.
  - erewrite process_blob_as_entries by eassumption.
    fold grid. unfold try_except, bind.
    destruct (write_entries_any dir grid (emitted (EvDownload container blob) w))
      as (n & Hn & Hcalls & Hok & Hpres).
    destruct (write_entries env dir grid (emitted (EvDownload container blob) w))
      as [[[]|e] w1] eqn:Hrun; cbn [fst snd ret] in *.
    + exists (processed blob), n, w1. split; [reflexivity|]. split; [exact Hn|].
      split; [rewrite Hcalls; cbn [emitted calls]; now rewrite <- app_assoc|].
      left. split; [reflexivity|]. split; [now apply Hok|].
      intros k Hk.
      destruct (lookup_lt_is_Some_2 grid k) as [nc Hnc]; [lia|].
      rewrite <- (grid_patches_lookup _ _ _ _ _ Hnc).
      apply (Hpres k nc Hnc). right. now split.
    + exists (failed blob e), n, w1. split; [reflexivity|]. split; [exact Hn|].
      split; [rewrite Hcalls; cbn [emitted calls]; now rewrite <- app_assoc|].
      right. split; [eauto|].
      intros k Hk.
      destruct (lookup_lt_is_Some_2 grid k) as [nc Hnc]; [lia|].
      rewrite <- (grid_patches_lookup _ _ _ _ _ Hnc).
      apply (Hpres k nc Hnc). now left.
Qed.

End WorkerEdges.

(** ** The patches of one object: pixels and files *)

(** A pixel lies in the box of cell [k] exactly when its column and its
    row are those of the cell. *)
Lemma in_grid_box (cols p k px py : Z) :
  0 < p -> 0 < cols -> 0 <= k ->
  in_box (grid_box cols p k) px py <-> px / p = k mod cols /\ py / p = k / cols.
Proof.
  intros Hp Hc Hk. unfold in_box, grid_box.
  pose proof (Z.mod_pos_bound k cols Hc) as Hm.
  assert (Hd : 0 <= k / cols) by (apply Z.div_pos; lia).
  split.
  - intros [Hx Hy]. split; symmetry.
    + apply (Z.div_unique px p _ (px - k mod cols * p)); lia.
    + apply (Z.div_unique py p _ (py - k / cols * p)); lia.
  - intros [Hx Hy]. rewrite <- Hx, <- Hy.
    pose proof (Z.div_mod px p ltac:(lia)) as Ex.
    pose proof (Z.mod_pos_bound px p Hp) as Bx.
    pose proof (Z.div_mod py p ltac:(lia)) as Ey.
    pose proof (Z.mod_pos_bound py p Hp) as By.
    lia.
Qed.

Lemma cropped_boxes_app l1 l2 :
  cropped_boxes (l1 ++ l2) = cropped_boxes l1 ++ cropped_boxes l2.
Proof. unfold cropped_boxes. apply omap_app. Qed.

Lemma cropped_boxes_grid dir blob img p :
  cropped_boxes (saves dir (grid_patches blob img p))
  = map (fun k : nat => grid_box (Z.of_N (width img) / p) p (Z.of_nat k))
        (seq 0 (Z.to_nat ((Z.of_N (width img) / p) * (Z.of_N (height img) / p)))).
Proof.
  unfold grid_patches, saves. rewrite map_map.
  induction (seq 0 _) as [|k l IH]; [reflexivity|].
  cbn. f_equal. exact IH.
Qed.

Lemma size_fold_insert (l : list (string * content)) (es : gmap string content) :
  NoDup (map fst l) ->
  (forall n, In n (map fst l) -> es !! n = None) ->
  size (fold_left (fun es nc => <[fst nc := snd nc]> es) l es)
  = (size es + length l)%nat.
Proof.
  revert es. induction l as [|[n c] l IH]; intros es Hnd Hfresh.
  - cbn. lia.
  - cbn [map fst] in Hnd. apply NoDup_cons in Hnd as [Hn Hnd].
    cbn [fold_left fst snd length]. rewrite IH.
    + rewrite map_size_insert_None by (apply Hfresh; now left). lia.
    + exact Hnd.
    + intros n' Hn'. rewrite lookup_insert_ne.
      * apply Hfresh. now right.
      * intros <-. apply Hn. now apply list_elem_of_In.
Qed.

Lemma grid_names_NoDup blob img p :
  NoDup (map fst (grid_patches blob img p)).
Proof.
  unfold grid_patches. rewrite map_map. cbn [grid_patch fst].
  apply NoDup_fmap_2; [|apply NoDup_seq].
  intros i j Hij. apply patch_filename_inj in Hij. lia.
Qed.

Section Patches.
Context {F : Type} {FS : Scalar F} {OptState : Type}.
Variable env : Env F OptState.
Local Abbreviation World := (World F OptState).

Lemma write_entries_ok dir l (w : World) entries :
  fs w !! dir = Some (Dir entries) ->
  (forall t, disk_fault env (calls w ++ t) = None) ->
  write_entries env dir l w = (Ok tt, wrote_all dir l w).
Proof.
  revert w entries. induction l as [|nc l IH]; intros w entries Hdir Hok.
  - reflexivity.
  - rewrite write_entries_cons_run.
    erewrite write_file_ok by eauto.
    cbn [wrote_all fold_left]. eapply IH.
    + eapply wrote_dir, Hdir.
    + intros t. cbn [wrote calls]. rewrite <- app_assoc. apply Hok.
Qed.

(** A worker for which nothing fails. *)
Lemma process_blob_run blob cs container dir p (w : World) blobs bytes img entries :
  0 < p ->
  conn_ok env cs = true ->
  remote_fault env (calls w ++ [EvDownload container blob]) = None ->
  azure w !! container = Some blobs ->
  blobs !! blob = Some bytes ->
  Image_open env bytes = Ok img ->
  fs w !! dir = Some (Dir entries) ->
  (forall t, disk_fault env (calls w ++ t) = None) ->
  process_blob env (blob, cs, container, dir, p) w
  = (Ok (processed blob),
     wrote_all dir (grid_patches blob img p)
       (emitted (EvDownload container blob) w)).
Proof.
  intros Hp Hconn Hremote Hcont Hblob Hopen Hdir Hdisk.
  erewrite process_blob_as_entries by eassumption.
  unfold try_except, bind.
  erewrite write_entries_ok; [reflexivity|exact Hdir|].
  intros t. cbn [emitted calls]. rewrite <- app_assoc. apply Hdisk.
Qed.

(** X4: the patches of an object do not overlap and leave no gap inside
    the grid: a pixel left of [cols * patch_size] and above
    [rows * patch_size] lies in exactly one of the boxes that the worker
    crops, every other pixel of the image (the strips at the right and at
    the lower edge) in none. *)
Theorem patches_cover_each_grid_pixel_once
  (blob cs container dir : string) (patch_size : Z) (w : World)
  (blobs : gmap string (list byte)) (bytes : list byte) (img : Image)
  (entries : gmap string content) :
  0 < patch_size ->
  conn_ok env cs = true ->
  remote_fault env (calls w ++ [EvDownload container blob]) = None ->
  azure w !! container = Some blobs ->
  blobs !! blob = Some bytes ->
  Image_open env bytes = Ok img ->
  fs w !! dir = Some (Dir entries) ->
  (forall t, disk_fault env (calls w ++ t) = None) ->
  let cols := Z.of_N (width img) / patch_size in
  let rows := Z.of_N (height img) / patch_size in
  exists w' boxes,
    process_blob env (blob, cs, container, dir, patch_size) w
    = (Ok ("Processed " +:+ blob), w') /\
    cropped_boxes (calls w') = cropped_boxes (calls w) ++ boxes /\
    forall px py : Z,
      0 <= px < Z.of_N (width img) -> 0 <= py < Z.of_N (height img) ->
      (px < cols * patch_size /\ py < rows * patch_size ->
       exists (k : nat) b,
         boxes !! k = Some b /\ in_box b px py /\
         forall (k' : nat) b',
           boxes !! k' = Some b' -> in_box b' px py -> k' = k) /\
      (~ (px < cols * patch_size /\ py < rows * patch_size) ->
       forall b, In b boxes -> ~ in_box b px py).
Proof.
  intros Hp Hconn Hremote Hcont Hblob Hopen Hdir Hdisk cols rows.
  assert (Hcols : 0 <= cols) by (apply Z.div_pos; lia).
  assert (Hrows : 0 <= rows) by (apply Z.div_pos; lia).
  eexists. exists (map (fun k : nat => grid_box cols patch_size (Z.of_nat k))
                       (seq 0 (Z.to_nat (cols * rows)))).
  split; [|split].
  - eapply process_blob_run; eassumption.
  - rewrite calls_wrote_all. cbn [emitted calls].
    rewrite !cropped_boxes_app. cbn [cropped_boxes omap].
    rewrite app_nil_r.
    fold (saves dir (grid_patches blob img patch_size)).
    now rewrite cropped_boxes_grid.
  - intros px py Hpx Hpy.
    assert (Hlook : forall (k : nat) b,
               map (fun k : nat => grid_box cols patch_size (Z.of_nat k))
                   (seq 0 (Z.to_nat (cols * rows))) !! k = Some b ->
               Z.of_nat k < cols * rows /\
               b = grid_box cols patch_size (Z.of_nat k)).
    { intros k b Hk. rewrite list_lookup_fmap in Hk.
      destruct (seq 0 _ !! k) as [i|] eqn:Hi; [|discriminate].
      apply lookup_seq in Hi as [-> Hlt]. injection Hk as <-.
      split; [lia|reflexivity]. }
    split.
    + intros [Hx Hy].
      assert (Hcpos : 0 < cols) by nia.
      assert (Hqx : 0 <= px / patch_size < cols).
      { split; [apply Z.div_pos; lia|apply Z.div_lt_upper_bound; lia]. }
      assert (Hqy : 0 <= py / patch_size < rows).
      { split; [apply Z.div_pos; lia|apply Z.div_lt_upper_bound; lia]. }
      set (k := py / patch_size * cols + px / patch_size).
      assert (Hk : 0 <= k < cols * rows) by (subst k; nia).
      assert (Hkm : k mod cols = px / patch_size).
      { subst k. rewrite Z.add_comm, Z.mod_add by lia. apply Z.mod_small; lia. }
      assert (Hkd : k / cols = py / patch_size).
      { subst k. rewrite Z.add_comm, Z.div_add by lia.
        rewrite Z.div_small by lia. lia. }
      exists (Z.to_nat k), (grid_box cols patch_size k).
      split; [|split].
      * rewrite list_lookup_fmap. rewrite lookup_seq_lt by lia.
        cbn. now rewrite Z2Nat.id by lia.
      * apply in_grid_box; lia.
      * intros k' b' Hk' Hin.
        apply Hlook in Hk' as [Hlt ->].
        apply in_grid_box in Hin as [Hm Hd]; try lia.
        pose proof (Z.div_mod (Z.of_nat k') cols ltac:(lia)) as E.
        rewrite <- Hm, <- Hd in E.
        assert (Z.of_nat k' = k) by (subst k; lia). lia.
    + intros Hout b Hb Hin.
      apply list_elem_of_In, list_elem_of_lookup in Hb as [k Hk].
      apply Hlook in Hk as [Hlt ->].
      assert (Hcpos : 0 < cols) by nia.
      apply in_grid_box in Hin as [Hm Hd]; try lia.
      apply Hout.
      pose proof (Z.mod_pos_bound (Z.of_nat k) cols Hcpos) as Bm.
      assert (Bd : Z.of_nat k / cols < rows)
        by (apply Z.div_lt_upper_bound; lia).
      pose proof (Z.div_mod px patch_size ltac:(lia)) as Ex.
      pose proof (Z.mod_pos_bound px patch_size Hp) as Bx.
      pose proof (Z.div_mod py patch_size ltac:(lia)) as Ey.
      pose proof (Z.mod_pos_bound py patch_size Hp) as By.
      split; nia.
Qed.

(** X5: the worker followed by the construction of the dataset: when no
    patch name of the object is taken in the directory, the dataset built
    from it afterwards has [cols * rows] items more than the directory had
    entries; every entry counts, whatever it is. *)
Theorem dataset_counts_the_patches_of_an_object
  (blob cs container dir : string) (patch_size : Z) (w : World)
  (blobs : gmap string (list byte)) (bytes : list byte) (img : Image)
  (entries : gmap string content) :
  0 < patch_size ->
  conn_ok env cs = true ->
  remote_fault env (calls w ++ [EvDownload container blob]) = None ->
  azure w !! container = Some blobs ->
  blobs !! blob = Some bytes ->
  Image_open env bytes = Ok img ->
  fs w !! dir = Some (Dir entries) ->
  (forall t, disk_fault env (calls w ++ t) = None) ->
  (forall k : nat, entries !! patch_filename blob (Z.of_nat k) = None) ->
  exists w' dataset,
    process_blob env (blob, cs, container, dir, patch_size) w
    = (Ok ("Processed " +:+ blob), w') /\
    PatchedImageDataset dir w' = (Ok dataset, w') /\
    dataset_len dataset
    = Z.of_nat (size entries)
      + (Z.of_N (width img) / patch_size) * (Z.of_N (height img) / patch_size).
Proof.
  intros Hp Hconn Hremote Hcont Hblob Hopen Hdir Hdisk Hfresh.
  assert (Hcols : 0 <= Z.of_N (width img) / patch_size) by (apply Z.div_pos; lia).
  assert (Hrows : 0 <= Z.of_N (height img) / patch_size) by (apply Z.div_pos; lia).
  do 2 eexists. split; [eapply process_blob_run; eassumption|].
  set (w' := wrote_all dir _ _).
  assert (Hdir' : fs w' !! dir
                  = Some (Dir (fold_left (fun es nc => <[fst nc := snd nc]> es)
                                 (grid_patches blob img patch_size) entries))).
  { subst w'. erewrite fs_wrote_all by exact Hdir. apply lookup_insert_eq. }
  unfold PatchedImageDataset, listdir, bind, get_world, ret.
  cbn. rewrite Hdir'. split; [reflexivity|].
  unfold dataset_len. cbn [image_paths].
  rewrite !length_map, length_map_to_list, size_fold_insert.
  - unfold grid_patches. rewrite length_map, length_seq. lia.
  - apply grid_names_NoDup.
  - intros n Hn. apply in_map_iff in Hn as [nc [<- Hnc]].
    apply list_elem_of_In, list_elem_of_lookup in Hnc as [k Hk].
    rewrite (grid_patches_lookup _ _ _ _ _ Hk). apply Hfresh.
Qed.

End Patches.

(** ** The names of the patch files *)

Lemma rfind_from_app c (s t : string) i last :
  rfind_from c (s +:+ t) i last
  = rfind_from c t (i + Z.of_nat (String.length s)) (rfind_from c s i last).
Proof.
  revert i last. induction s as [|d s IH]; intros i last.
  - cbn. now rewrite Z.add_0_r.
  - change (String d s +:+ t) with (String d (s +:+ t)).
    cbn [rfind_from String.length]. rewrite IH. f_equal. lia.
Qed.

Lemma rfind_from_absent c (t : string) i last :
  no_char c t = true -> rfind_from c t i last = last.
Proof.
  revert i. induction t as [|d t IH]; intros i H; [reflexivity|].
  cbn in H. apply andb_true_iff in H as [Hd Ht].
  cbn [rfind_from]. apply negb_true_iff in Hd. rewrite Hd. now apply IH.
Qed.

Lemma rfind_from_bound c (s : string) i last :
  last < i -> last <= rfind_from c s i last < i + Z.of_nat (String.length s).
Proof.
  revert i last. induction s as [|d s IH]; intros i last H.
  - cbn. lia.
  - cbn [rfind_from String.length].
    destruct (Ascii.eqb d c).
    + pose proof (IH (i + 1) i ltac:(lia)). lia.
    + pose proof (IH (i + 1) last ltac:(lia)). lia.
Qed.

Lemma substring_app_l (s t : string) (a n : nat) :
  (a + n <= String.length s)%nat ->
  substring a n (s +:+ t) = substring a n s.
Proof.
  revert a n. induction s as [|d s IH]; intros a n H.
  - cbn in H. assert (a = 0%nat) by lia. assert (n = 0%nat) by lia. subst.
    cbn. now destruct t.
  - change (String d s +:+ t) with (String d (s +:+ t)).
    destruct a as [|a].
    + destruct n as [|n]; [reflexivity|].
      cbn [substring]. f_equal. apply IH. cbn in H. lia.
    + cbn [substring]. apply IH. cbn in H. lia.
Qed.

Lemma substring_app_r (s t : string) (n : nat) :
  substring (String.length s) n (s +:+ t) = substring 0 n t.
Proof. induction s as [|d s IH]; [reflexivity|]. cbn. exact IH. Qed.

Lemma replace_char_app old new (s t : string) :
  replace_char old new (s +:+ t)
  = replace_char old new s +:+ replace_char old new t.
Proof.
  induction s as [|d s IH]; [reflexivity|].
  change (String d s +:+ t) with (String d (s +:+ t)).
  cbn [replace_char]. rewrite IH. reflexivity.
Qed.

(** [os.path.splitext] on a name that ends in a dot and an extension
    without dot or slash, after a last component that is not made of dots
    only. *)
Lemma splitext_extension (stem ext : string) :
  has_non_dot (basename stem) = true ->
  no_char "."%char ext = true ->
  no_char "/"%char ext = true ->
  splitext (stem +:+ "." +:+ ext) = (stem, "." +:+ ext).
Proof.
  intros Hbase Hdot Hsep. unfold splitext, basename in *.
  assert (Edot : rfind "."%char (stem +:+ "." +:+ ext)
                 = Z.of_nat (String.length stem)).
  { unfold rfind. rewrite rfind_from_app.
    change ("." +:+ ext)%string with (String "."%char ext).
    cbn [rfind_from]. rewrite Ascii.eqb_refl.
    now rewrite rfind_from_absent. }
  assert (Esep : rfind "/"%char (stem +:+ "." +:+ ext) = rfind "/"%char stem).
  { unfold rfind. rewrite rfind_from_app.
    change ("." +:+ ext)%string with (String "."%char ext).
    cbn [rfind_from]. change (Ascii.eqb "."%char "/"%char) with false.
    now rewrite rfind_from_absent. }
  pose proof (rfind_from_bound "/"%char stem 0 (-1) ltac:(lia)) as Hb.
  fold (rfind "/"%char stem) in Hb.
  rewrite Edot, Esep.
  destruct (Z.ltb_spec (rfind "/"%char stem) (Z.of_nat (String.length stem)))
    as [_|]; [|lia].
  assert (El : Z.to_nat (Z.of_nat (String.length stem)
                           - (rfind "/"%char stem + 1))
               = (String.length stem - Z.to_nat (rfind "/"%char stem + 1))%nat).
  { clear -Hb. set (r := rfind "/"%char stem) in *.
    set (L := String.length stem) in *. lia. }
  rewrite El.
  rewrite substring_app_l.
  2:{ clear -Hb. set (r := rfind "/"%char stem) in *.
      set (L := String.length stem) in *. lia. }
  rewrite Hbase. cbn [andb].
  rewrite Nat2Z.id. f_equal.
  - rewrite substring_app_l by lia. apply substring_all.
  - rewrite substring_app_r.
    replace (String.length (stem +:+ "." +:+ ext) - String.length stem)%nat
      with (String.length ("." +:+ ext)%string)
      by (rewrite !length_append; clear;
          generalize (String.length stem), (String.length ext);
          cbn [String.length]; lia).
    apply substring_all.
Qed.

(** X6: the name of a patch file keeps neither the extension of the
    object nor the difference between a slash and an underscore: two
    objects whose names agree up to these (["x.jpg"] and ["x.png"],
    ["a/b.jpg"] and ["a_b.jpg"]) are given the same patch file names, so
    that the patches of the one processed later replace those of the
    other in the cache directory. *)
Theorem patch_names_ignore_extension_and_slash
  (stem1 stem2 ext1 ext2 : string) (patch_num : Z) :
  has_non_dot (basename stem1) = true ->
  has_non_dot (basename stem2) = true ->
  no_char "."%char ext1 = true -> no_char "/"%char ext1 = true ->
  no_char "."%char ext2 = true -> no_char "/"%char ext2 = true ->
  replace_char "/"%char "_"%char stem1 = replace_char "/"%char "_"%char stem2 ->
  patch_filename (stem1 +:+ "." +:+ ext1) patch_num
  = patch_filename (stem2 +:+ "." +:+ ext2) patch_num.
Proof.
  intros H1 H2 Hd1 Hs1 Hd2 Hs2 Hstem. unfold patch_filename.
  rewrite !splitext_extension by assumption. cbn [fst].
  now rewrite Hstem.
Qed.

(** ** The upload of a checkpoint *)

(** Closes a run of the upload that ends in the warning about [e]. *)
Ltac warned e :=
  exists e; eexists; repeat split; rewrite <- ?app_assoc; reflexivity.

Section Upload.
Context {F : Type} {FS : Scalar F} {OptState : Type}.
Variable env : Env F OptState.
Local Abbreviation World := (World F OptState).

#[export] Instance only_blob_changes_preorder c name :
  PreOrder (only_blob_changes (F:=F) (OptState:=OptState) c name).
Proof.
  split.
  - intros w. split; [reflexivity|auto].
  - intros w1 w2 w3 [H12 E12] [H23 E23]. split.
    + intros c' n' Hne. now rewrite H23, H12.
    + auto.
Qed.

Lemma only_blob_changes_same c name (w w' : World) :
  azure w' = azure w -> only_blob_changes c name w w'.
Proof.
  intros H. unfold only_blob_changes, blob_at. rewrite H. split; auto.
Qed.

Lemma create_container_only c c0 name :
  preserves (only_blob_changes c0 name) (create_container env c).
Proof.
  intros w.
  unfold create_container, bind, emit, remote_check, get_world, ret, raise,
    set_azure. cbn.
  destruct (remote_fault env _); cbn;
    [apply only_blob_changes_same; reflexivity|].
  destruct (azure w !! c) as [blobs|] eqn:Hc; cbn;
    [apply only_blob_changes_same; reflexivity|].
  split; cbn.
  - intros c' n' _. unfold blob_at. cbn.
    destruct (decide (c = c')) as [<-|Hne].
    + rewrite lookup_insert_eq, Hc. apply lookup_empty.
    + now rewrite lookup_insert_ne.
  - intros c' Hsome.
    destruct (decide (c = c')) as [<-|Hne].
    + rewrite lookup_insert_eq. eauto.
    + now rewrite lookup_insert_ne.
Qed.

Lemma upload_blob_only c name b :
  preserves (only_blob_changes c name) (upload_blob env c name b).
Proof.
  intros w.
  unfold upload_blob, bind, emit, remote_check, get_world, ret, raise,
    set_azure. cbn.
  destruct (remote_fault env _); cbn;
    [apply only_blob_changes_same; reflexivity|].
  destruct (azure w !! c) as [blobs|] eqn:Hc; cbn;
    [|apply only_blob_changes_same; reflexivity].
  split; cbn.
  - intros c' n' Hne. unfold blob_at. cbn.
    destruct (decide (c = c')) as [<-|Hc'].
    + rewrite lookup_insert_eq, Hc.
      destruct Hne as [Hne|Hne]; [contradiction|].
      now rewrite lookup_insert_ne.
    + now rewrite lookup_insert_ne.
  - intros c' Hsome.
    destruct (decide (c = c')) as [<-|Hne].
    + rewrite lookup_insert_eq. eauto.
    + now rewrite lookup_insert_ne.
Qed.

Lemma upload_only cs c p name :
  preserves (only_blob_changes c name)
            (upload_checkpoint_to_azure env cs c p name).
Proof.
  destruct p as [dir file].
  unfold upload_checkpoint_to_azure, from_connection_string, read_file.
  repeat first
    [ apply create_container_only
    | apply upload_blob_only
    | solve [intros ?w; apply only_blob_changes_same; reflexivity]
    | frame_step ].
Qed.

Lemma upload_two_calls cs c p name :
  preserves (calls_add (create_or_upload c name))
            (upload_checkpoint_to_azure env cs c p name).
Proof.
  destruct p as [dir file].
  unfold upload_checkpoint_to_azure, from_connection_string,
    create_container, read_file, upload_blob, remote_check.
  frame; try frame_leaf; apply emit_adds; unfold create_or_upload; auto.
Qed.

(** X7: the upload never raises, whatever fails inside it: it returns
    normally.  It leaves the local disk and the networks as they were,
    makes no remote call other than the creation of the container and the
    upload of the blob, changes no blob other than the one it was given,
    and removes no container. *)
Theorem upload_never_raises_and_touches_one_blob
  (cs c : string) (p : path) (name : string) (w : World) :
  exists w',
    upload_checkpoint_to_azure env cs c p name w = (Ok tt, w') /\
    fs w' = fs w /\ heap w' = heap w /\
    calls_add (create_or_upload c name) w w' /\
    only_blob_changes c name w w'.
Proof.
  destruct (upload_returns env cs c p name w) as [w' Hrun].
  exists w'. split; [exact Hrun|].
  pose proof (upload_fs env cs c p name w) as Hfs.
  pose proof (upload_heap env cs c p name w) as Hheap.
  pose proof (upload_two_calls cs c p name w) as Hcalls.
  pose proof (upload_only cs c p name w) as Honly.
  rewrite Hrun in Hfs, Hheap, Hcalls, Honly. cbn [snd] in *.
  split; [exact Hfs|]. split; [exact Hheap|]. split; [exact Hcalls|exact Honly].
Qed.

(** X8: the handler of the inner [try] takes every failure of
    [create_container] for "the container exists": when the container is
    missing and its creation fails, the function still reports that the
    container already exists and goes on to the upload, which cannot
    succeed; the account is left as it was and a warning is printed. *)
Theorem upload_takes_failed_creation_for_existing
  (cs c : string) (p : path) (name : string) (w : World) (e : Exception) :
  conn_ok env cs = true ->
  azure w !! c = None ->
  remote_fault env (calls w ++ [EvCreateContainer c]) = Some e ->
  exists e' w',
    upload_checkpoint_to_azure env cs c p name w = (Ok tt, w') /\
    stdout w'
    = stdout w
      ++ ["Container '" +:+ c +:+ "' already exists.";
          "Uploading checkpoint to Azure as blob: " +:+ name +:+ "...";
          "WARNING: Failed to upload checkpoint to Azure. Error: "
          +:+ str_exc e'] /\
    azure w' = azure w.
Proof.
  intros Hconn Hc Hfault. destruct p as [dir file].
  unfold upload_checkpoint_to_azure, try_except, from_connection_string.
  rewrite Hconn. erewrite bind_ok by reflexivity.
  cbv [bind create_container emit remote_check get_world ret raise
         print read_file upload_blob set_azure].
  cbn. rewrite Hfault. cbn.
  destruct (fs w !! dir) as [[?|entries]|]; cbn.
  - warned (OSError "Not a directory").
  - destruct (entries !! file) as [[q|b]|]; cbn.
    + match goal with |- context [remote_fault env ?l] =>
        destruct (remote_fault env l) as [e0|] end; cbn; [warned e0|].
      rewrite Hc. cbn. warned (AzureError "ContainerNotFound").
    + match goal with |- context [remote_fault env ?l] =>
        destruct (remote_fault env l) as [e0|] end; cbn; [warned e0|].
      rewrite Hc. cbn. warned (AzureError "ContainerNotFound").
    + warned (OSError "No such file or directory").
  - warned (OSError "No such file or directory").
Qed.

(** X9: when the local file is missing, the function has already made
    sure that the container exists: a container that was missing has been
    created and stays, empty; nothing is uploaded and a warning is
    printed. *)
Theorem upload_of_missing_file_creates_container
  (cs c dir file name : string) (w : World) :
  conn_ok env cs = true ->
  remote_fault env (calls w ++ [EvCreateContainer c]) = None ->
  (forall entries, fs w !! dir = Some (Dir entries) -> entries !! file = None) ->
  exists e w',
    upload_checkpoint_to_azure env cs c (dir, file) name w = (Ok tt, w') /\
    calls w' = calls w ++ [EvCreateContainer c] /\
    azure w' = match azure w !! c with
               | Some _ => azure w
               | None => <[c := ∅]> (azure w)
               end /\
    stdout w'
    = stdout w
      ++ ["Container '" +:+ c +:+ "' "
          +:+ (match azure w !! c with
               | Some _ => "already exists."
               | None => "created."
               end);
          "Uploading checkpoint to Azure as blob: " +:+ name +:+ "...";
          "WARNING: Failed to upload checkpoint to Azure. Error: "
          +:+ str_exc e].
Proof.
  intros Hconn Hfault Hmissing.
  unfold upload_checkpoint_to_azure, try_except, from_connection_string.
  rewrite Hconn. erewrite bind_ok by reflexivity.
  cbv [bind create_container emit remote_check get_world ret raise
         print read_file upload_blob set_azure].
  cbn. rewrite Hfault. cbn.
  destruct (azure w !! c) as [blobs|] eqn:Hc; cbn.
  - destruct (fs w !! dir) as [[?|entries]|] eqn:Hdir; cbn.
    + warned (OSError "Not a directory").
    + rewrite (Hmissing entries eq_refl). cbn.
      warned (OSError "No such file or directory").
    + warned (OSError "No such file or directory").
  - destruct (fs w !! dir) as [[?|entries]|] eqn:Hdir; cbn.
    + warned (OSError "Not a directory").
    + rewrite (Hmissing entries eq_refl). cbn.
      warned (OSError "No such file or directory").
    + warned (OSError "No such file or directory").
Qed.

End Upload.

(** ** The orchestrator and the dataset *)

Lemma filter_none {A} (f : A -> bool) (l : list A) :
  (forall x, In x l -> f x = false) -> List.filter f l = [].
Proof.
  induction l as [|x l IH]; intros H; [reflexivity|].
  cbn. rewrite (H x) by now left. apply IH. intros y Hy. apply H. now right.
Qed.

Section Orchestrator.
Context {F : Type} {FS : Scalar F} {OptState : Type}.
Variable env : Env F OptState.
Local Abbreviation World := (World F OptState).

#[export] Instance same_outside_preorder dir :
  PreOrder (same_outside (F:=F) (OptState:=OptState) dir).
Proof.
  split.
  - intros w d _. reflexivity.
  - intros w1 w2 w3 H12 H23 d Hd. now rewrite H23, H12.
Qed.

Lemma stdout_with_dir dir (w : World) : stdout (with_dir dir w) = stdout w.
Proof. unfold with_dir. now destruct (fs w !! dir). Qed.

Lemma heap_with_dir dir (w : World) : heap (with_dir dir w) = heap w.
Proof. unfold with_dir. now destruct (fs w !! dir). Qed.

Lemma fs_with_dir_miss dir (w : World) :
  cache_misses env dir w -> fs (with_dir dir w) = <[dir := Dir ∅]> (fs w).
Proof.
  unfold with_dir. intros [H|[H _]]; rewrite H; cbn [fs].
  - symmetry. now apply insert_id.
  - reflexivity.
Qed.

Lemma cache_misses_printed dir line (w : World) :
  cache_misses env dir w -> cache_misses env dir (printed line w).
Proof. intros H. exact H. Qed.

(** The orchestrator on a cache miss: the listing and the pool, inside
    the [try]. *)
Lemma preprocess_miss cs cont dir p (w : World) :
  cache_misses env dir w ->
  preprocess_and_save_locally env cs cont dir p w
  = try_except
      (bind (from_connection_string env cs)
         (fun _ =>
            bind (list_blobs env cont)
              (fun names =>
                 match List.filter
                         (fun name => endswith_any (lower name) image_suffixes)
                         names with
                 | [] => print ("Warning: No images found in source container '"
                                +:+ cont +:+ "'.")
                 | b :: bs =>
                     bind (pool_imap_unordered (process_blob env)
                             (tasks_of cs cont dir p (b :: bs)))
                       (fun _ =>
                          print ("Parallel preprocessing complete. All patches saved to '"
                                 +:+ dir +:+ "'."))
                 end)))
      (fun e =>
         bind (print ("FATAL: An error occurred during preprocessing orchestration: "
                      +:+ str_exc e))
           (fun _ => raise e))
      (with_dir dir
         (printed ("Starting parallel preprocessing: downloading from '"
                   +:+ cont +:+ "'...") w)).
Proof.
  intros Hmiss. unfold preprocess_and_save_locally.
  rewrite (cache_miss env) by exact Hmiss.
  unfold bind at 1. cbn [print].
  unfold bind at 1. rewrite makedirs_ok by exact Hmiss.
  unfold try_except.
  match goal with |- match ?a with _ => _ end = match ?b with _ => _ end =>
    assert (E : a = b); [|rewrite E; reflexivity] end.
  apply bind_ext. intros _ w1. apply bind_ext. intros names w2.
  destruct (List.filter _ names); reflexivity.
Qed.

(** X10: on a cache miss, when no name of the container passes the
    filter (an empty container included), the orchestrator prints a warning
    and returns normally: the listing is its only call, nothing is
    downloaded, and the cache directory exists afterwards, empty. *)
Theorem preprocess_without_images_warns_and_returns
  (cs cont dir : string) (p : Z) (w : World) (blobs : gmap string (list byte)) :
  conn_ok env cs = true ->
  cache_misses env dir w ->
  remote_fault env (calls w ++ [EvListBlobs cont]) = None ->
  azure w !! cont = Some blobs ->
  (forall name, is_Some (blobs !! name) ->
                endswith_any (lower name) image_suffixes = false) ->
  exists w',
    preprocess_and_save_locally env cs cont dir p w = (Ok tt, w') /\
    calls w' = calls w ++ [EvListBlobs cont] /\
    fs w' = <[dir := Dir ∅]> (fs w) /\
    azure w' = azure w /\
    stdout w'
    = stdout w
      ++ ["Starting parallel preprocessing: downloading from '" +:+ cont +:+ "'...";
          "Warning: No images found in source container '" +:+ cont +:+ "'."].
Proof.
  intros Hconn Hmiss Hremote Hcont Hnone.
  rewrite preprocess_miss by exact Hmiss.
  unfold try_except, from_connection_string. rewrite Hconn.
  unfold bind at 1. cbn [ret].
  unfold bind at 1.
  rewrite (list_blobs_ok env cont _ blobs)
    by (rewrite ?calls_with_dir, ?azure_with_dir; assumption).
  rewrite filter_none.
  2:{ intros name Hin. apply Hnone.
      apply in_map_iff in Hin as [[n b] [<- Hin]].
      apply list_elem_of_In, elem_of_map_to_list in Hin. cbn. eauto. }
  cbn [print]. eexists. split; [reflexivity|].
  cbn [calls fs azure stdout emitted].
  rewrite calls_with_dir, azure_with_dir, stdout_with_dir.
  rewrite (fs_with_dir_miss dir (printed _ w)) by exact Hmiss.
  cbn [printed calls azure fs stdout]. rewrite <- app_assoc.
  repeat split.
Qed.

Lemma list_blobs_raises cs cont (w : World) e :
  listing_fails env cs cont w e ->
  exists w1,
    bind (from_connection_string env cs) (fun _ => list_blobs env cont) w
    = (Raise e, w1) /\
    fs w1 = fs w /\ azure w1 = azure w /\ stdout w1 = stdout w /\
    heap w1 = heap w /\
    exists t, calls w1 = calls w ++ t /\
              Forall (fun ev => ev = EvListBlobs cont) t.
Proof.
  unfold from_connection_string, list_blobs, bind, emit, remote_check,
    get_world, ret, raise.
  intros [[Hconn ->]|[[Hconn Hf]|(Hconn & Hf & Hc & ->)]]; rewrite Hconn; cbn.
  - eexists. repeat split. exists []. now rewrite app_nil_r.
  - rewrite Hf. cbn. eexists. repeat split.
    exists [EvListBlobs cont]. split; [reflexivity|]. now constructor.
  - rewrite Hf. cbn. rewrite Hc. eexists. repeat split.
    exists [EvListBlobs cont]. split; [reflexivity|]. now constructor.
Qed.

Lemma listing_fails_with_dir cs cont dir line (w : World) e :
  listing_fails env cs cont w e ->
  listing_fails env cs cont (with_dir dir (printed line w)) e.
Proof.
  unfold listing_fails.
  rewrite calls_with_dir, azure_with_dir. cbn [printed calls azure]. tauto.
Qed.

Lemma preprocess_raises cs cont dir p (w : World) e :
  cache_misses env dir w ->
  listing_fails env cs cont w e ->
  exists w',
    preprocess_and_save_locally env cs cont dir p w = (Raise e, w') /\
    fs w' = <[dir := Dir ∅]> (fs w) /\
    azure w' = azure w /\
    heap w' = heap w /\
    calls_add (fun ev => ev = EvListBlobs cont) w w' /\
    stdout w'
    = stdout w
      ++ ["Starting parallel preprocessing: downloading from '" +:+ cont +:+ "'...";
          "FATAL: An error occurred during preprocessing orchestration: "
          +:+ str_exc e].
Proof.
  intros Hmiss Hfail.
  pose proof (listing_fails_with_dir cs cont dir
                ("Starting parallel preprocessing: downloading from '"
                 +:+ cont +:+ "'...") w e Hfail) as Hfail'.
  destruct (list_blobs_raises cs cont _ e Hfail')
    as (w1 & Hrun & Hfs & Haz & Hout & Hheap & t & Hcalls & Ht).
  eexists. split.
  - rewrite preprocess_miss by exact Hmiss.
    unfold try_except. rewrite <- bind_assoc.
    unfold bind at 1. rewrite Hrun. reflexivity.
  - cbn [printed fs azure calls stdout heap].
    rewrite Hfs, Haz, Hout, Hheap.
    rewrite (fs_with_dir_miss dir (printed _ w)) by exact Hmiss.
    rewrite azure_with_dir, stdout_with_dir, heap_with_dir.
    cbn [printed fs azure stdout heap]. rewrite <- app_assoc.
    split; [reflexivity|]. split; [reflexivity|]. split; [reflexivity|].
    split; [|reflexivity].
    exists t. cbn [printed calls]. now rewrite Hcalls, calls_with_dir.
Qed.

(** X11: on a cache miss, a listing that fails (a connection string that
    does not parse, a call that fails or a missing container) is reported
    with the line that starts with FATAL and raised again, after the cache
    directory has been created; the listing is the only call that may
    have been made.  [main] does not catch the exception: it raises it
    before a dataset or a network is built. *)
Theorem preprocess_reraises_a_failed_listing
  (cs cont dir : string) (p : Z) (w : World) (e : Exception) :
  cache_misses env dir w ->
  listing_fails env cs cont w e ->
  (exists w',
     preprocess_and_save_locally env cs cont dir p w = (Raise e, w') /\
     fs w' = <[dir := Dir ∅]> (fs w) /\
     azure w' = azure w /\
     calls_add (fun ev => ev = EvListBlobs cont) w w' /\
     stdout w'
     = stdout w
       ++ ["Starting parallel preprocessing: downloading from '" +:+ cont +:+ "'...";
           "FATAL: An error occurred during preprocessing orchestration: "
           +:+ str_exc e]) /\
  forall cfg : Config F,
    connection_string cfg = cs -> SOURCE_DATA_CONTAINER cfg = cont ->
    LOCAL_PATCH_CACHE_DIR cfg = dir -> cs <> EmptyString ->
    exists w',
      main_with env cfg w = (Raise e, w') /\
      heap w' = heap w /\
      calls_add (fun ev => ev = EvListBlobs cont) w w'.
Proof.
  intros Hmiss Hfail. split.
  - destruct (preprocess_raises cs cont dir p w e Hmiss Hfail)
      as (w' & Hrun & Hfs & Haz & _ & Hcalls & Hout).
    exists w'. repeat split; assumption.
  - intros cfg Hcs Hcont Hdir Hne. subst cs cont dir.
    destruct (preprocess_raises (connection_string cfg)
                (SOURCE_DATA_CONTAINER cfg) (LOCAL_PATCH_CACHE_DIR cfg)
                (PATCH_SIZE cfg) (printed "Using device" w) e)
      as (w' & Hrun & _ & _ & Hheap & Hcalls & _);
      [exact Hmiss|exact Hfail|].
    exists w'. split; [|split; [exact Hheap|exact Hcalls]].
    unfold main_with.
    destruct (String.eqb_spec (connection_string cfg) EmptyString) as [E|_];
      [contradiction|].
    erewrite bind_ok by reflexivity.
    erewrite bind_ok by reflexivity.
    erewrite bind_raise by exact Hrun. reflexivity.
Qed.

End Orchestrator.

(** *** What the orchestrator leaves alone *)

Section OrchestratorFrame.
Context {F : Type} {FS : Scalar F} {OptState : Type}.
Variable env : Env F OptState.
Local Abbreviation World := (World F OptState).










End OrchestratorFrame.

(** *** What the orchestrator prints *)


Section OrchestratorOutput.
Context {F : Type} {FS : Scalar F} {OptState : Type}.
Variable env : Env F OptState.
Local Abbreviation World := (World F OptState).



End OrchestratorOutput.

(** *** The dataset over the cache directory *)

Section DatasetOfCache.
Context {F : Type} {FS : Scalar F} {OptState : Type}.
Variable env : Env F OptState.
Local Abbreviation World := (World F OptState).

(** X14: the dataset takes every entry of its directory, whatever its
    name or content: it has as many items as the directory has entries,
    each path once, and a path belongs to it exactly when it joins the
    directory with one of its entries.  On a path that is no directory
    the constructor raises, and the world is never changed. *)
Theorem dataset_takes_every_entry_of_the_directory (root : string) (w : World) :
  match fs w !! root with
  | Some (Dir entries) =>
      exists dataset,
        PatchedImageDataset root w = (Ok dataset, w) /\
        dataset_len dataset = Z.of_nat (size entries) /\
        NoDup (image_paths dataset) /\
        forall p : path,
          In p (image_paths dataset)
          <-> fst p = root /\ is_Some (entries !! snd p)
  | _ =>
      exists msg, PatchedImageDataset (F:=F) (OptState:=OptState) root w
                  = (Raise (OSError msg), w)
  end.
Proof.
  unfold PatchedImageDataset, listdir, bind, get_world, ret, raise. cbn.
  destruct (fs w !! root) as [[c|entries]|]; cbn; [eauto| |eauto].
  eexists. split; [reflexivity|]. cbn [image_paths]. split; [|split].
  - unfold dataset_len. cbn [image_paths].
    now rewrite !length_map, length_map_to_list.
  - apply NoDup_fmap_2.
    + intros a b [= ->]. reflexivity.
    + apply NoDup_fst_map_to_list.
  - intros [d n]. cbn [fst snd]. rewrite in_map_iff. split.
    + intros (n' & [= <- <-] & Hin). split; [reflexivity|].
      apply in_map_iff in Hin as ([n'' c] & <- & Hin).
      apply list_elem_of_In, elem_of_map_to_list in Hin. cbn. eauto.
    + intros [-> [c Hc]]. exists n. split; [reflexivity|].
      apply in_map_iff. exists (n, c). split; [reflexivity|].
      now apply list_elem_of_In, elem_of_map_to_list.
Qed.

(** X15: when the preprocessing returns and leaves the cache directory
    empty (no image in the container, or no object that could be
    processed), [main] prints that no patches were found and returns: it
    builds no network, downloads no checkpoint and runs no training
    step. *)
Theorem main_stops_on_an_empty_cache (cfg : Config F) (w w1 : World) :
  connection_string cfg <> EmptyString ->
  preprocess_and_save_locally env (connection_string cfg)
    (SOURCE_DATA_CONTAINER cfg) (LOCAL_PATCH_CACHE_DIR cfg) (PATCH_SIZE cfg)
    (printed "Using device" w) = (Ok tt, w1) ->
  fs w1 !! LOCAL_PATCH_CACHE_DIR cfg = Some (Dir ∅) ->
  main_with env cfg w
  = (Ok ExitEmptyDataset,
     printed ("Error: No patches found in local cache '"
              +:+ LOCAL_PATCH_CACHE_DIR cfg +:+ "'. Aborting.") w1).
Proof.
  intros Hne Hpre Hempty. unfold main_with.
  destruct (String.eqb_spec (connection_string cfg) EmptyString) as [E|_];
    [contradiction|].
  erewrite bind_ok by reflexivity.
  erewrite bind_ok by reflexivity.
  erewrite bind_ok by exact Hpre.
  assert (Hds : PatchedImageDataset (LOCAL_PATCH_CACHE_DIR cfg) w1
                = (Ok {| root_dir := LOCAL_PATCH_CACHE_DIR cfg;
                         image_paths := [] |}, w1)).
  { unfold PatchedImageDataset, listdir, bind, get_world, ret. cbn.
    rewrite Hempty. cbn. now rewrite map_to_list_empty. }
  erewrite bind_ok by exact Hds.
  reflexivity.
Qed.

End DatasetOfCache.

(** ** The moving average and the training step *)

Section EmaStructure.
Context {F : Type} {FS : Scalar F} {OptState : Type}.
Variable env : Env F OptState.
Local Abbreviation World := (World F OptState).

Lemma ema_spec_names (ema_model model : Net F) decay :
  map fst (ema_spec ema_model model decay) = map fst ema_model.
Proof.
  revert model. induction ema_model as [|[n t] rest IH]; intros [|[n' o] model];
    cbn; try reflexivity.
  now rewrite IH.
Qed.

Lemma ema_spec_flags (ema_model model : Net F) decay :
  map (fun np => requires_grad (snd np)) (ema_spec ema_model model decay)
  = map (fun np => requires_grad (snd np)) ema_model.
Proof.
  revert model. induction ema_model as [|[n t] rest IH]; intros [|[n' o] model];
    cbn; try reflexivity.
  now rewrite IH.
Qed.

Lemma ema_spec_shapes (ema_model model : Net F) decay :
  shapes_agree ema_model model ->
  map (fun np => length (data (snd np))) (ema_spec ema_model model decay)
  = map (fun np => length (data (snd np))) ema_model.
Proof.
  revert model. induction ema_model as [|[n t] rest IH]; intros [|[n' o] model];
    cbn; try reflexivity.
  intros [Hlen Hrest]. rewrite IH by exact Hrest. f_equal.
  rewrite length_zip_with. lia.
Qed.

Lemma ema_spec_rest (ema_model model : Net F) decay :
  drop (length model) (ema_spec ema_model model decay)
  = drop (length model) ema_model.
Proof.
  revert model. induction ema_model as [|[n t] rest IH]; intros [|[n' o] model];
    cbn; try reflexivity.
  apply IH.
Qed.

(** X16: the update keeps the structure of the target network: the same
    parameters under the same names, in the same order, with the same
    shapes and the same [requires_grad] flags.  [zip] stops at the shorter
    of the two parameter lists: parameters of the target beyond those of
    the online network are left as they are, without an error. *)
Theorem ema_update_keeps_the_structure_of_the_target
  (ema_model model : Net F) (decay : F) (w : World) :
  shapes_agree ema_model model ->
  exists updated,
    update_moving_average ema_model model decay w = (Ok updated, w) /\
    map fst updated = map fst ema_model /\
    map (fun np => length (data (snd np))) updated
    = map (fun np => length (data (snd np))) ema_model /\
    map (fun np => requires_grad (snd np)) updated
    = map (fun np => requires_grad (snd np)) ema_model /\
    drop (length model) updated = drop (length model) ema_model.
Proof.
  intros Hs. exists (ema_spec ema_model model decay).
  split; [now apply update_moving_average_spec|].
  split; [apply ema_spec_names|].
  split; [now apply ema_spec_shapes|].
  split; [apply ema_spec_flags|apply ema_spec_rest].
Qed.


End EmaStructure.

Section EmaBounds.
Context {OptState : Type}.
Local Open Scope R_scope.


End EmaBounds.

(** ** The training loop, its checkpoints and its export *)

Lemma final_is_no_checkpoint_name (n : Z) :
  checkpoint_name n <> "resnet18_backbone_final.pth".
Proof. unfold checkpoint_name. cbv [String.append]. discriminate. Qed.

Section TrainingLoop.
Context {F : Type} {FS : Scalar F} {OptState : Type}.
Variable env : Env F OptState.
Local Abbreviation World := (World F OptState).

(** X19: a resume at or beyond the last epoch trains nothing: the loop
    has no epoch to run, whatever the data loader, even one without a
    batch; the backbone of the loaded online network is exported to the
    output directory and [main] finishes.  Nothing is uploaded. *)
Theorem resume_at_the_last_epoch_only_exports
  (cfg : Config F) (dataset : Dataset) (dataloader : DataLoader) (s : Z)
  (w : World) (entries : gmap string content) :
  NUM_EPOCHS cfg <= s ->
  fs w !! LOCAL_MODEL_OUTPUT_DIR cfg = Some (Dir entries) ->
  disk_fault env
    (calls w ++ [EvSave (LOCAL_MODEL_OUTPUT_DIR cfg) "resnet18_backbone_final.pth"
                   (final_backbone env (heap w))]) = None ->
  exists w',
    training_loop env cfg dataset dataloader (PInt s) w = (Ok ExitFinished, w') /\
    calls w'
    = calls w ++ [EvSave (LOCAL_MODEL_OUTPUT_DIR cfg) "resnet18_backbone_final.pth"
                    (final_backbone env (heap w))] /\
    fs w' = <[LOCAL_MODEL_OUTPUT_DIR cfg :=
                Dir (<["resnet18_backbone_final.pth" := final_backbone env (heap w)]>
                       entries)]> (fs w) /\
    heap w' = heap w /\ azure w' = azure w.
Proof.
  intros Hs Hout Hdisk. unfold training_loop.
  erewrite bind_ok by reflexivity. erewrite bind_ok by reflexivity.
  rewrite range2_nil by lia. cbn [for_].
  erewrite bind_ok by reflexivity.
  erewrite bind_ok by reflexivity. erewrite bind_ok by reflexivity.
  erewrite bind_ok.
  2:{ unfold path_join. eapply write_file_ok.
      - cbn [printed fs]. exact Hout.
      - cbn [printed calls heap]. exact Hdisk. }
  erewrite bind_ok by reflexivity.
  eexists. split; [reflexivity|].
  cbn [printed wrote calls fs heap azure]. rewrite Hout.
  repeat split.
Qed.

(** *** What the loop never does *)

#[export] Instance other_containers_same_preorder c :
  PreOrder (other_containers_same (F:=F) (OptState:=OptState) c).
Proof.
  split.
  - intros w c' n _. reflexivity.
  - intros w1 w2 w3 H12 H23 c' n Hc. now rewrite H23, H12.
Qed.

Lemma other_same_of_azure c (w w' : World) :
  azure w' = azure w -> other_containers_same c w w'.
Proof. intros H c' n _. unfold blob_at. now rewrite H. Qed.

Lemma calls_add_weaken (P Q : Event -> Prop) (w w' : World) :
  (forall ev, P ev -> Q ev) -> calls_add P w w' -> calls_add Q w w'.
Proof.
  intros H (t & Ht & HP). exists t. split; [exact Ht|].
  eapply Forall_impl; eassumption.
Qed.

Lemma preserves_weaken {A} (R R' : World -> World -> Prop) (m : M F OptState A) :
  (forall w w', R w w' -> R' w w') -> preserves R m -> preserves R' m.
Proof. intros H Hm w. apply H, Hm. Qed.

Lemma ema_zip_quiet (R : World -> World -> Prop) `{!PreOrder R}
  (ema_model model : Net F) decay :
  (forall op w, R w (snd (push_tape op w))) ->
  preserves R (ema_zip (OptState:=OptState) ema_model model decay).
Proof.
  intros Hpush. revert model. induction ema_model as [|[name t] rest IH];
    intros [|[name' o] model]; cbn [ema_zip];
    try (apply preserves_ret; exact _).
  unfold scalar_mul, tensor_add, record_op.
  repeat first [ exact (Hpush _) | apply IH | frame_step ].
Qed.

Lemma update_quiet (R : World -> World -> Prop) `{!PreOrder R}
  (ema_model model : Net F) decay :
  (forall op w, R w (snd (push_tape op w))) ->
  (forall b w, R w (set_grad_enabled b w)) ->
  preserves R (update_moving_average (OptState:=OptState) ema_model model decay).
Proof.
  intros Hpush Hgrad. unfold update_moving_average.
  apply preserves_no_grad; [exact _|exact Hgrad|].
  now apply ema_zip_quiet.
Qed.

Lemma upload_other cs c p name :
  preserves (other_containers_same c)
            (upload_checkpoint_to_azure env cs c p name).
Proof.
  eapply preserves_weaken; [|apply (upload_only env cs c p name)].
  intros w w' [H _] c' n Hc. apply H. now left.
Qed.

Lemma write_file_other c p x :
  preserves (other_containers_same c) (write_file env p x).
Proof.
  intros w. apply other_same_of_azure. apply (azure_write_file env p x w).
Qed.

Ltac other_leaf :=
  solve [ intros ?w; apply other_same_of_azure; reflexivity
        | intros ?w ?c ?n ?H; reflexivity ].

Lemma run_epoch_other (cfg : Config F) dataloader epoch :
  preserves (other_containers_same "resnet18")
            (run_epoch env cfg dataloader epoch).
Proof.
  unfold run_epoch, train_batch, mean_loss, save_checkpoint.
  repeat first
    [ apply upload_other | apply write_file_other
    | apply update_quiet; [exact _|other_leaf|other_leaf]
    | other_leaf | frame_step ].
Qed.

Lemma training_loop_other (cfg : Config F) dataset dataloader start :
  preserves (other_containers_same "resnet18")
            (training_loop env cfg dataset dataloader start).
Proof.
  unfold training_loop.
  repeat first
    [ apply run_epoch_other | apply write_file_other
    | other_leaf | frame_step ].
Qed.

Lemma run_epoch_training_calls (cfg : Config F) dataloader s epoch :
  s <= epoch < NUM_EPOCHS cfg ->
  preserves (calls_add (training_call cfg s)) (run_epoch env cfg dataloader epoch).
Proof.
  intros Hep. unfold run_epoch, train_batch, mean_loss, save_checkpoint.
  repeat first
    [ solve [intros ?w; apply calls_add_same; reflexivity]
    | apply update_calls
    | solve [apply emit_adds; exact Hep]
    | match goal with
      | |- preserves _ (write_file _ _ _) =>
          unfold write_file, path_join, disk_check
      | |- preserves _ (upload_checkpoint_to_azure _ _ _ _ _) =>
          eapply preserves_weaken; [|apply upload_two_calls];
          intros w w'; apply calls_add_weaken;
          intros ev [->| ->]; cbn; eauto
      end
    | solve [apply emit_adds; cbn; eauto]
    | frame_step ].
Qed.

Lemma training_loop_training_calls (cfg : Config F) dataset dataloader (s : Z) :
  preserves (calls_add (training_call cfg s))
            (training_loop env cfg dataset dataloader (PInt s)).
Proof.
  unfold training_loop. cbn [as_index].
  apply preserves_bind; [exact _|frame_leaf|]. intros _.
  apply preserves_bind_lift.
  apply preserves_bind; [exact _| |].
  - apply preserves_for_in; [exact _|]. intros epoch [] Hin.
    apply run_epoch_training_calls. now apply in_range2.
  - intros _. unfold write_file, path_join, disk_check.
    repeat first
      [ solve [intros ?w; apply calls_add_same; reflexivity]
      | solve [apply emit_adds; cbn; eauto]
      | frame_step ].
Qed.

(** X20: whatever happens, the training loop that starts at epoch [s]
    makes no listing and no download, runs steps of the epochs from [s] on
    only, writes nothing but checkpoints and the final backbone, into the
    output directory, and uploads nothing but checkpoints, to the
    container ["resnet18"]: the final backbone stays on the local disk.
    No blob of another container is changed. *)
Theorem training_uploads_checkpoints_only
  (cfg : Config F) (dataset : Dataset) (dataloader : DataLoader) (s : Z)
  (w : World) :
  let w' := snd (training_loop env cfg dataset dataloader (PInt s) w) in
  (exists t,
      calls w' = calls w ++ t /\
      Forall (training_call cfg s) t /\
      forall c, ~ In (EvUpload c "resnet18_backbone_final.pth") t) /\
  other_containers_same "resnet18" w w'.
Proof.
  cbv zeta. split; [|apply training_loop_other].
  destruct (training_loop_training_calls cfg dataset dataloader s w)
    as (t & Ht & Hall).
  exists t. split; [exact Ht|]. split; [exact Hall|].
  intros c Hin. rewrite Forall_forall in Hall.
  apply list_elem_of_In, Hall in Hin. cbn in Hin.
  destruct Hin as [_ (e & _ & He)].
  symmetry in He. now apply final_is_no_checkpoint_name in He.
Qed.

(** *** Checkpoints on the local disk *)

Lemma fs_grows_of_fs (w1 w2 w3 : World) :
  fs w2 = fs w1 -> fs_grows w2 w3 -> fs_grows w1 w3.
Proof.
  intros E H d n (es & Hd & Hn). apply H. exists es. now rewrite E.
Qed.

Lemma fs_grows_to_fs (w1 w2 w3 : World) :
  fs w3 = fs w2 -> fs_grows w1 w2 -> fs_grows w1 w3.
Proof.
  intros E H d n Hp. destruct (H d n Hp) as (es & Hd & Hn).
  exists es. now rewrite E.
Qed.





End TrainingLoop.

(** ** [main] from a populated cache to the export *)

Section WholeRun.
Context {F : Type} {FS : Scalar F} {OptState : Type}.
Variable env : Env F OptState.
Local Abbreviation World := (World F OptState).






End WholeRun.

(** * The theorems at work on the toy world *)

Section Witnesses.

Local Open Scope string_scope.

(** A 448 by 448 image and patches of 224 pixels: four patches. *)
Lemma process_blob_tiles_row_major_witness :
  0 < 224 /\
  exists w',
    process_blob Toy.env
      ("a/one.jpg", "AccountName=toy", "data", "/mnt/data", 224)
      (Toy.world ∅)
    = (Ok "Processed a/one.jpg", w') /\
    Z.of_nat (length (grid_patches "a/one.jpg"
                        {| width := 448; height := 448;
                           pixels := [x04; x04] |} 224)) = 2 * 2.
Proof.
  split; [lia|].
  destruct (process_blob_tiles_row_major Toy.env "a/one.jpg" "AccountName=toy"
              "data" "/mnt/data" 224 (Toy.world ∅) Toy.blobs [x04; x04]
              {| width := 448; height := 448; pixels := [x04; x04] |} ∅)
    as (w' & Hrun & _ & Hlen & _).
  - lia.
  - reflexivity.
  - reflexivity.
  - reflexivity.
  - reflexivity.
  - reflexivity.
  - reflexivity.
  - intros t. reflexivity.
  - exists w'. split; [exact Hrun|exact Hlen].
Defined.



Lemma resume_failure_aborts_witness :
  fetch_or_deserialize_fails Toy.offline_env Toy.cfg (Toy.world ∅) /\
  exists w',
    resume_and_train Toy.offline_env Toy.cfg Toy.five_patches Toy.batches_of_two
      (Toy.world ∅)
    = (Ok ExitResumeFailed, w') /\
    train_steps (calls w') = [] /\
    heap w' = Toy.toy_heap.
Proof.
  assert (Hfail : fetch_or_deserialize_fails Toy.offline_env Toy.cfg
                    (Toy.world ∅)).
  { right. left.
    exists (AzureError "ServiceRequestError"),
           (emitted (EvDownload "resnet18" "checkpoint_epoch_29.pth")
                    (Toy.world ∅)).
    reflexivity. }
  split; [exact Hfail|].
  destruct (resume_failure_aborts Toy.offline_env Toy.cfg Toy.five_patches
              Toy.batches_of_two (Toy.world ∅)) as [Hany Hearly].
  destruct (Hany (AzureError "ServiceRequestError")
              (emitted (EvDownload "resnet18" "checkpoint_epoch_29.pth")
                       (Toy.world ∅)) eq_refl)
    as (w0 & Hrun0 & _).
  destruct (Hearly Hfail) as (w' & Hrun & Hsteps & Hheap).
  exists w'. split; [exact Hrun|]. split; [exact Hsteps|exact Hheap].
Defined.


Lemma preprocess_skips_populated_cache_witness :
  Toy.cache_of 10 <> ∅ /\
  exists w',
    preprocess_and_save_locally Toy.env "AccountName=toy" "data" "/mnt/data"
      224 (Toy.world (Toy.cache_of 10)) = (Ok tt, w') /\
    calls w' = [].
Proof.
  assert (Hne : Toy.cache_of 10 <> ∅).
  { intros H. apply (f_equal (fun m : gmap string content => m !! "0")) in H.
    vm_compute in H. discriminate H. }
  split; [exact Hne|].
  destruct (preprocess_skips_populated_cache Toy.env "AccountName=toy" "data"
              "/mnt/data" 224 (Toy.world (Toy.cache_of 10)) (Toy.cache_of 10))
    as (w' & Hrun & Hcalls & _).
  - apply lookup_insert_eq.
  - exact Hne.
  - exists w'. split; [exact Hrun|exact Hcalls].
Defined.


Lemma small_dataset_divides_by_zero_witness :
  1 <= dataset_len Toy.one_patch < BATCH_SIZE Toy.cfg /\
  exists w',
    training_loop Toy.env Toy.cfg Toy.one_patch
      {| dataset_of := Toy.one_patch; batch_size := 2; drop_last := true |}
      (PInt 29) (Toy.world ∅)
    = (Raise (ZeroDivisionError "float division by zero"), w').
Proof.
  assert (Hlen : 1 <= dataset_len Toy.one_patch < BATCH_SIZE Toy.cfg)
    by (split; [discriminate|reflexivity]).
  split; [exact Hlen|].
  destruct (small_dataset_divides_by_zero Toy.env Toy.cfg Toy.one_patch Hlen)
    as (_ & _ & _ & Hloop).
  destruct (Hloop 29 (Toy.world ∅) eq_refl) as (w' & Hrun & _).
  exists w'. exact Hrun.
Defined.

Lemma checkpoint_name_is_resume_epoch_witness :
  checkpoint_name (28 + 1) = CHECKPOINT_BLOB_NAME Toy.cfg /\
  exists w1,
    save_checkpoint Toy.env Toy.cfg 28 0%Q (Toy.world ∅) = (Ok tt, w1) /\
    exists w3,
      load_checkpoint Toy.env Toy.cfg (with_heap Toy.toy_heap w1)
      = (Ok (PInt 29), w3).
Proof.
  split; [reflexivity|].
  destruct (checkpoint_name_is_resume_epoch Toy.env Toy.cfg 28 0%Q
              (Toy.world ∅) ∅)
    as (w1 & Hsave & _ & _ & _ & _ & _ & Hresume).
  - reflexivity.
  - reflexivity.
  - reflexivity.
  - intros t. reflexivity.
  - exists w1. split; [exact Hsave|].
    destruct (Hresume Toy.cfg 29 (with_heap Toy.toy_heap w1))
      as (_ & w3 & Hload).
    + reflexivity.
    + reflexivity.
    + reflexivity.
    + reflexivity.
    + reflexivity.
    + reflexivity.
    + reflexivity.
    + repeat constructor.
    + repeat constructor.
    + repeat constructor.
    + apply (bool_decide_unpack _). vm_compute. exact I.
    + apply (bool_decide_unpack _). vm_compute. exact I.
    + apply (bool_decide_unpack _). vm_compute. exact I.
    + reflexivity.
    + exists w3. exact Hload.
Defined.

(** ** Whole runs of [main] *)

(** Five cached patches, batches of two, a checkpoint of epoch 28 and 31
    epochs in all: epochs 29 and 30 are run, two steps each. *)
Example main_resumes_and_finishes :
  fst (main_with Toy.env Toy.cfg (Toy.world (Toy.cache_of 5))) = Ok ExitFinished /\
  train_steps (calls (snd (main_with Toy.env Toy.cfg
                             (Toy.world (Toy.cache_of 5)))))
  = [(29, 0%nat); (29, 1%nat); (30, 0%nat); (30, 1%nat)].
Proof. split; vm_compute; reflexivity. Qed.

(** One cached patch and batches of two: the first epoch divides by
    zero. *)
Example main_single_patch_raises :
  fst (main_with Toy.env Toy.cfg (Toy.world (Toy.cache_of 1)))
  = Raise (ZeroDivisionError "float division by zero") /\
  train_steps (calls (snd (main_with Toy.env Toy.cfg
                             (Toy.world (Toy.cache_of 1))))) = [].
Proof. split; vm_compute; reflexivity. Qed.

(** No network: [main] returns from the handler with the networks as
    they were created. *)
Example main_offline_returns :
  fst (main_with Toy.offline_env Toy.cfg (Toy.world (Toy.cache_of 5)))
  = Ok ExitResumeFailed /\
  heap (snd (main_with Toy.offline_env Toy.cfg (Toy.world (Toy.cache_of 5))))
  = fresh_heap Toy.offline_env /\
  train_steps (calls (snd (main_with Toy.offline_env Toy.cfg
                             (Toy.world (Toy.cache_of 5))))) = [].
Proof. repeat split; vm_compute; reflexivity. Qed.

(** The four objects that pass the filter of the toy account: three are
    processed, the one that does not decode is reported as failed. *)
Example pool_reports_each_object :
  fst (pool_imap_unordered (process_blob Toy.env)
         (tasks_of "AccountName=toy" "data" "/mnt/data" 224
            ["a/one.jpg"; "notes_png"; "broken.jpeg"; "two.PNG"])
         (Toy.world ∅))
  = Ok ["Processed a/one.jpg"; "Processed notes_png";
        "Failed to process broken.jpeg: cannot identify image file";
        "Processed two.PNG"].
Proof. vm_compute. reflexivity. Qed.

End Witnesses.

(** * The further properties at work on the toy world *)

Section FurtherWitnesses.

Local Open Scope string_scope.

(** Patch sizes 0 and -224 on the 448 by 448 image. *)
Lemma process_blob_nonpositive_patch_size_witness :
  fst (process_blob Toy.env
         ("a/one.jpg", "AccountName=toy", "data", "/mnt/data", 0) (Toy.world ∅))
  = Ok "Failed to process a/one.jpg: range() arg 3 must not be zero" /\
  fst (process_blob Toy.env
         ("a/one.jpg", "AccountName=toy", "data", "/mnt/data", -224) (Toy.world ∅))
  = Ok "Processed a/one.jpg".
Proof.
  split.
  - rewrite (process_blob_nonpositive_patch_size Toy.env "a/one.jpg"
               "AccountName=toy" "data" "/mnt/data" 0 (Toy.world ∅) Toy.blobs
               [x04; x04] Cases.one_jpg);
      [reflexivity|lia|reflexivity..].
  - rewrite (process_blob_nonpositive_patch_size Toy.env "a/one.jpg"
               "AccountName=toy" "data" "/mnt/data" (-224) (Toy.world ∅) Toy.blobs
               [x04; x04] Cases.one_jpg);
      [reflexivity|lia|reflexivity..].
Defined.

(** Patches of 1000 pixels on the 448 by 448 image. *)
Lemma process_blob_image_smaller_than_patch_witness :
  process_blob Toy.env
    ("a/one.jpg", "AccountName=toy", "data", "/mnt/data", 1000) (Toy.world ∅)
  = (Ok "Processed a/one.jpg",
     emitted (EvDownload "data" "a/one.jpg") (Toy.world ∅)).
Proof.
  apply (process_blob_image_smaller_than_patch Toy.env "a/one.jpg"
           "AccountName=toy" "data" "/mnt/data" 1000 (Toy.world ∅) Toy.blobs
           [x04; x04] Cases.one_jpg);
    [lia|left; reflexivity|reflexivity..].
Defined.

(** The disk is full after two of the four patches. *)
Lemma process_blob_writes_grid_prefix_witness :
  exists msg (n : nat) w',
    process_blob Cases.full_disk_env
      ("a/one.jpg", "AccountName=toy", "data", "/mnt/data", 224) (Toy.world ∅)
    = (Ok msg, w') /\
    (n <= 4)%nat /\
    length (calls w') = S n.
Proof.
  destruct (process_blob_writes_grid_prefix Cases.full_disk_env "a/one.jpg"
              "AccountName=toy" "data" "/mnt/data" 224 (Toy.world ∅) Toy.blobs
              [x04; x04] Cases.one_jpg)
    as (msg & n & w' & Hrun & Hn & Hcalls & _);
    [lia|reflexivity..|].
  exists msg, n, w'. split; [exact Hrun|]. split; [exact Hn|].
  rewrite Hcalls. cbn [Toy.world calls app length]. f_equal.
  unfold saves. rewrite length_map, length_take.
  change (length (grid_patches "a/one.jpg" Cases.one_jpg 224)) with 4%nat in *.
  lia.
Defined.

Example full_disk_keeps_the_first_two_patches :
  fst (process_blob Cases.full_disk_env
         ("a/one.jpg", "AccountName=toy", "data", "/mnt/data", 224) (Toy.world ∅))
  = Ok "Failed to process a/one.jpg: No space left on device" /\
  (exists entries,
     fs (snd (process_blob Cases.full_disk_env
                ("a/one.jpg", "AccountName=toy", "data", "/mnt/data", 224)
                (Toy.world ∅))) !! "/mnt/data" = Some (Dir entries) /\
     map fst (map_to_list entries) ≡ₚ ["a_one_patch_0.png"; "a_one_patch_1.png"]).
Proof.
  split; [vm_compute; reflexivity|].
  eexists. split; [vm_compute; reflexivity|].
  vm_compute. apply perm_swap || reflexivity.
Qed.

(** The pixel (300, 100) of the 448 by 448 image lies in one patch. *)
Lemma patches_cover_each_grid_pixel_once_witness :
  exists w' (boxes : list (Z * Z * Z * Z)),
    process_blob Toy.env
      ("a/one.jpg", "AccountName=toy", "data", "/mnt/data", 224) (Toy.world ∅)
    = (Ok "Processed a/one.jpg", w') /\
    exists (k : nat) b,
      boxes !! k = Some b /\ in_box b 300 100 /\
      forall (k' : nat) b',
        boxes !! k' = Some b' -> in_box b' 300 100 -> k' = k.
Proof.
  destruct (patches_cover_each_grid_pixel_once Toy.env "a/one.jpg"
              "AccountName=toy" "data" "/mnt/data" 224 (Toy.world ∅) Toy.blobs
              [x04; x04] Cases.one_jpg ∅)
    as (w' & boxes & Hrun & _ & Hpix);
    [lia|reflexivity..|intros t; reflexivity|].
  exists w', boxes. split; [exact Hrun|].
  destruct (Hpix 300 100) as [Hin _]; [cbn; lia..|].
  apply Hin. split; reflexivity.
Defined.

(** Four patches into the empty cache: a dataset of four items. *)
Lemma dataset_counts_the_patches_of_an_object_witness :
  exists w' dataset,
    process_blob Toy.env
      ("a/one.jpg", "AccountName=toy", "data", "/mnt/data", 224) (Toy.world ∅)
    = (Ok "Processed a/one.jpg", w') /\
    PatchedImageDataset "/mnt/data" w' = (Ok dataset, w') /\
    dataset_len dataset = 4.
Proof.
  destruct (dataset_counts_the_patches_of_an_object Toy.env "a/one.jpg"
              "AccountName=toy" "data" "/mnt/data" 224 (Toy.world ∅) Toy.blobs
              [x04; x04] Cases.one_jpg ∅)
    as (w' & dataset & Hrun & Hds & Hlen);
    [lia|reflexivity..|intros t; reflexivity|intros k; apply lookup_empty|].
  exists w', dataset. split; [exact Hrun|]. split; [exact Hds|].
  rewrite Hlen. reflexivity.
Defined.

(** ["a/b.jpg"] and ["a_b.png"]. *)
Lemma patch_names_ignore_extension_and_slash_witness :
  patch_filename "a/b.jpg" 7 = patch_filename "a_b.png" 7.
Proof.
  apply (patch_names_ignore_extension_and_slash "a/b" "a_b" "jpg" "png" 7);
    reflexivity.
Defined.

(** No network, and a container that does not exist yet. *)
Lemma upload_takes_failed_creation_for_existing_witness :
  exists e' w',
    upload_checkpoint_to_azure Toy.offline_env "AccountName=toy" "backup"
      ("/mnt/out", "x.pth") "x.pth" (Toy.world ∅) = (Ok tt, w') /\
    stdout w'
    = ["Container 'backup' already exists.";
       "Uploading checkpoint to Azure as blob: x.pth...";
       "WARNING: Failed to upload checkpoint to Azure. Error: " +:+ str_exc e'].
Proof.
  destruct (upload_takes_failed_creation_for_existing Toy.offline_env
              "AccountName=toy" "backup" ("/mnt/out", "x.pth") "x.pth"
              (Toy.world ∅) (AzureError "ServiceRequestError"))
    as (e' & w' & Hrun & Hout & _);
    [reflexivity..|].
  exists e', w'. split; [exact Hrun|exact Hout].
Defined.

(** The file to upload does not exist; the container is created. *)
Lemma upload_of_missing_file_creates_container_witness :
  exists w',
    upload_checkpoint_to_azure Toy.env "AccountName=toy" "backup"
      ("/mnt/out", "missing.pth") "missing.pth" (Toy.world ∅) = (Ok tt, w') /\
    azure w' !! "backup" = Some ∅ /\
    calls w' = [EvCreateContainer "backup"].
Proof.
  destruct (upload_of_missing_file_creates_container Toy.env "AccountName=toy"
              "backup" "/mnt/out" "missing.pth" "missing.pth" (Toy.world ∅))
    as (e & w' & Hrun & Hcalls & Haz & _).
  - reflexivity.
  - reflexivity.
  - intros entries H.
    assert (E : fs (Toy.world ∅) !! "/mnt/out"
                = Some (Dir (∅ : gmap string content))) by reflexivity.
    rewrite E in H. injection H as <-. apply lookup_empty.
  - exists w'. split; [exact Hrun|]. split; [|exact Hcalls].
    rewrite Haz. reflexivity.
Defined.

(** The container of the checkpoints as source: it holds no image. *)
Lemma preprocess_without_images_warns_and_returns_witness :
  exists w',
    preprocess_and_save_locally Toy.env "AccountName=toy" "resnet18" "/mnt/data"
      224 (Toy.world ∅) = (Ok tt, w') /\
    calls w' = [EvListBlobs "resnet18"].
Proof.
  destruct (preprocess_without_images_warns_and_returns Toy.env
              "AccountName=toy" "resnet18" "/mnt/data" 224 (Toy.world ∅)
              (<["checkpoint_epoch_29.pth" := [x1c]]> ∅))
    as (w' & Hrun & Hcalls & _).
  - reflexivity.
  - left. reflexivity.
  - reflexivity.
  - reflexivity.
  - intros name [b Hb].
    destruct (decide (name = "checkpoint_epoch_29.pth")) as [->|Hne];
      [reflexivity|].
    rewrite lookup_insert_ne in Hb by congruence.
    rewrite lookup_empty in Hb. discriminate Hb.
  - exists w'. split; [exact Hrun|exact Hcalls].
Defined.

(** No network: the listing fails, and [main] raises. *)
Lemma preprocess_reraises_a_failed_listing_witness :
  exists w',
    main_with Toy.offline_env Toy.cfg (Toy.world ∅)
    = (Raise (AzureError "ServiceRequestError"), w') /\
    heap w' = Toy.toy_heap.
Proof.
  destruct (preprocess_reraises_a_failed_listing Toy.offline_env
              "AccountName=toy" "data" "/mnt/data" 224 (Toy.world ∅)
              (AzureError "ServiceRequestError"))
    as [_ Hmain].
  - left. reflexivity.
  - right. left. split; reflexivity.
  - destruct (Hmain Toy.cfg eq_refl eq_refl eq_refl) as (w' & Hrun & Hheap & _);
      [discriminate|].
    exists w'. split; [exact Hrun|exact Hheap].
Defined.


(** [main] over the container without images. *)
Lemma main_stops_on_an_empty_cache_witness :
  fst (main_with Toy.env Cases.no_images_cfg (Toy.world ∅))
  = Ok ExitEmptyDataset.
Proof.
  rewrite (main_stops_on_an_empty_cache Toy.env Cases.no_images_cfg (Toy.world ∅)
             (snd (preprocess_and_save_locally Toy.env "AccountName=toy"
                     "resnet18" "/mnt/data" 224
                     (printed "Using device" (Toy.world ∅))))).
  - reflexivity.
  - discriminate.
  - vm_compute. reflexivity.
  - vm_compute. reflexivity.
Defined.

(** Two networks of two parameters each, over the rationals. *)
Lemma ema_update_keeps_the_structure_of_the_target_witness :
  exists updated,
    update_moving_average (Toy.toy_net 3) (Toy.toy_net 2) (1 # 2)%Q (Toy.world ∅)
    = (Ok updated, Toy.world ∅) /\
    map fst updated = ["0.weight"; "1.weight"].
Proof.
  destruct (ema_update_keeps_the_structure_of_the_target
              (Toy.toy_net 3) (Toy.toy_net 2) (1 # 2)%Q (Toy.world ∅))
    as (updated & Hrun & Hnames & _).
  - split; [reflexivity|]. split; [reflexivity|exact I].
  - exists updated. split; [exact Hrun|exact Hnames].
Defined.



(** A checkpoint of the last epoch: nothing left to train. *)
Lemma resume_at_the_last_epoch_only_exports_witness :
  exists w',
    training_loop Toy.env Toy.cfg Toy.one_patch
      {| dataset_of := Toy.one_patch; batch_size := 2; drop_last := true |}
      (PInt 31) (Toy.world ∅)
    = (Ok ExitFinished, w') /\
    train_steps (calls w') = [].
Proof.
  destruct (resume_at_the_last_epoch_only_exports Toy.env Toy.cfg Toy.one_patch
              {| dataset_of := Toy.one_patch; batch_size := 2; drop_last := true |}
              31 (Toy.world ∅) ∅)
    as (w' & Hrun & Hcalls & _).
  - reflexivity.
  - reflexivity.
  - reflexivity.
  - exists w'. split; [exact Hrun|]. rewrite Hcalls. reflexivity.
Defined.



End FurtherWitnesses.
